(** * The surveillance-planes notebook (hw6_planes), embedded in Rocq

    The program is a Jupyter notebook: a list of cells run against one
    kernel namespace.  Every cell is a short sequence of pandas and
    scikit-learn calls.  The embedding has three layers:

    - [Pandas]: the data-frame operations the cells call ([read_csv],
      [merge], [replace], [dropna], [drop], boolean indexing,
      [sort_values], [head], [to_csv], the [.cat] accessor), as executable
      functions on tables;
    - [Sklearn]: [train_test_split], [confusion_matrix], [accuracy_score]
      as executable functions, and the estimators as records that remember
      their hyper-parameters and the matrix they were fitted on.  What a
      fitted estimator computes (probabilities, importances, coefficients),
      the random permutation drawn by the splitter and the argsort behind
      [sort_values] are functions of a [Backend] record: the notebook only
      moves their results around;
    - [Notebook]: the kernel state (global names, files, printed output,
      attribute reads, raised exceptions) and one definition per code cell.

    Numbers are rationals ([Q]): every comparison the notebook performs on
    floats (sorting probabilities, comparing labels) is a comparison of
    exactly represented values, and [accuracy_score] is kept as the exact
    quotient that the float result rounds. *)

From Stdlib Require Import QArith Qround.
From stdpp Require Import gmap strings list fin_maps sorting.
Local Open Scope nat_scope.

(** ** Exceptions *)

Inductive exn :=
| NameError (name : string)
| AttributeError (attr : string)
| KeyError (key : string)
| ValueError (msg : string)
| TypeError (msg : string)
| FileNotFoundError (path : string).

Inductive result (A : Type) :=
| Ok (a : A)
| Raise (e : exn).
Arguments Ok {A} a.
Arguments Raise {A} e.

#[global] Instance result_ret : MRet result := λ A a, Ok a.
#[global] Instance result_bind : MBind result :=
  λ A B f m, match m with Ok a => f a | Raise e => Raise e end.

(** ** pandas *)

Module Pandas.

(** A cell of a table: missing ([NaN]), text, or a number. *)
Inductive value :=
| NaN
| Str (s : string)
| Num (q : Q).

Definition isna (v : value) : bool :=
  match v with NaN => true | _ => false end.

(** Key comparison of [merge]: missing keys match each other. *)
Definition value_eqb (a b : value) : bool :=
  match a, b with
  | NaN, NaN => true
  | Str s, Str t => bool_decide (s = t)
  | Num p, Num q => Qeq_bool p q
  | _, _ => false
  end.

(** A row carries its index label and its cells by column name. *)
Record Row := mkRow { idx : nat; cells : list (string * value) }.

Record DataFrame := mkDF {
  columns : list string;
  categorical : list string;  (* the columns whose dtype is [category] *)
  rows : list Row
}.

Record Series := mkSeries {
  sname : string;
  category : bool;
  index : list nat;
  values : list value
}.

(** A boolean Series, as produced by [isnull]. *)
Record Mask := mkMask { mindex : list nat; mvalues : list bool }.

(** A delimited text file, already split into typed fields. *)
Record csv := mkCsv { header : list string; records : list (list value) }.

Fixpoint assoc (c : string) (cs : list (string * value)) : value :=
  match cs with
  | [] => NaN
  | (k, v) :: cs' => if bool_decide (k = c) then v else assoc c cs'
  end.

Fixpoint set_cell (c : string) (v : value) (cs : list (string * value))
  : list (string * value) :=
  match cs with
  | [] => [(c, v)]
  | (k, w) :: cs' =>
      if bool_decide (k = c) then (k, v) :: cs' else (k, w) :: set_cell c v cs'
  end.

Definition column_values (d : DataFrame) (c : string) : list value :=
  (λ r, assoc c (cells r)) <$> rows d.

Definition labels_of (d : DataFrame) : list nat := idx <$> rows d.

(** [pd.read_csv(path)]: a fresh RangeIndex, no categorical column; short
    records are padded with missing values. *)
Definition read_csv (f : csv) : DataFrame :=
  let pad rec := rec ++ replicate (length (header f) - length rec) NaN in
  mkDF (header f) [] (imap (λ i rec, mkRow i (zip (header f) (pad rec))) (records f)).

(** [d[c]] *)
Definition getitem (d : DataFrame) (c : string) : result Series :=
  if bool_decide (c ∈ columns d)
  then Ok (mkSeries c (bool_decide (c ∈ categorical d)) (labels_of d) (column_values d c))
  else Raise (KeyError c).

(** [d.c] *)
Definition getattr (d : DataFrame) (c : string) : result Series :=
  if bool_decide (c ∈ columns d)
  then Ok (mkSeries c (bool_decide (c ∈ categorical d)) (labels_of d) (column_values d c))
  else Raise (AttributeError c).

Definition set_column (d : DataFrame) (c : string) (cat : bool) (vs : list value)
  : DataFrame :=
  mkDF (if bool_decide (c ∈ columns d) then columns d else columns d ++ [c])
       (if cat then c :: filter (λ k, k ≠ c) (categorical d)
        else filter (λ k, k ≠ c) (categorical d))
       (zip_with (λ r v, mkRow (idx r) (set_cell c v (cells r))) (rows d) vs).

Fixpoint loc (i : nat) (ix : list nat) (vs : list value) : value :=
  match ix, vs with
  | j :: ix', v :: vs' => if bool_decide (j = i) then v else loc i ix' vs'
  | _, _ => NaN
  end.

(** [d[c] = s] with a Series: positional when the indexes coincide, aligned
    on the index label otherwise. *)
Definition setitem (d : DataFrame) (c : string) (s : Series) : DataFrame :=
  let vs := if bool_decide (index s = labels_of d) then values s
            else (λ r, loc (idx r) (index s) (values s)) <$> rows d in
  set_column d c (category s) vs.

(** [d[c] = a] with an array: the lengths must agree. *)
Definition setitem_array (d : DataFrame) (c : string) (a : list Q) : result DataFrame :=
  if bool_decide (length a = length (rows d))
  then Ok (set_column d c false (Num <$> a))
  else Raise (ValueError "Length of values does not match length of index").

Definition suffixed (sfx : string) (overlap : list string) (c : string) : string :=
  if bool_decide (c ∈ overlap) then c +:+ sfx else c.

(** [pd.merge(l, r, on=key, how='left')]: every left row, in order; for each
    the right rows with an equal key, in their order, or one row of missing
    right cells when there is none.  Column names that both sides carry
    (the key apart) get the suffixes [_x] and [_y]. *)
Definition right_columns (on : string) (r : DataFrame) : list string :=
  filter (λ c, c ≠ on) (columns r).

Definition overlapping (on : string) (l r : DataFrame) : list string :=
  filter (λ c, c ∈ right_columns on r) (columns l).

Definition matches (on : string) (lr : Row) (r : DataFrame) : list Row :=
  List.filter (λ rr, value_eqb (assoc on (cells lr)) (assoc on (cells rr))) (rows r).

Definition join_row (on : string) (l r : DataFrame) (lr : Row)
  : list (list (string * value)) :=
  let overlap := overlapping on l r in
  let lcells := prod_map (suffixed "_x" overlap) id <$> cells lr in
  match matches on lr r with
  | [] => [lcells ++ ((λ c, (suffixed "_y" overlap c, NaN)) <$> right_columns on r)]
  | ms => (λ rr, lcells ++ ((λ c, (suffixed "_y" overlap c, assoc c (cells rr)))
                              <$> right_columns on r)) <$> ms
  end.

Definition merge_left (l r : DataFrame) (on : string) : result DataFrame :=
  if bool_decide (on ∈ columns l) && bool_decide (on ∈ columns r) then
    let overlap := overlapping on l r in
    Ok (mkDF ((suffixed "_x" overlap <$> columns l)
                ++ (suffixed "_y" overlap <$> right_columns on r))
             ((suffixed "_x" overlap <$> categorical l)
                ++ (suffixed "_y" overlap <$> filter (λ c, c ≠ on) (categorical r)))
             (imap mkRow (rows l ≫= join_row on l r)))
  else Raise (KeyError on).

(** [s.replace({k1: v1, ...})] with text keys. *)
Fixpoint lookup_text (s : string) (m : list (string * value)) : option value :=
  match m with
  | [] => None
  | (k, v) :: m' => if bool_decide (k = s) then Some v else lookup_text s m'
  end.

Definition replace_value (m : list (string * value)) (v : value) : value :=
  match v with
  | Str s => default v (lookup_text s m)
  | _ => v
  end.

Definition replace (m : list (string * value)) (s : Series) : Series :=
  mkSeries (sname s) false (index s) (replace_value m <$> values s).

(** [s.isnull()] *)
Definition isnull (s : Series) : Mask := mkMask (index s) (isna <$> values s).

(** [d[mask]] *)
Definition getitem_mask (d : DataFrame) (m : Mask) : result DataFrame :=
  if bool_decide (mindex m = labels_of d)
  then Ok (mkDF (columns d) (categorical d)
                (fst <$> List.filter snd (zip (rows d) (mvalues m))))
  else Raise (ValueError "Unalignable boolean Series provided as indexer").

Definition complete (r : Row) : bool := forallb (λ kv, negb (isna kv.2)) (cells r).

(** [d.dropna()]: [axis=0], [how='any'] are the defaults. *)
Definition dropna (d : DataFrame) : DataFrame :=
  mkDF (columns d) (categorical d) (List.filter complete (rows d)).

(** [d.drop(cs, axis=1)] and [d.drop(columns=cs)] *)
Definition drop (d : DataFrame) (cs : list string) : result DataFrame :=
  match filter (λ c, c ∉ columns d) cs with
  | [] => Ok (mkDF (filter (λ c, c ∉ cs) (columns d))
                   (filter (λ c, c ∉ cs) (categorical d))
                   ((λ r, mkRow (idx r) (filter (λ kv, kv.1 ∉ cs) (cells r))) <$> rows d))
  | c :: _ => Raise (KeyError c)
  end.

(** [nargsort]: the positions of [items] in sorted order, missing values
    last.  For a descending sort pandas reverses the items, argsorts them
    in ascending order and reverses the outcome. *)
Definition nargsort (argsort : list Q → list nat) (items : list (option Q))
    (ascending : bool) : list nat :=
  let entries := zip (seq 0 (length items)) items in
  let non_nan := omap (λ p, pair p.1 <$> p.2) entries in
  let nan_idx := fst <$> filter (λ p, p.2 = None) entries in
  let non_nan := if ascending then non_nan else reverse non_nan in
  let indexer := omap (λ j, fst <$> non_nan !! j) (argsort (snd <$> non_nan)) in
  (if ascending then indexer else reverse indexer) ++ nan_idx.

Definition sort_key (v : value) : result (option Q) :=
  match v with
  | NaN => Ok None
  | Num q => Ok (Some q)
  | Str _ => Raise (TypeError "'<' not supported between instances of 'str' and 'float'")
  end.

(** [d.sort_values(by=c, ascending=asc)]; no [kind] is passed, so the
    argsort is the default one of the backend. *)
Definition sort_values (argsort : list Q → list nat) (d : DataFrame) (by_ : string)
    (ascending : bool) : result DataFrame :=
  if bool_decide (by_ ∈ columns d) then
    keys ← mapM sort_key (column_values d by_);
    Ok (mkDF (columns d) (categorical d)
             (omap (λ i, rows d !! i) (nargsort argsort keys ascending)))
  else Raise (KeyError by_).

(** [d.head(n)] *)
Definition head (n : nat) (d : DataFrame) : DataFrame :=
  mkDF (columns d) (categorical d) (take n (rows d)).

(** [d.to_csv(path, index=False)]: the header and one record per row, the
    index labels left out. *)
Definition to_csv (d : DataFrame) : csv :=
  mkCsv (columns d) ((λ r, (λ c, assoc c (cells r)) <$> columns d) <$> rows d).

(** The [category] dtype: the categories are the distinct text values in
    lexicographic order, the code of a value its position among them and
    [-1] for a missing value. *)
Fixpoint insert_category (s : string) (cats : list string) : list string :=
  match cats with
  | [] => [s]
  | c :: cats' =>
      match String.compare s c with
      | Lt => s :: cats
      | Eq => cats
      | Gt => c :: insert_category s cats'
      end
  end.

Definition categories (vs : list value) : list string :=
  foldr (λ v acc, match v with Str s => insert_category s acc | _ => acc end) [] vs.

Definition code_of (cats : list string) (v : value) : value :=
  match v with
  | Str s => match list_find (λ c, c = s) cats with
             | Some (i, _) => Num (inject_Z (Z.of_nat i))
             | None => Num (-1)
             end
  | _ => Num (-1)
  end.

(** [s.astype('category')] *)
Definition astype_category (s : Series) : Series :=
  mkSeries (sname s) true (index s) (values s).

(** [s.cat.codes]: the accessor exists on categorical data only. *)
Definition cat_codes (s : Series) : result Series :=
  if category s
  then Ok (mkSeries (sname s) false (index s) (code_of (categories (values s)) <$> values s))
  else Raise (AttributeError "Can only use .cat accessor with a 'category' dtype").

End Pandas.

(** ** scikit-learn and numpy *)

Module Sklearn.
Import Pandas.

Inductive estimator :=
| LogisticRegression (C : Q) (max_iter : nat)
| DecisionTreeClassifier (max_depth : nat)
| RandomForestClassifier (n_estimators max_depth : nat).

(** What [fit] has seen: the feature names and the numeric matrix and
    target vector. *)
Record training := mkTraining {
  feature_names_in : list string;
  X_fit : list (list Q);
  y_fit : list Q
}.

Record classifier := mkClassifier { params : estimator; fitted : option training }.

(** The numeric procedures of the libraries.  The notebook passes their
    results on and never looks inside them. *)
Record Backend := mkBackend {
  argsort : list Q → list nat;                      (* [ndarray.argsort()], default kind *)
  permutation : nat → list nat;                     (* [rng.permutation(n)] *)
  predict_row : estimator → training → list Q → Q;  (* the class predicted for one row *)
  proba_row : estimator → training → list Q → Q;    (* the probability of class 1 for one row *)
  importances_of : estimator → training → list Q;   (* [feature_importances_] *)
  coef_of : estimator → training → list Q           (* [coef_[0]] *)
}.

Definition to_number (v : value) : result Q :=
  match v with
  | Num q => Ok q
  | NaN => Raise (ValueError "Input contains NaN")
  | Str _ => Raise (ValueError "could not convert string to float")
  end.

Definition to_matrix (d : DataFrame) : result (list (list Q)) :=
  mapM (λ r, mapM (λ c, to_number (assoc c (cells r))) (columns d)) (rows d).

Definition to_vector (s : Series) : result (list Q) := mapM to_number (values s).

(** [est.fit(X, y)]: the input is validated, then remembered. *)
Definition fit (c : classifier) (X : DataFrame) (y : Series) : result classifier :=
  m ← to_matrix X;
  v ← to_vector y;
  if bool_decide (length m = length v) then
    match m with
    | [] => Raise (ValueError "Found array with 0 sample(s)")
    | _ => Ok (mkClassifier (params c) (Some (mkTraining (columns X) m v)))
    end
  else Raise (ValueError "Found input variables with inconsistent numbers of samples").

Definition validate (c : classifier) (X : DataFrame) : result (training * list (list Q)) :=
  match fitted c with
  | None => Raise (ValueError "This instance is not fitted yet")
  | Some t =>
      if bool_decide (columns X = feature_names_in t)
      then m ← to_matrix X; Ok (t, m)
      else Raise (ValueError "The feature names should match those that were passed during fit")
  end.

(** [est.predict(X)] *)
Definition predict (B : Backend) (c : classifier) (X : DataFrame) : result (list Q) :=
  tm ← validate c X; Ok (List.map (predict_row B (params c) tm.1) tm.2).

(** [est.predict_proba(X)[:,1]] *)
Definition predict_proba_1 (B : Backend) (c : classifier) (X : DataFrame) : result (list Q) :=
  tm ← validate c X; Ok (List.map (proba_row B (params c) tm.1) tm.2).

(** [est.feature_importances_]: trees and forests have it, once fitted. *)
Definition feature_importances_ (B : Backend) (c : classifier) : result (list Q) :=
  match params c, fitted c with
  | LogisticRegression _ _, _ => Raise (AttributeError "feature_importances_")
  | _, None => Raise (ValueError "This instance is not fitted yet")
  | p, Some t => Ok (importances_of B p t)
  end.

(** [est.coef_[0]]: set by fitting a logistic regression. *)
Definition coef_ (B : Backend) (c : classifier) : result (list Q) :=
  match params c, fitted c with
  | LogisticRegression _ _ as p, Some t => Ok (coef_of B p t)
  | _, _ => Raise (AttributeError "coef_")
  end.

Definition iloc (d : DataFrame) (ps : list nat) : DataFrame :=
  mkDF (columns d) (categorical d) (omap (λ i, rows d !! i) ps).

Definition iloc_series (s : Series) (ps : list nat) : Series :=
  mkSeries (sname s) (category s)
           (omap (λ i, index s !! i) ps) (omap (λ i, values s !! i) ps).

(** [train_test_split(X, y, test_size=t)] with a float [t]:
    [n_test = ceil(t * n)], [n_train = n - n_test], the first [n_test]
    entries of a random permutation go to the test side and the next
    [n_train] to the train side.  The result is
    [(X_train, X_test, y_train, y_test)]. *)
Definition train_test_split (B : Backend) (X : DataFrame) (y : Series) (test_size : Q)
  : result (DataFrame * DataFrame * Series * Series) :=
  let n := length (rows X) in
  if bool_decide (length (values y) = n) then
    if Qle_bool test_size 0 || Qle_bool 1 test_size
    then Raise (ValueError "test_size should be in the (0, 1) range")
    else
      let n_test := Z.to_nat (Qceiling (test_size * inject_Z (Z.of_nat n))) in
      let n_train := n - n_test in
      if bool_decide (n_train = 0)
      then Raise (ValueError "the resulting train set will be empty")
      else
        let p := permutation B n in
        let test := take n_test p in
        let train := take n_train (List.skipn n_test p) in
        Ok (iloc X train, iloc X test, iloc_series y train, iloc_series y test)
  else Raise (ValueError "Found input variables with inconsistent numbers of samples").

(** [unique_labels]: the distinct labels in increasing order. *)
Fixpoint insert_label (q : Q) (ls : list Q) : list Q :=
  match ls with
  | [] => [q]
  | l :: ls' =>
      match (q ?= l)%Q with
      | Lt => q :: ls
      | Eq => ls
      | Gt => l :: insert_label q ls'
      end
  end.

Definition unique_labels (ys : list Q) : list Q := foldr insert_label [] ys.

Definition count_pairs (a b : Q) (ps : list (Q * Q)) : nat :=
  length (List.filter (λ p, Qeq_bool p.1 a && Qeq_bool p.2 b) ps).

(** [confusion_matrix(y_true, y_pred)]: one row per true label and one
    column per predicted label, over the labels seen on either side. *)
Definition confusion_matrix (y_true y_pred : list Q) : result (list (list nat)) :=
  if bool_decide (length y_true = length y_pred) then
    let labels := unique_labels (y_true ++ y_pred) in
    Ok ((λ a, (λ b, count_pairs a b (zip y_true y_pred)) <$> labels) <$> labels)
  else Raise (ValueError "Found input variables with inconsistent numbers of samples").

Definition correct (y_true y_pred : list Q) : nat :=
  length (List.filter (λ p, Qeq_bool p.1 p.2) (zip y_true y_pred)).

(** [accuracy_score(y_true, y_pred)]: the mean of the matches, which is
    not a number on empty input. *)
Definition accuracy_score (y_true y_pred : list Q) : result value :=
  if bool_decide (length y_true = length y_pred) then
    match length y_true with
    | 0 => Ok NaN
    | S _ as n => Ok (Num (Z.of_nat (correct y_true y_pred) # Pos.of_nat n))
    end
  else Raise (ValueError "Found input variables with inconsistent numbers of samples").

End Sklearn.

(** ** The notebook *)

Module Notebook.
Import Pandas Sklearn.

(** The objects the notebook binds to names. *)
Inductive pyobj :=
| DF (d : DataFrame)
| Ser (s : Series)
| Est (c : classifier)
| Array (a : list Q)
| Matrix (m : list (list nat))
| Names (l : list string).

(** A read of a fitted attribute: through which name, which attribute, on
    which estimator. *)
Record event := mkEvent { ev_name : string; ev_attr : string; ev_target : classifier }.

(** The kernel: the global namespace, the files on disk, what was printed,
    the fitted attributes read so far, and the exceptions raised so far
    (with the number of the cell that raised). *)
Record kernel := mkKernel {
  globals : gmap string pyobj;
  files : gmap string csv;
  stdout : list value;
  reads : list event;
  raised : list (nat * exn)
}.

Definition fresh (fs : gmap string csv) : kernel := mkKernel ∅ fs [] [] [].

Definition stmt : Type := kernel → result kernel.
Definition cell : Type := list stmt.

Definition bind_name (x : string) (o : pyobj) (k : kernel) : kernel :=
  mkKernel (<[x := o]> (globals k)) (files k) (stdout k) (reads k) (raised k).

Definition write_file (path : string) (f : csv) (k : kernel) : kernel :=
  mkKernel (globals k) (<[path := f]> (files k)) (stdout k) (reads k) (raised k).

Definition print (v : value) (k : kernel) : kernel :=
  mkKernel (globals k) (files k) (stdout k ++ [v]) (reads k) (raised k).

Definition log_read (e : event) (k : kernel) : kernel :=
  mkKernel (globals k) (files k) (stdout k) (reads k ++ [e]) (raised k).

Definition log_raise (n : nat) (e : exn) (k : kernel) : kernel :=
  mkKernel (globals k) (files k) (stdout k) (reads k) (raised k ++ [(n, e)]).

Definition name (k : kernel) (x : string) : result pyobj :=
  match globals k !! x with
  | Some o => Ok o
  | None => Raise (NameError x)
  end.

Definition frame (k : kernel) (x : string) : result DataFrame :=
  o ← name k x; match o with DF d => Ok d | _ => Raise (AttributeError x) end.

Definition series (k : kernel) (x : string) : result Series :=
  o ← name k x; match o with Ser s => Ok s | _ => Raise (AttributeError x) end.

Definition estimator_named (k : kernel) (x : string) : result classifier :=
  o ← name k x; match o with Est c => Ok c | _ => Raise (AttributeError x) end.

Definition array (k : kernel) (x : string) : result (list Q) :=
  o ← name k x; match o with Array a => Ok a | _ => Raise (AttributeError x) end.

(** [x = e] *)
Definition assign (x : string) (e : kernel → result pyobj) : stmt :=
  λ k, o ← e k; Ok (bind_name x o k).

(** [x[c] = e] and [x.c = e] on a frame, with a Series on the right. *)
Definition assign_column (x c : string) (e : kernel → result Series) : stmt :=
  λ k, s ← e k; d ← frame k x; Ok (bind_name x (DF (setitem d c s)) k).

(** [x[c] = e] with an array on the right. *)
Definition assign_array (x c : string) (e : kernel → result (list Q)) : stmt :=
  λ k, a ← e k; d ← frame k x; d' ← setitem_array d c a; Ok (bind_name x (DF d') k).

Section Cells.
Variable B : Backend.

(** [e.fit(X, y)]: the estimator bound to [e] is fitted in place. *)
Definition fit_named (e X y : string) : stmt :=
  λ k, c ← estimator_named k e; d ← frame k X; s ← series k y;
       c' ← fit c d s; Ok (bind_name e (Est c') k).

(** [x = e.attr] for a fitted attribute; the read is logged. *)
Definition read_fitted (x e attr : string)
    (get : Backend → classifier → result (list Q)) : stmt :=
  λ k, c ← estimator_named k e; a ← get B c;
       Ok (bind_name x (Array a) (log_read (mkEvent e attr c) k)).

(** [X_train, X_test, y_train, y_test = train_test_split(X, y, test_size=t)] *)
Definition split_named (X y : string) (test_size : Q) : stmt :=
  λ k, d ← frame k X; s ← series k y;
       parts ← train_test_split B d s test_size;
       match parts with
       | (X_train, X_test, y_train, y_test) =>
           Ok (bind_name "y_test" (Ser y_test)
                (bind_name "y_train" (Ser y_train)
                  (bind_name "X_test" (DF X_test)
                    (bind_name "X_train" (DF X_train) k))))
       end.

(** [print('Accuracy:', metrics.accuracy_score(t, p))] *)
Definition print_accuracy (t p : string) : stmt :=
  λ k, s ← series k t; tv ← to_vector s; pv ← array k p;
       a ← accuracy_score tv pv; Ok (print a k).

(** [x.to_csv(path, index=False)] *)
Definition to_csv_named (x path : string) : stmt :=
  λ k, d ← frame k x; Ok (write_file path (to_csv d) k).

Definition columns_of (x : string) : kernel → result pyobj :=
  λ k, d ← frame k x; Ok (Names (columns d)).

(** Cells that only display a value ([adshex.shape], [X.head()], ...) bind
    nothing and are left out; so are the imports and the rendering of
    tables and of the tree.  The numbers are the positions of the cells in
    the notebook, the first cell being cell 0. *)

(** [features = pd.read_csv('data/planes_features.csv')] *)
Definition pd_read_csv (path : string) : kernel → result pyobj :=
  λ k, match files k !! path with
       | Some f => Ok (DF (read_csv f))
       | None => Raise (FileNotFoundError path)
       end.

Definition cell_4 : cell := [assign "features" (pd_read_csv "data/planes_features.csv")].

(** [labels = pd.read_csv('data/train.csv')] *)
Definition cell_5 : cell := [assign "labels" (pd_read_csv "data/train.csv")].

(** [adshex = pd.merge(features, labels, on='adshex', how='left')] *)
Definition cell_8 : cell :=
  [assign "adshex" (λ k, f ← frame k "features"; l ← frame k "labels";
                         d ← merge_left f l "adshex"; Ok (DF d))].

(** [adshex['label'] = adshex.label.replace({'surveil': 1, 'other': 0})] *)
Definition cell_14 : cell :=
  [assign_column "adshex" "label"
     (λ k, d ← frame k "adshex"; s ← getattr d "label";
           Ok (replace [("surveil", Num 1); ("other", Num 0)] s))].

(** [df.type = df.type.astype('category')] *)
Definition cell_19 : cell :=
  [assign_column "df" "type"
     (λ k, d ← frame k "df"; s ← getattr d "type"; Ok (astype_category s))].

(** [adshex['type_code'] = adshex.type.cat.codes] *)
Definition cell_21 : cell :=
  [assign_column "adshex" "type_code"
     (λ k, d ← frame k "adshex"; s ← getattr d "type"; cat_codes s)].

(** [train_df = adshex.dropna()] *)
Definition cell_26 : cell :=
  [assign "train_df" (λ k, d ← frame k "adshex"; Ok (DF (dropna d)))].

(** [train_df = train_df.drop(['adshex', 'type'], axis=1)] *)
Definition cell_28 : cell :=
  [assign "train_df" (λ k, d ← frame k "train_df"; d' ← drop d ["adshex"; "type"]; Ok (DF d'))].

(** The same statement once more. *)
Definition cell_32 : cell := cell_28.

(** [X = train_df.drop(columns='label')], [y = train_df.label] *)
Definition cell_34 : cell :=
  [assign "X" (λ k, d ← frame k "train_df"; d' ← drop d ["label"]; Ok (DF d'));
   assign "y" (λ k, d ← frame k "train_df"; s ← getattr d "label"; Ok (Ser s))].

(** [X_train, X_test, y_train, y_test = train_test_split(X, y, test_size = 0.25)] *)
Definition cell_38 : cell := [split_named "X" "y" (1 # 4)].

(** [clf = LogisticRegression(C=1e9, solver='lbfgs', max_iter=4000)],
    [clf.fit(X, y)] *)
Definition cell_44 : cell :=
  [assign "clf" (λ _, Ok (Est (mkClassifier (LogisticRegression 1000000000 4000) None)));
   fit_named "clf" "X" "y"].

(** [feature_names = X.columns], [coefficients = clf.coef_[0]] *)
Definition cell_45 : cell :=
  [assign "feature_names" (columns_of "X");
   read_fitted "coefficients" "clf" "coef_" coef_].

Definition cell_47 : cell := cell_45.

(** [y_true = y_test], [y_pred = clf.predict(X_test)],
    [matrix = confusion_matrix(y_true, y_pred)],
    [label_names = pd.Series(['not surveil', 'surveil'])] *)
Definition cell_49 : cell :=
  [assign "y_true" (λ k, name k "y_test");
   assign "y_pred" (λ k, c ← estimator_named k "clf"; d ← frame k "X_test";
                         p ← predict B c d; Ok (Array p));
   assign "matrix" (λ k, t ← series k "y_true"; tv ← to_vector t; p ← array k "y_pred";
                         m ← confusion_matrix tv p; Ok (Matrix m));
   assign "label_names"
     (λ _, Ok (Ser (mkSeries "" false [0; 1] [Str "not surveil"; Str "surveil"])))].

(** [clf = tree.DecisionTreeClassifier(max_depth=5)],
    [clf = clf.fit(X_train, y_train)] *)
Definition cell_53 : cell :=
  [assign "clf" (λ _, Ok (Est (mkClassifier (DecisionTreeClassifier 5) None)));
   fit_named "clf" "X_train" "y_train"].

(** [feature_names = X.columns], [importances = clf.feature_importances_] *)
Definition cell_56 : cell :=
  [assign "feature_names" (columns_of "X");
   read_fitted "importances" "clf" "feature_importances_" feature_importances_].

Definition cell_60 : cell := cell_49.

(** [label_names = ['not surveillance', 'surveillance']],
    [feature_names = X.columns] *)
Definition cell_62 : cell :=
  [assign "label_names" (λ _, Ok (Names ["not surveillance"; "surveillance"]));
   assign "feature_names" (columns_of "X")].

(** [model = RandomForestClassifier(n_estimators = 100, max_depth=5)],
    [model.fit(X_train, y_train)] *)
Definition cell_64 : cell :=
  [assign "model" (λ _, Ok (Est (mkClassifier (RandomForestClassifier 100 5) None)));
   fit_named "model" "X_train" "y_train"].

(** [feature_names = X.columns], [importances = clf.feature_importances_] *)
Definition cell_66 : cell := cell_56.

(** [y_pred=model.predict(X_test)],
    [print('Accuracy:', metrics.accuracy_score(y_test, y_pred))] *)
Definition cell_70 : cell :=
  [assign "y_pred" (λ k, c ← estimator_named k "model"; d ← frame k "X_test";
                         p ← predict B c d; Ok (Array p));
   print_accuracy "y_test" "y_pred"].

(** [clf = RandomForestClassifier(n_estimators = 100, max_depth=5)],
    [clf = clf.fit(X, y)] *)
Definition cell_74 : cell :=
  [assign "clf" (λ _, Ok (Est (mkClassifier (RandomForestClassifier 100 5) None)));
   fit_named "clf" "X" "y"].

(** [new_df = adshex[adshex.label.isnull()]] *)
Definition cell_76 : cell :=
  [assign "new_df" (λ k, d ← frame k "adshex"; s ← getattr d "label";
                         d' ← getitem_mask d (isnull s); Ok (DF d'))].

(** [X = new_df.drop(columns=['label', 'adshex', 'type'], axis=1)] *)
Definition cell_81 : cell :=
  [assign "X" (λ k, d ← frame k "new_df"; d' ← drop d ["label"; "adshex"; "type"]; Ok (DF d'))].

(** [X['predicted'] = clf.predict(X)] *)
Definition cell_83 : cell :=
  [assign_array "X" "predicted"
     (λ k, c ← estimator_named k "clf"; d ← frame k "X"; predict B c d)].

(** [X = X.drop(columns=['predicted'], axis=1)] *)
Definition cell_89 : cell :=
  [assign "X" (λ k, d ← frame k "X"; d' ← drop d ["predicted"]; Ok (DF d'))].

(** [X['predicted_prob'] = clf.predict_proba(X)[:,1]] *)
Definition cell_90 : cell :=
  [assign_array "X" "predicted_prob"
     (λ k, c ← estimator_named k "clf"; d ← frame k "X"; predict_proba_1 B c d)].

(** [df = X.sort_values(by='predicted_prob', ascending=False).head(200)] *)
Definition cell_93 : cell :=
  [assign "df" (λ k, d ← frame k "X";
                     d' ← sort_values (argsort B) d "predicted_prob" false;
                     Ok (DF (head 200 d')))].

(** [df.to_csv('spy_planes', index=False)] *)
Definition cell_94 : cell := [to_csv_named "df" "spy_planes"].

(** [df = pd.read_csv('spy_planes')] *)
Definition cell_95 : cell := [assign "df" (pd_read_csv "spy_planes")].

(** The notebook, top to bottom. *)
Definition loading : list (nat * cell) := [(4, cell_4); (5, cell_5); (8, cell_8)].
Definition encoding : list (nat * cell) := [(14, cell_14); (19, cell_19); (21, cell_21)].
Definition training_set : list (nat * cell) :=
  [(26, cell_26); (28, cell_28); (32, cell_32); (34, cell_34)].
Definition splitting : list (nat * cell) := [(38, cell_38)].
Definition logistic : list (nat * cell) :=
  [(44, cell_44); (45, cell_45); (47, cell_47); (49, cell_49)].
Definition decision_tree : list (nat * cell) :=
  [(53, cell_53); (56, cell_56); (60, cell_60); (62, cell_62)].
Definition random_forest : list (nat * cell) :=
  [(64, cell_64); (66, cell_66); (70, cell_70)].
Definition scoring : list (nat * cell) :=
  [(74, cell_74); (76, cell_76); (81, cell_81); (83, cell_83); (89, cell_89);
   (90, cell_90); (93, cell_93); (94, cell_94); (95, cell_95)].

Definition notebook : list (nat * cell) :=
  loading ++ encoding ++ training_set ++ splitting ++ logistic
    ++ decision_tree ++ random_forest ++ scoring.

(** Running a cell: its statements in order; an exception ends the cell,
    keeps what the earlier statements of the cell did and is recorded.
    The kernel survives it, and the next cell runs in the namespace as it
    then is. *)
Fixpoint exec (n : nat) (c : cell) (k : kernel) : kernel :=
  match c with
  | [] => k
  | s :: c' =>
      match s k with
      | Ok k' => exec n c' k'
      | Raise e => log_raise n e k
      end
  end.

Definition run (cs : list (nat * cell)) (k : kernel) : kernel :=
  foldl (λ k nc, exec nc.1 nc.2 k) k cs.

End Cells.

End Notebook.

(** ** Vocabulary of the statements *)

Module Spec.
Import Pandas Sklearn Notebook.

(** A well-formed frame: distinct column names, and every row has exactly
    the cells its columns name, in order. *)
Definition wf (d : DataFrame) : Prop :=
  NoDup (columns d) ∧ Forall (λ r, (cells r).*1 = columns d) (rows d).



Definition key_at (keys : list Q) (i : nat) : Q := default 0%Q (keys !! i).

(** The documented contract of an argsort of any kind: the positions of
    the input, each once, ordered by their keys. *)
Definition argsort_spec (f : list Q → list nat) : Prop :=
  ∀ keys, f keys ≡ₚ seq 0 (length keys)
          ∧ StronglySorted (λ i j, (key_at keys i <= key_at keys j)%Q) (f keys).

(** The contract of [rng.permutation(n)], whatever the seed. *)
Definition permutation_spec (p : nat → list nat) : Prop :=
  ∀ n, p n ≡ₚ seq 0 n.

Definition ordered_by (keys : list Q) (i j : nat) : Prop :=
  (key_at keys i <= key_at keys j)%Q.


(** Rows of a frame, top to bottom, keep their original order among ties
    of column [c]: of two rows with equal values the one with the smaller
    index label comes first. *)
Definition ties_in_original_order (c : string) (rs : list Row) : Prop :=
  ∀ i j ri rj, i < j → rs !! i = Some ri → rs !! j = Some rj →
    value_eqb (assoc c (cells ri)) (assoc c (cells rj)) = true → idx ri < idx rj.

Definition sum_cells (m : list (list nat)) : nat := sum_list (concat m).

(** The counts of [confusion_matrix] over given row and column labels. *)
Definition table (ls ls' : list Q) (ps : list (Q * Q)) : list (list nat) :=
  (λ a, (λ b, count_pairs a b ps) <$> ls') <$> ls.

(** How many of the labels [ls] equal [q]. *)
Definition hits (q : Q) (ls : list Q) : nat := length (List.filter (λ b, Qeq_bool q b) ls).



(** The cells up to and including cell [n]. *)
Definition upto (n : nat) (cs : list (nat * cell)) : list (nat * cell) :=
  filter (λ nc, nc.1 ≤ n) cs.

(** A statement keeps [I] when it succeeds from a kernel in which [I]
    holds. *)
Definition preserved (I : kernel → Prop) (s : stmt) : Prop :=
  ∀ k k', I k → s k = Ok k' → I k'.

(** [I] does not look at the record of raised exceptions. *)
Definition blind_to_raises (I : kernel → Prop) : Prop :=
  ∀ n e k, I k → I (log_raise n e k).

(** What cell 14 makes of a row of the merged table. *)
Definition relabelled (r : Row) : Row :=
  mkRow (idx r)
        (set_cell "label"
           (replace_value [("surveil", Num 1); ("other", Num 0)] (assoc "label" (cells r)))
           (cells r)).

Definition unlabelled (r : Row) : bool := isna (assoc "label" (cells r)).

(** The columns cell 81 drops, and what it leaves of the merged table:
    the rows without a label, cut down to the other columns. *)
Definition dropped : list string := ["label"; "adshex"; "type"].

Definition feature_columns (d : DataFrame) : list string :=
  filter (λ c, c ∉ dropped) (columns d).

Definition feature_cells (r : Row) : list (string * value) :=
  filter (λ kv, kv.1 ∉ dropped) (cells r).

Definition scoring_rows (d : DataFrame) : list Row :=
  (λ r, mkRow (idx r) (feature_cells r)) <$> List.filter unlabelled (rows d).

Definition scoring_frame (d : DataFrame) : DataFrame :=
  mkDF (feature_columns d) (filter (λ c, c ∉ dropped) (categorical d)) (scoring_rows d).






(** The name [y] is bound to [v], or unbound when [v] is [None]. *)
Definition bound_to (y : string) (v : option pyobj) (k : kernel) : Prop :=
  globals k !! y = v.

Definition is_forest (p : estimator) : bool :=
  match p with RandomForestClassifier _ _ => true | _ => false end.

Definition is_logistic (p : estimator) : bool :=
  match p with LogisticRegression _ _ => true | _ => false end.








End Spec.

(** ** Concrete backends and inputs *)

Module Examples.
Import Pandas Sklearn Notebook Spec.

(** Insertion argsort; [before j i] tells whether position [j], already
    placed, stays in front of the incoming position [i]. *)
Fixpoint insert_by (before : nat → nat → bool) (i : nat) (sorted : list nat) : list nat :=
  match sorted with
  | [] => [i]
  | j :: rest => if before j i then j :: insert_by before i rest else i :: sorted
  end.

Definition argsort_by (before : list Q → nat → nat → bool) (keys : list Q) : list nat :=
  foldl (λ acc i, insert_by (before keys) i acc) [] (seq 0 (length keys)).

(** Equal keys keep their order: a stable kind. *)
Definition argsort_stable : list Q → list nat :=
  argsort_by (λ keys j i, Qle_bool (key_at keys j) (key_at keys i)).


Definition first_feature (x : list Q) : Q := match x with q :: _ => q | [] => 0%Q end.

Definition backend_with (sort : list Q → list nat) : Backend :=
  mkBackend sort (λ n, reverse (seq 0 n))
    (λ _ _ x, if Qle_bool (1 # 2) (first_feature x) then 1%Q else 0%Q)
    (λ _ _ x, first_feature x)
    (λ _ t, (λ _, 1%Q) <$> feature_names_in t)
    (λ _ t, (λ _, 1%Q) <$> feature_names_in t).

Definition backend : Backend := backend_with argsort_stable.

(** Seven planes, five of them labelled; plane A4 is labelled but its type
    is missing. *)
Definition features_csv : csv :=
  mkCsv ["adshex"; "duration"; "type"]
    [[Str "A1"; Num (1 # 10); Str "C182"];
     [Str "A2"; Num (9 # 10); Str "T206"];
     [Str "A3"; Num (3 # 10); Str "C182"];
     [Str "A4"; Num (7 # 10); NaN];
     [Str "A5"; Num (8 # 10); Str "GLF5"];
     [Str "A6"; Num (2 # 10); Str "C182"];
     [Str "A7"; Num (6 # 10); Str "SR22"]].

Definition train_csv : csv :=
  mkCsv ["adshex"; "label"]
    [[Str "A2"; Str "surveil"]; [Str "A1"; Str "other"]; [Str "A4"; Str "surveil"];
     [Str "A6"; Str "other"]; [Str "A5"; Str "surveil"]].

Definition disk_of (features labels : csv) : gmap string csv :=
  <["data/planes_features.csv" := features]> (<["data/train.csv" := labels]> ∅).

Definition disk : gmap string csv := disk_of features_csv train_csv.



(** Four labelled planes and twenty unlabelled ones that all get the same
    score (the score of the example backends is the first feature); the
    second feature numbers the planes in file order. *)
Definition plane (n : nat) (duration : Q) : list value :=
  [Str (String (Ascii.ascii_of_nat (65 + n)) EmptyString); Num duration;
   Num (inject_Z (Z.of_nat n)); Str "C182"].

Definition features_csv_ties : csv :=
  mkCsv ["adshex"; "duration"; "rank"; "type"]
    ([plane 0 (1 # 10); plane 1 (9 # 10); plane 2 (2 # 10); plane 3 (8 # 10)]
       ++ ((λ n, plane n (1 # 2)) <$> seq 4 20)).

Definition train_csv_ties : csv :=
  mkCsv ["adshex"; "label"]
    [[Str "A"; Str "other"]; [Str "B"; Str "surveil"]; [Str "C"; Str "other"];
     [Str "D"; Str "surveil"]].

Definition disk_ties : gmap string csv := disk_of features_csv_ties train_csv_ties.

(** The kernel of the example run after cell [n], and what it binds. *)
Definition after (n : nat) : kernel := run (upto n (notebook backend)) (fresh disk).

Definition frame_of (k : kernel) (x : string) : DataFrame :=
  match globals k !! x with Some (DF d) => d | _ => mkDF [] [] [] end.

Definition series_of (k : kernel) (x : string) : Series :=
  match globals k !! x with Some (Ser s) => s | _ => mkSeries "" false [] [] end.

Definition classifier_of (k : kernel) (x : string) : classifier :=
  match globals k !! x with
  | Some (Est c) => c
  | _ => mkClassifier (DecisionTreeClassifier 0) None
  end.

Definition training_of (c : classifier) : training :=
  default (mkTraining [] [] []) (fitted c).


Definition merged_raw : DataFrame := Eval vm_compute in frame_of (after 8) "adshex".
Definition merged : DataFrame := Eval vm_compute in frame_of (after 21) "adshex".
Definition X_all : DataFrame := Eval vm_compute in frame_of (after 34) "X".
Definition y_all : Series := Eval vm_compute in series_of (after 34) "y".
Definition X_train_part : DataFrame := Eval vm_compute in frame_of (after 38) "X_train".
Definition logistic_on_all : classifier := Eval vm_compute in classifier_of (after 44) "clf".
Definition tree_on_part : classifier := Eval vm_compute in classifier_of (after 66) "clf".
Definition forest_on_part : classifier := Eval vm_compute in classifier_of (after 66) "model".
Definition forest_on_all : classifier := Eval vm_compute in classifier_of (after 74) "clf".

End Examples.


(** ** The cells that only show a value *)

Module Displays.
Import Pandas Sklearn Notebook.

(** What a cell shows below itself: the value of its last expression. *)
Inductive shown :=
| Shape (n_rows n_cols : nat)
| Length (n : nat)
| Counts (cs : list (value * nat))
| Distinct (vs : list value)
| Columns (cs : list string)
| Table (d : DataFrame).

(** [s.unique()]: the distinct values in order of first appearance. *)
Fixpoint unique (vs : list value) : list value :=
  match vs with
  | [] => []
  | v :: vs' => v :: List.filter (λ w, negb (value_eqb v w)) (unique vs')
  end.

Definition count_of (v : value) (vs : list value) : nat :=
  length (List.filter (value_eqb v) vs).

(** [s.value_counts(ascending=asc)]: missing values are left out
    ([dropna=True]), the distinct values are counted, and the counts are
    sorted, from the largest down unless [asc]. *)
Definition value_counts (argsort : list Q → list nat) (s : Series) (ascending : bool)
  : list (value * nat) :=
  let present := List.filter (λ v, negb (isna v)) (values s) in
  let keys := unique present in
  let counts := (λ v, count_of v present) <$> keys in
  omap (λ i, zip keys counts !! i)
       (nargsort argsort ((λ n, Some (inject_Z (Z.of_nat n))) <$> counts) ascending).

Definition display : Type := kernel → result shown.

Section Shown.
Variable B : Backend.

Definition shape_of (x : string) : display :=
  λ k, d ← frame k x; Ok (Shape (length (rows d)) (length (columns d))).

Definition length_of (x : string) : display :=
  λ k, s ← series k x; Ok (Length (length (values s))).

Definition counts_of (x c : string) (ascending : bool) : display :=
  λ k, d ← frame k x; s ← getattr d c; Ok (Counts (value_counts (argsort B) s ascending)).

Definition head_of (x : string) : display :=
  λ k, d ← frame k x; Ok (Table (head 5 d)).

(** [adshex.shape] *)
Definition cell_10 : display := shape_of "adshex".

(** [adshex.label.value_counts()], before and after the encoding *)
Definition cell_12 : display := counts_of "adshex" "label" false.
Definition cell_15 : display := cell_12.

(** [adshex.type.unique()] *)
Definition cell_17 : display :=
  λ k, d ← frame k "adshex"; s ← getattr d "type"; Ok (Distinct (unique (values s))).

(** [adshex.type_code.value_counts()] *)
Definition cell_22 : display := counts_of "adshex" "type_code" false.

(** [adshex.columns] *)
Definition cell_23 : display := λ k, d ← frame k "adshex"; Ok (Columns (columns d)).

(** [train_df.shape], [train_df.head()], [X.head()] *)
Definition cell_27 : display := shape_of "train_df".
Definition cell_30 : display := head_of "train_df".
Definition cell_35 : display := head_of "X".

(** [y.value_counts()] *)
Definition cell_36 : display :=
  λ k, s ← series k "y"; Ok (Counts (value_counts (argsort B) s false)).

(** [y_test.shape], [y_train.shape], [X_test.shape], [X_train.shape] *)
Definition cell_39 : display := length_of "y_test".
Definition cell_40 : display := length_of "y_train".
Definition cell_41 : display := shape_of "X_test".
Definition cell_42 : display := shape_of "X_train".

(** [new_df.shape], [new_df.head()], [X.head()] *)
Definition cell_78 : display := shape_of "new_df".
Definition cell_79 : display := head_of "new_df".
Definition cell_82 : display := head_of "X".

(** [X[X['predicted'] == 1].shape] *)
Definition cell_84 : display :=
  λ k, d ← frame k "X"; s ← getitem d "predicted";
       d' ← getitem_mask d (mkMask (index s) ((λ v, value_eqb v (Num 1)) <$> values s));
       Ok (Shape (length (rows d')) (length (columns d'))).
Definition cell_86 : display := cell_84.

(** [X.predicted_prob.value_counts(ascending=False)] *)
Definition cell_91 : display := counts_of "X" "predicted_prob" false.

(** Running such a cell shows the value and leaves the kernel alone; an
    exception is recorded like any other. *)
Definition show (n : nat) (e : display) (k : kernel) : kernel :=
  match e k with
  | Ok _ => k
  | Raise err => log_raise n err k
  end.

End Shown.

End Displays.

(** ** Further inputs *)

Module Inputs.
Import Pandas Sklearn Notebook Spec Examples.

(** A label file with one plane: a training subset too small to split. *)
Definition train_csv_one : csv := mkCsv ["adshex"; "label"] [[Str "A2"; Str "surveil"]].

Definition disk_one : gmap string csv := disk_of features_csv train_csv_one.



(** The merged table of the example with its [type] column converted to
    the category dtype, as cell 19 would have left it had it named
    [adshex]. *)
Definition merged_categorical : DataFrame :=
  mkDF (columns merged) ["type"] (rows merged).



(** A disk without the label file. *)
Definition disk_unlabelled : gmap string csv :=
  <["data/planes_features.csv" := features_csv]> ∅.

(** The kernel of the run on [fs] after cell [n]. *)
Definition after_on (fs : gmap string csv) (n : nat) : kernel :=
  run (upto n (notebook backend)) (fresh fs).

(** The frame that is scored, before cell 83 adds a column, and the frame
    that cell 93 ranks. *)
Definition X_scored : DataFrame := Eval vm_compute in frame_of (after 81) "X".

End Inputs.

(** ** Vocabulary of the further statements *)

Module Facts.
Import Pandas Sklearn Notebook Spec Displays.

(** The labels of a raw label column: text, or missing. *)
Definition textual (v : value) : Prop :=
  match v with Num _ => False | _ => True end.

(** The encoding of cell 14 on a single value. *)
Definition encoded (v : value) : value :=
  replace_value [("surveil", Num 1); ("other", Num 0)] v.

(** How many entries of [us] equal [v]. *)
Definition occurrences (v : value) (us : list value) : nat :=
  length (List.filter (λ u, value_eqb u v) us).


(** Neither the frame bound to [df] nor the output file is longer than
    200 rows. *)
Definition at_most_200 (k : kernel) : Prop :=
  (∀ d, globals k !! "df" = Some (DF d) → length (rows d) ≤ 200)
  ∧ (∀ f, files k !! "spy_planes" = Some f → length (records f) ≤ 200).

(** A printed value is an accuracy. *)
Definition accuracy (v : value) : Prop :=
  v = NaN ∨ ∃ q, v = Num q ∧ (0 <= q)%Q ∧ (q <= 1)%Q.

(** The index labels of the frame bound to [x], if any, are distinct. *)
Definition distinct_labels (x : string) (k : kernel) : Prop :=
  ∀ d, globals k !! x = Some (DF d) → NoDup (labels_of d).

(** Before cell 34: [X] and [y] are unbound, and the merged table and the
    training subset carry distinct index labels. *)
Definition before_X (k : kernel) : Prop :=
  globals k !! "X" = None ∧ globals k !! "y" = None
  ∧ distinct_labels "adshex" k ∧ distinct_labels "train_df" k.

(** None of the names [xs] is bound. *)
Definition unbound (xs : list string) (k : kernel) : Prop :=
  Forall (λ x, globals k !! x = None) xs.

(** The frames that are derived from the two input files. *)
Definition derived : list string := ["adshex"; "train_df"; "X"; "new_df"; "df"].

(** The state of a run on the files [fs] when an input file is missing:
    the files are untouched, no derived frame is bound, and neither is
    the table of a missing file. *)
Definition starved (fs : gmap string csv) (k : kernel) : Prop :=
  files k = fs ∧ unbound derived k
  ∧ (fs !! "data/planes_features.csv" = None → globals k !! "features" = None)
  ∧ (fs !! "data/train.csv" = None → globals k !! "labels" = None).

(** Position [i] comes before position [j] in a stable ascending sort of
    [keys]: a smaller key, or an equal key and a smaller position. *)
Definition before_stably (keys : list Q) (i j : nat) : Prop :=
  (key_at keys i < key_at keys j)%Q ∨ ((key_at keys i == key_at keys j)%Q ∧ i < j).

(** The contract of a stable argsort ([kind='stable'], [kind='mergesort']). *)
Definition stable_spec (f : list Q → list nat) : Prop :=
  ∀ keys, f keys ≡ₚ seq 0 (length keys) ∧ StronglySorted (before_stably keys) (f keys).

(** Position [i] comes before position [j] in a descending order that
    keeps ties in place. *)
Definition after_stably (keys : list Q) (i j : nat) : Prop :=
  (key_at keys j < key_at keys i)%Q ∨ ((key_at keys i == key_at keys j)%Q ∧ i < j).

(** The diagonal of a square table of counts. *)
Definition diagonal (m : list (list nat)) : list nat :=
  imap (λ i row, default 0 (row !! i)) m.

End Facts.
(** ** Running cells *)

(** Closed decidable facts about concrete inputs are settled by evaluation. *)
Ltac vm_decide := apply (bool_decide_unpack _); vm_compute; exact I.

(** Take a successful monadic computation apart, call by call. *)
Ltac inv_result H :=
  repeat match type of H with
  | mbind _ ?m = Ok _ =>
      let E := fresh "E" in destruct m eqn:E; simpl in H; [|discriminate H]
  | match ?m with _ => _ end = Ok _ =>
      let E := fresh "E" in destruct m eqn:E; simpl in H; try discriminate H
  | Ok _ = Ok _ => injection H as H
  end.

Section Running.
Import Pandas Sklearn Notebook Spec.

Lemma exec_cons_ok n s c k k' : s k = Ok k' → exec n (s :: c) k = exec n c k'.
Proof. intros H. simpl. by rewrite H. Qed.

Lemma exec_cons_raise n s c k e : s k = Raise e → exec n (s :: c) k = log_raise n e k.
Proof. intros H. simpl. by rewrite H. Qed.

Lemma exec_assign n x e k :
  exec n [assign x e] k
  = match e k with Ok o => bind_name x o k | Raise err => log_raise n err k end.
Proof. unfold exec, assign. by destruct (e k). Qed.

Lemma run_cons n c cs k : run ((n, c) :: cs) k = run cs (exec n c k).
Proof. reflexivity. Qed.

Lemma run_singleton n c k : run [(n, c)] k = exec n c k.
Proof. reflexivity. Qed.

Lemma run_app cs1 cs2 k : run (cs1 ++ cs2) k = run cs2 (run cs1 k).
Proof. apply foldl_app. Qed.

Lemma globals_bind_name x o k : globals (bind_name x o k) = <[x:=o]> (globals k).
Proof. reflexivity. Qed.




Lemma name_Some k x o : globals k !! x = Some o → name k x = Ok o.
Proof. intros H. unfold name. by rewrite H. Qed.

Lemma frame_Some k x d : globals k !! x = Some (DF d) → frame k x = Ok d.
Proof. intros H. unfold frame. by rewrite (name_Some _ _ _ H). Qed.

Lemma series_Some k x s : globals k !! x = Some (Ser s) → series k x = Ok s.
Proof. intros H. unfold series. by rewrite (name_Some _ _ _ H). Qed.

Lemma estimator_Some k x c : globals k !! x = Some (Est c) → estimator_named k x = Ok c.
Proof. intros H. unfold estimator_named. by rewrite (name_Some _ _ _ H). Qed.


Lemma frame_inv k x d : frame k x = Ok d → globals k !! x = Some (DF d).
Proof.
  unfold frame, name. destruct (globals k !! x) as [[]|]; simpl; congruence.
Qed.

Lemma estimator_inv k x c : estimator_named k x = Ok c → globals k !! x = Some (Est c).
Proof.
  unfold estimator_named, name. destruct (globals k !! x) as [[]|]; simpl; congruence.
Qed.

End Running.

(** ** Facts about the pandas operations *)

Section PandasFacts.
Import Pandas Spec.

Lemma complete_spec r :
  complete r = true ↔ ∀ c v, (c, v) ∈ cells r → v ≠ NaN.
Proof.
  unfold complete. rewrite forallb_forall. split.
  - intros H c v Hin ->. apply list_elem_of_In in Hin. by specialize (H _ Hin).
  - intros H [c v] Hin. apply list_elem_of_In in Hin. specialize (H c v Hin).
    by destruct v.
Qed.

Lemma elem_of_dropna d r :
  r ∈ rows (dropna d) ↔ r ∈ rows d ∧ ∀ c v, (c, v) ∈ cells r → v ≠ NaN.
Proof.
  simpl. rewrite !list_elem_of_In, filter_In, <- complete_spec. tauto.
Qed.

Lemma sublist_List_filter {A} (f : A → bool) (l : list A) : List.filter f l `sublist_of` l.
Proof.
  induction l as [|a l IH]; simpl; [constructor|].
  destruct (f a); by constructor.
Qed.

Lemma List_filter_nil {A} (f : A → bool) (l : list A) :
  (∀ x, x ∈ l → f x = false) → List.filter f l = [].
Proof.
  induction l as [|a l IH]; intros H; simpl; [done|].
  rewrite (H a) by left. apply IH. intros x Hx. apply H. by right.
Qed.




(** *** Cells by name *)




Lemma assoc_set_cell c v cs : assoc c (set_cell c v cs) = v.
Proof.
  induction cs as [|[k w] cs IH]; simpl.
  - by rewrite bool_decide_eq_true_2.
  - case_bool_decide; simpl; [by rewrite bool_decide_eq_true_2|].
    by rewrite bool_decide_eq_false_2.
Qed.


(** *** Keys *)

Lemma value_eqb_sym a b : value_eqb a b = value_eqb b a.
Proof.
  destruct a, b; simpl; try done.
  - apply bool_decide_ext. split; congruence.
  - apply Bool.eq_iff_eq_true. rewrite !Qeq_bool_iff. split; intros H; by symmetry.
Qed.

Lemma value_eqb_trans a b c :
  value_eqb a b = true → value_eqb b c = true → value_eqb a c = true.
Proof.
  destruct a, b, c; simpl; try done.
  - rewrite !bool_decide_eq_true. congruence.
  - rewrite !Qeq_bool_iff. intros H1 H2. by rewrite H1.
Qed.



(** *** The left merge *)






End PandasFacts.
(** ** Facts about the scikit-learn operations *)

Section SklearnFacts.
Import Pandas Sklearn Spec.

(** *** The splitter *)

Lemma ceil_quarter_bounds (n : nat) :
  let n_test := Z.to_nat (Qceiling ((1 # 4) * inject_Z (Z.of_nat n))) in
  n ≤ 4 * n_test < n + 4.
Proof.
  unfold Qceiling, Qfloor. simpl. change (Z.pos (4 * 1)) with 4%Z.
  set (z := Z.of_nat n).
  assert (Hz : (0 <= z)%Z) by lia.
  assert (H : (z <= 4 * - (- (1 * z) / 4) < z + 4)%Z)
    by (Z.div_mod_to_equations; lia).
  assert (Hpos : (0 <= - (- (1 * z) / 4))%Z) by (Z.div_mod_to_equations; lia).
  lia.
Qed.

Lemma omap_lookup_seq {A} (l : list A) : omap (λ i, l !! i) (seq 0 (length l)) = l.
Proof.
  induction l as [|a l IH]; [done|]. simpl length. rewrite <- cons_seq, <- fmap_S_seq.
  csimpl. f_equal. rewrite <- IH at 2. apply list_omap_ext.
  apply Forall2_fmap_l, Forall_Forall2_diag, Forall_forall. done.
Qed.

Lemma length_omap_lookup {A} (l : list A) (ps : list nat) :
  Forall (λ i, i < length l) ps → length (omap (λ i, l !! i) ps) = length ps.
Proof.
  induction 1 as [|i ps Hi _ IH]; [done|]. csimpl.
  destruct (lookup_lt_is_Some_2 l i Hi) as [x ->]. simpl. by rewrite IH.
Qed.

Lemma permutation_in_range (p : list nat) n :
  p ≡ₚ seq 0 n → Forall (λ i, i < n) p.
Proof.
  intros Hp. apply Forall_forall. intros i Hi. rewrite Hp in Hi.
  apply elem_of_seq in Hi. lia.
Qed.



(** What a successful split returns. *)
Lemma train_test_split_quarter B X y :
  length (values y) = length (rows X) → 2 ≤ length (rows X) →
  let n_test := Z.to_nat (Qceiling ((1 # 4) * inject_Z (Z.of_nat (length (rows X))))) in
  let p := permutation B (length (rows X)) in
  train_test_split B X y (1 # 4)
  = Ok (iloc X (take (length (rows X) - n_test) (List.skipn n_test p)),
        iloc X (take n_test p),
        iloc_series y (take (length (rows X) - n_test) (List.skipn n_test p)),
        iloc_series y (take n_test p)).
Proof.
  intros Hy Hn. pose proof (ceil_quarter_bounds (length (rows X))) as Hb.
  unfold train_test_split. rewrite bool_decide_eq_true_2 by done.
  simpl. simpl in Hb. rewrite bool_decide_eq_false_2 by lia. done.
Qed.

(** *** Validation *)

Lemma mapM_result_length {A C} (f : A → result C) (l : list A) (l' : list C) :
  mapM f l = Ok l' → length l' = length l.
Proof.
  revert l'. induction l as [|a l IH]; intros l' H; simpl in H.
  - by injection H as <-.
  - destruct (f a) eqn:E; simpl in H; [|done].
    destruct (mapM f l) eqn:E0; simpl in H; [|done].
    injection H as <-. simpl. f_equal. by apply IH.
Qed.

Lemma to_matrix_length d m : to_matrix d = Ok m → length m = length (rows d).
Proof. apply mapM_result_length. Qed.

Lemma to_vector_length s v : to_vector s = Ok v → length v = length (values s).
Proof. apply mapM_result_length. Qed.

Lemma predict_length B c X pv : predict B c X = Ok pv → length pv = length (rows X).
Proof.
  unfold predict. destruct (validate c X) as [[t m]|] eqn:E; simpl; [|done].
  intros [= <-]. rewrite length_map. unfold validate in E.
  destruct (fitted c); [|done]. case_bool_decide; [|done].
  destruct (to_matrix X) eqn:Em; simpl in E; [|done].
  injection E as _ <-. by apply to_matrix_length.
Qed.

(** *** The confusion matrix *)

Lemma hits_proper q q' ls : (q == q')%Q → hits q ls = hits q' ls.
Proof.
  intros Heq. unfold hits. f_equal. apply filter_ext. intros b.
  apply Bool.eq_iff_eq_true. rewrite !Qeq_bool_iff. by rewrite Heq.
Qed.

Lemma hits_below q ls : Forall (Qlt q) ls → hits q ls = 0.
Proof.
  unfold hits. intros H. rewrite List_filter_nil; [done|].
  intros b Hb. rewrite Forall_forall in H. specialize (H b Hb).
  destruct (Qeq_bool q b) eqn:E; [|done].
  apply Qeq_bool_iff in E. rewrite E in H. by apply Qlt_irrefl in H.
Qed.

Lemma hits_cons q b ls :
  hits q (b :: ls) = (if Qeq_bool q b then 1 else 0) + hits q ls.
Proof. unfold hits. simpl. by destruct (Qeq_bool q b). Qed.

Lemma Forall_insert_label (P : Q → Prop) q ls :
  P q → Forall P ls → Forall P (insert_label q ls).
Proof.
  intros Hq. induction 1 as [|b ls Hb Hls IH]; simpl; [by repeat constructor|].
  destruct (q ?= b)%Q; repeat constructor; done.
Qed.

Lemma insert_label_sorted q ls :
  StronglySorted Qlt ls → StronglySorted Qlt (insert_label q ls).
Proof.
  induction 1 as [|l ls Hs IH Hl]; simpl; [repeat constructor|].
  destruct (q ?= l)%Q eqn:E.
  - by constructor.
  - apply Qlt_alt in E. constructor; [by constructor|].
    constructor; [done|]. eapply Forall_impl; [done|].
    intros b Hb. by eapply Qlt_trans.
  - apply Qgt_alt in E. constructor; [done|]. by apply Forall_insert_label.
Qed.

Lemma hits_insert_label q q' ls :
  StronglySorted Qlt ls →
  hits q' (insert_label q ls) = if Qeq_bool q' q then 1 else hits q' ls.
Proof.
  induction 1 as [|l ls Hs IH Hl]; simpl.
  - rewrite hits_cons. by destruct (Qeq_bool q' q).
  - destruct (q ?= l)%Q eqn:E.
    + apply Qeq_alt in E. destruct (Qeq_bool q' q) eqn:E'; [|done].
      apply Qeq_bool_iff in E'. rewrite hits_cons.
      assert (Hq : (q' == l)%Q) by (by rewrite E').
      rewrite (proj2 (Qeq_bool_iff _ _) Hq), hits_below; [done|].
      eapply Forall_impl; [done|]. intros b Hb. by rewrite Hq.
    + apply Qlt_alt in E. rewrite hits_cons.
      destruct (Qeq_bool q' q) eqn:E'; [|done].
      apply Qeq_bool_iff in E'. rewrite hits_below; [done|].
      constructor; [by rewrite E'|].
      eapply Forall_impl; [done|]. intros b Hb. rewrite E'. by eapply Qlt_trans.
    + apply Qgt_alt in E. rewrite !hits_cons, IH.
      destruct (Qeq_bool q' q) eqn:E'; [|done].
      apply Qeq_bool_iff in E'.
      destruct (Qeq_bool q' l) eqn:E''; [|done].
      apply Qeq_bool_iff in E''. rewrite <- E', <- E'' in E.
      by apply Qlt_irrefl in E.
Qed.

Lemma unique_labels_sorted ys : StronglySorted Qlt (unique_labels ys).
Proof.
  induction ys as [|y ys IH]; simpl; [constructor|]. by apply insert_label_sorted.
Qed.

Lemma hits_unique_labels q ys : In q ys → hits q (unique_labels ys) = 1.
Proof.
  induction ys as [|y ys IH]; simpl; [done|].
  intros Hin. rewrite hits_insert_label by apply unique_labels_sorted.
  destruct (Qeq_bool q y) eqn:E; [done|].
  destruct Hin as [->|Hin]; [|by apply IH].
  by rewrite (proj2 (Qeq_bool_iff _ _) (Qeq_refl _)) in E.
Qed.

Lemma sum_row_cons a ls' p ps :
  sum_list ((λ b, count_pairs a b (p :: ps)) <$> ls')
  = (if Qeq_bool p.1 a then hits p.2 ls' else 0)
    + sum_list ((λ b, count_pairs a b ps) <$> ls').
Proof.
  induction ls' as [|b ls' IH]; csimpl; [by destruct (Qeq_bool p.1 a)|].
  rewrite IH, hits_cons. unfold count_pairs. simpl.
  destruct (Qeq_bool p.1 a), (Qeq_bool p.2 b); simpl; lia.
Qed.

Lemma sum_table_cons ls ls' p ps :
  sum_cells (table ls ls' (p :: ps))
  = hits p.1 ls * hits p.2 ls' + sum_cells (table ls ls' ps).
Proof.
  unfold sum_cells, table. induction ls as [|a ls IH]; csimpl; [done|].
  rewrite !sum_list_with_app, IH, sum_row_cons, hits_cons.
  destruct (Qeq_bool p.1 a); lia.
Qed.

Lemma sum_row_nil a ls' : sum_list ((λ b, count_pairs a b []) <$> ls') = 0.
Proof. induction ls' as [|b ls' IH]; [done|]. rewrite fmap_cons. simpl. exact IH. Qed.

Lemma sum_table_nil ls ls' : sum_cells (table ls ls' []) = 0.
Proof.
  unfold sum_cells, table. induction ls as [|a ls IH]; [done|].
  rewrite fmap_cons. simpl concat.
  by rewrite sum_list_with_app, IH, sum_row_nil.
Qed.

Lemma sum_table ls ps :
  (∀ p, In p ps → hits p.1 ls = 1 ∧ hits p.2 ls = 1) →
  sum_cells (table ls ls ps) = length ps.
Proof.
  induction ps as [|p ps IH]; intros H; [apply sum_table_nil|].
  rewrite sum_table_cons. destruct (H p) as [-> ->]; [by left|].
  simpl. f_equal. apply IH. intros q Hq. apply H. by right.
Qed.

Lemma confusion_matrix_sum yt yp m :
  confusion_matrix yt yp = Ok m →
  sum_cells m = length yt
  ∧ length m = length (unique_labels (yt ++ yp))
  ∧ Forall (λ row, length row = length m) m.
Proof.
  unfold confusion_matrix. case_bool_decide as Hlen; [|done]. intros [= <-].
  fold (table (unique_labels (yt ++ yp)) (unique_labels (yt ++ yp)) (zip yt yp)).
  split; [|split].
  - rewrite sum_table, length_zip; [lia|].
    intros [t p] Hin. apply list_elem_of_In in Hin.
    pose proof (elem_of_zip_l _ _ _ _ Hin) as Ht.
    pose proof (elem_of_zip_r _ _ _ _ Hin) as Hp.
    split; apply hits_unique_labels, in_or_app;
      [left|right]; by apply list_elem_of_In.
  - unfold table. by rewrite length_fmap.
  - unfold table. apply Forall_fmap, Forall_forall. intros a _. simpl.
    by rewrite !length_fmap.
Qed.




End SklearnFacts.
(** ** Sorting a frame by a numeric column *)

Section SortFacts.
Import Pandas Spec.

Lemma StronglySorted_reverse {A} (R : relation A) (l : list A) :
  StronglySorted R l → StronglySorted (flip R) (reverse l).
Proof.
  induction 1 as [|a l Hs IH Ha]; [constructor|].
  rewrite reverse_cons. apply StronglySorted_app_2; [|done|repeat constructor].
  intros x y Hx ->%list_elem_of_singleton. unfold flip.
  rewrite Forall_forall in Ha. apply Ha. by apply elem_of_reverse.
Qed.

Lemma StronglySorted_fmap_Forall {A C} (P : A → Prop) (R1 : relation A)
    (R2 : relation C) (f : A → C) (l : list A) :
  Forall P l → (∀ x y, P x → P y → R1 x y → R2 (f x) (f y)) →
  StronglySorted R1 l → StronglySorted R2 (f <$> l).
Proof.
  intros HP Hf Hs. induction Hs as [|a l Hs IH Ha]; csimpl; [constructor|].
  apply Forall_cons in HP as [Hpa HP]. constructor; [by apply IH|].
  rewrite Forall_fmap. rewrite Forall_forall in Ha, HP |- *.
  intros x Hx. simpl. apply Hf; auto.
Qed.


Lemma mapM_sort_key (qs : list Q) : mapM sort_key (Num <$> qs) = Ok (Some <$> qs).
Proof.
  induction qs as [|q qs IH]; [done|]. rewrite !fmap_cons.
  change (mapM sort_key (Num q :: (Num <$> qs)))
    with (sort_key (Num q) ≫= λ y, mapM sort_key (Num <$> qs) ≫= λ k, mret (y :: k)).
  by rewrite IH.
Qed.

Lemma entries_numeric (qs : list Q) j :
  omap (λ p : nat * option Q, pair p.1 <$> p.2) (zip (seq j (length qs)) (Some <$> qs))
  = zip (seq j (length qs)) qs.
Proof.
  revert j. induction qs as [|q qs IH]; intros j; csimpl; [done|]. by rewrite IH.
Qed.

Lemma entries_no_nan (qs : list Q) j :
  filter (λ p : nat * option Q, p.2 = None) (zip (seq j (length qs)) (Some <$> qs)) = [].
Proof.
  revert j. induction qs as [|q qs IH]; intros j; csimpl; [done|].
  rewrite filter_cons_False by done. apply IH.
Qed.

(** The indexer of a descending sort of a column without missing values. *)
Lemma nargsort_numeric (f : list Q → list nat) (qs : list Q) :
  nargsort f (Some <$> qs) false
  = reverse (omap (λ j, reverse (seq 0 (length qs)) !! j) (f (reverse qs))).
Proof.
  unfold nargsort. rewrite length_fmap, entries_numeric, entries_no_nan.
  rewrite fmap_nil, app_nil_r. f_equal.
  rewrite fmap_reverse, snd_zip by (by rewrite length_seq).
  apply list_omap_ext, Forall_Forall2_diag, Forall_forall. intros j _.
  rewrite <- list_lookup_fmap, fmap_reverse, fst_zip; [done|].
  by rewrite length_seq.
Qed.

Lemma mirror_lookup n j :
  j < n → reverse (seq 0 n) !! j = Some (n - S j).
Proof.
  intros Hj. rewrite reverse_lookup by (by rewrite length_seq).
  rewrite length_seq. apply lookup_seq_lt. lia.
Qed.

Lemma mirror_indexer n (ps : list nat) :
  Forall (λ j, j < n) ps →
  omap (λ j, reverse (seq 0 n) !! j) ps = (λ j, n - S j) <$> ps.
Proof.
  induction 1 as [|j ps Hj _ IH]; csimpl; [done|].
  by rewrite (mirror_lookup _ _ Hj), IH.
Qed.

Lemma key_at_mirror (qs : list Q) j :
  j < length qs → key_at qs (length qs - S j) = key_at (reverse qs) j.
Proof.
  intros Hj. unfold key_at. by rewrite (reverse_lookup qs j Hj).
Qed.

Lemma nargsort_Permutation f qs :
  argsort_spec f → nargsort f (Some <$> qs) false ≡ₚ seq 0 (length qs).
Proof.
  intros Hf. destruct (Hf (reverse qs)) as [Hp _]. rewrite length_reverse in Hp.
  rewrite nargsort_numeric, reverse_Permutation, Hp.
  pose proof (omap_lookup_seq (reverse (seq 0 (length qs)))) as H.
  rewrite length_reverse, length_seq in H. rewrite H. apply reverse_Permutation.
Qed.

Lemma nargsort_descending f qs :
  argsort_spec f →
  StronglySorted (λ i j, (key_at qs j <= key_at qs i)%Q) (nargsort f (Some <$> qs) false).
Proof.
  intros Hf. destruct (Hf (reverse qs)) as [Hp Hs]. rewrite length_reverse in Hp.
  assert (Hrange : Forall (λ j, j < length qs) (f (reverse qs))).
  { apply Forall_forall. intros j Hj. rewrite Hp in Hj.
    apply elem_of_seq in Hj. lia. }
  rewrite nargsort_numeric, (mirror_indexer _ _ Hrange).
  apply (StronglySorted_reverse (λ i j, (key_at qs i <= key_at qs j)%Q)).
  eapply StronglySorted_fmap_Forall; [exact Hrange| |exact Hs].
  intros x y Hx Hy Hxy. simpl. by rewrite !key_at_mirror.
Qed.

Lemma sort_values_numeric f d c qs :
  c ∈ columns d → column_values d c = Num <$> qs →
  sort_values f d c false
  = Ok (mkDF (columns d) (categorical d)
             (omap (λ i, rows d !! i) (nargsort f (Some <$> qs) false))).
Proof.
  intros Hc Hq. unfold sort_values. rewrite bool_decide_eq_true_2 by done.
  by rewrite Hq, mapM_sort_key.
Qed.



End SortFacts.
(** ** The two insertion argsorts meet the contract *)

Section ArgsortFacts.
Import Pandas Spec Examples.

Variable keys : list Q.
Variable before : nat → nat → bool.
Hypothesis before_true : ∀ j i, before j i = true → (key_at keys j <= key_at keys i)%Q.
Hypothesis before_false : ∀ j i, before j i = false → (key_at keys i <= key_at keys j)%Q.

Lemma insert_by_Permutation i s : insert_by before i s ≡ₚ i :: s.
Proof.
  induction s as [|j s IH]; simpl; [done|].
  destruct (before j i); [|done]. rewrite IH. apply perm_swap.
Qed.

Lemma insert_by_sorted i s :
  StronglySorted (ordered_by keys) s → StronglySorted (ordered_by keys) (insert_by before i s).
Proof.
  induction 1 as [|j s Hs IH Hj]; simpl; [repeat constructor|].
  destruct (before j i) eqn:E.
  - constructor; [done|]. rewrite insert_by_Permutation.
    constructor; [by apply before_true|done].
  - constructor; [by constructor|].
    constructor; [by apply before_false|].
    eapply Forall_impl; [exact Hj|]. intros x Hx. unfold ordered_by in *.
    eapply Qle_trans; [by apply before_false|done].
Qed.

Lemma insertion_fold (l acc : list nat) :
  StronglySorted (ordered_by keys) acc →
  foldl (λ acc i, insert_by before i acc) acc l ≡ₚ l ++ acc
  ∧ StronglySorted (ordered_by keys) (foldl (λ acc i, insert_by before i acc) acc l).
Proof.
  revert acc. induction l as [|i l IH]; intros acc Hs; simpl; [done|].
  destruct (IH (insert_by before i acc)) as [Hp Hs']; [by apply insert_by_sorted|].
  split; [|done]. rewrite Hp, insert_by_Permutation.
  by rewrite Permutation_middle.
Qed.

End ArgsortFacts.

Section ArgsortInstances.
Import Pandas Spec Examples.

Lemma argsort_by_spec (before : list Q → nat → nat → bool) :
  (∀ keys j i, before keys j i = true → (key_at keys j <= key_at keys i)%Q) →
  (∀ keys j i, before keys j i = false → (key_at keys i <= key_at keys j)%Q) →
  argsort_spec (argsort_by before).
Proof.
  intros Ht Hf keys. unfold argsort_by.
  destruct (insertion_fold keys (before keys) (Ht keys) (Hf keys)
              (seq 0 (length keys)) []) as [Hp Hs]; [constructor|].
  split; [|done]. by rewrite Hp, app_nil_r.
Qed.

Lemma argsort_stable_spec : argsort_spec argsort_stable.
Proof.
  apply argsort_by_spec; intros keys j i H.
  - by apply Qle_bool_iff.
  - apply Qlt_le_weak, Qnot_le_lt. intros Hle. apply Qle_bool_iff in Hle. congruence.
Qed.


End ArgsortInstances.
(** ** Invariants of a run *)

Section Invariants.
Import Pandas Sklearn Notebook Spec.

Lemma exec_preserved (I : kernel → Prop) n c k :
  blind_to_raises I → Forall (preserved I) c → I k → I (exec n c k).
Proof.
  intros Hb Hc. revert k. induction Hc as [|s c Hs _ IH]; intros k HI; simpl; [done|].
  destruct (s k) as [k'|e] eqn:E; [|by apply Hb].
  apply IH. by eapply Hs.
Qed.

Lemma run_preserved (I : kernel → Prop) cs k :
  blind_to_raises I → Forall (λ nc : nat * cell, Forall (preserved I) nc.2) cs →
  I k → I (run cs k).
Proof.
  intros Hb Hcs. revert k. induction Hcs as [|[n c] cs Hc _ IH]; intros k HI; [done|].
  rewrite run_cons. apply IH. by apply exec_preserved.
Qed.

(** *** What a successful statement did *)

Lemma assign_inv x e k k' :
  assign x e k = Ok k' → ∃ o, e k = Ok o ∧ k' = bind_name x o k.
Proof. unfold assign. intros H. inv_result H. eauto. Qed.

Lemma assign_column_inv x c e k k' :
  assign_column x c e k = Ok k' →
  ∃ s d, e k = Ok s ∧ frame k x = Ok d ∧ k' = bind_name x (DF (setitem d c s)) k.
Proof. unfold assign_column. intros H. inv_result H. eauto. Qed.

Lemma assign_array_inv x c e k k' :
  assign_array x c e k = Ok k' →
  ∃ a d d', e k = Ok a ∧ frame k x = Ok d ∧ setitem_array d c a = Ok d'
            ∧ k' = bind_name x (DF d') k.
Proof. unfold assign_array. intros H. inv_result H. eauto 10. Qed.

Lemma fit_named_inv e X y k k' :
  fit_named e X y k = Ok k' →
  ∃ c d s c', estimator_named k e = Ok c ∧ frame k X = Ok d ∧ series k y = Ok s
              ∧ fit c d s = Ok c' ∧ k' = bind_name e (Est c') k.
Proof. unfold fit_named. intros H. inv_result H. eauto 10. Qed.

Lemma read_fitted_inv B x e attr get k k' :
  read_fitted B x e attr get k = Ok k' →
  ∃ c a, estimator_named k e = Ok c ∧ get B c = Ok a
         ∧ k' = bind_name x (Array a) (log_read (mkEvent e attr c) k).
Proof. unfold read_fitted. intros H. inv_result H. eauto 10. Qed.

(** *** Names a statement leaves alone *)

Lemma bound_to_blind y v : blind_to_raises (bound_to y v).
Proof. by intros n e k. Qed.

Lemma keeps_assign x e y v : x ≠ y → preserved (bound_to y v) (assign x e).
Proof.
  intros Hne k k' HI (o & _ & ->)%assign_inv.
  unfold bound_to in *. simpl. by rewrite lookup_insert_ne.
Qed.

Lemma keeps_assign_column x c e y v : x ≠ y → preserved (bound_to y v) (assign_column x c e).
Proof.
  intros Hne k k' HI (s & d & _ & _ & ->)%assign_column_inv.
  unfold bound_to in *. simpl. by rewrite lookup_insert_ne.
Qed.

Lemma keeps_assign_array x c e y v : x ≠ y → preserved (bound_to y v) (assign_array x c e).
Proof.
  intros Hne k k' HI (a & d & d' & _ & _ & _ & ->)%assign_array_inv.
  unfold bound_to in *. simpl. by rewrite lookup_insert_ne.
Qed.

Lemma keeps_fit_named e X yv y v : e ≠ y → preserved (bound_to y v) (fit_named e X yv).
Proof.
  intros Hne k k' HI (c & d & s & c' & _ & _ & _ & _ & ->)%fit_named_inv.
  unfold bound_to in *. simpl. by rewrite lookup_insert_ne.
Qed.

Lemma keeps_read_fitted B x e attr get y v :
  x ≠ y → preserved (bound_to y v) (read_fitted B x e attr get).
Proof.
  intros Hne k k' HI (c & a & _ & _ & ->)%read_fitted_inv.
  unfold bound_to in *. simpl. by rewrite lookup_insert_ne.
Qed.

Lemma split_named_inv B X y t k k' :
  split_named B X y t k = Ok k' →
  ∃ d s X_train X_test y_train y_test,
    frame k X = Ok d ∧ series k y = Ok s
    ∧ train_test_split B d s t = Ok (X_train, X_test, y_train, y_test)
    ∧ k' = bind_name "y_test" (Ser y_test)
             (bind_name "y_train" (Ser y_train)
               (bind_name "X_test" (DF X_test)
                 (bind_name "X_train" (DF X_train) k))).
Proof.
  unfold split_named. intros H. inv_result H.
  destruct a1 as [[[X_train X_test] y_train] y_test]. inv_result H. eauto 12.
Qed.

Lemma print_accuracy_inv t p k k' :
  print_accuracy t p k = Ok k' →
  ∃ s tv pv a, series k t = Ok s ∧ to_vector s = Ok tv ∧ array k p = Ok pv
               ∧ accuracy_score tv pv = Ok a ∧ k' = print a k.
Proof. unfold print_accuracy. intros H. inv_result H. eauto 10. Qed.

Lemma to_csv_named_inv x path k k' :
  to_csv_named x path k = Ok k' →
  ∃ d, frame k x = Ok d ∧ k' = write_file path (to_csv d) k.
Proof. unfold to_csv_named. intros H. inv_result H. eauto. Qed.

Lemma keeps_split_named B X yv t y v :
  y ∉ ["X_train"; "X_test"; "y_train"; "y_test"] →
  preserved (bound_to y v) (split_named B X yv t).
Proof.
  intros Hne k k' HI (d & s & ? & ? & ? & ? & _ & _ & _ & ->)%split_named_inv.
  unfold bound_to in *. simpl.
  rewrite !lookup_insert_ne; [done|..]; intros <-; apply Hne;
    by apply (bool_decide_unpack _).
Qed.

Lemma keeps_print_accuracy t p y v : preserved (bound_to y v) (print_accuracy t p).
Proof. by intros k k' HI (s & tv & pv & a & _ & _ & _ & _ & ->)%print_accuracy_inv. Qed.

Lemma keeps_to_csv_named x path y v : preserved (bound_to y v) (to_csv_named x path).
Proof. by intros k k' HI (d & _ & ->)%to_csv_named_inv. Qed.

End Invariants.

(** Settle that the statements of given cells leave a name alone. *)
Ltac keeps_step :=
  cbv beta; cbn [snd];
  lazymatch goal with
  | |- Forall _ (_ ++ _) => apply Forall_app_2
  | |- Forall _ [] => apply Forall_nil_2
  | |- Forall _ (_ :: _) => apply Forall_cons_2
  | |- Spec.preserved _ (Notebook.assign _ _) => apply keeps_assign; done
  | |- Spec.preserved _ (Notebook.assign_column _ _ _) => apply keeps_assign_column; done
  | |- Spec.preserved _ (Notebook.assign_array _ _ _) => apply keeps_assign_array; done
  | |- Spec.preserved _ (Notebook.fit_named _ _ _) => apply keeps_fit_named; done
  | |- Spec.preserved _ (Notebook.read_fitted _ _ _ _ _) => apply keeps_read_fitted; done
  | |- Spec.preserved _ (Notebook.split_named _ _ _ _) => apply keeps_split_named; by apply (bool_decide_unpack _)
  | |- Spec.preserved _ (Notebook.print_accuracy _ _) => apply keeps_print_accuracy
  | |- Spec.preserved _ (Notebook.to_csv_named _ _) => apply keeps_to_csv_named
  end.

Ltac unfold_cells :=
  unfold Notebook.notebook, Notebook.loading, Notebook.encoding, Notebook.training_set,
    Notebook.splitting, Notebook.logistic, Notebook.decision_tree,
    Notebook.random_forest, Notebook.scoring,
    Notebook.cell_4, Notebook.cell_5, Notebook.cell_8, Notebook.cell_14,
    Notebook.cell_19, Notebook.cell_21, Notebook.cell_26, Notebook.cell_32,
    Notebook.cell_28, Notebook.cell_34, Notebook.cell_38, Notebook.cell_44,
    Notebook.cell_47, Notebook.cell_45, Notebook.cell_60, Notebook.cell_49,
    Notebook.cell_53, Notebook.cell_66, Notebook.cell_56, Notebook.cell_62,
    Notebook.cell_64, Notebook.cell_70, Notebook.cell_74, Notebook.cell_76,
    Notebook.cell_81, Notebook.cell_83, Notebook.cell_89, Notebook.cell_90,
    Notebook.cell_93, Notebook.cell_94, Notebook.cell_95.

Ltac keeps := unfold_cells; repeat keeps_step.

(** Settle [preserved I s] for an invariant that only looks at parts of the
    kernel which the statement [s] does not write. *)
Ltac unchanged :=
  let HI := fresh "HI" in
  let Hs := fresh "Hs" in
  unfold Spec.preserved; intros ? ? HI Hs;
  lazymatch type of Hs with
  | Notebook.assign _ _ _ = _ => apply assign_inv in Hs as (? & _ & ->)
  | Notebook.assign_column _ _ _ _ = _ =>
      apply assign_column_inv in Hs as (? & ? & _ & _ & ->)
  | Notebook.assign_array _ _ _ _ = _ =>
      apply assign_array_inv in Hs as (? & ? & ? & _ & _ & _ & ->)
  | Notebook.fit_named _ _ _ _ = _ =>
      apply fit_named_inv in Hs as (? & ? & ? & ? & _ & _ & _ & _ & ->)
  | Notebook.read_fitted _ _ _ _ _ _ = _ =>
      apply read_fitted_inv in Hs as (? & ? & _ & _ & ->)
  | Notebook.split_named _ _ _ _ _ = _ =>
      apply split_named_inv in Hs as (? & ? & ? & ? & ? & ? & _ & _ & _ & ->)
  | Notebook.print_accuracy _ _ _ = _ =>
      apply print_accuracy_inv in Hs as (? & ? & ? & ? & _ & _ & _ & _ & ->)
  | Notebook.to_csv_named _ _ _ = _ =>
      apply to_csv_named_inv in Hs as (? & _ & ->)
  end; exact HI.

Ltac unchanged_step :=
  cbv beta; cbn [snd];
  lazymatch goal with
  | |- Forall _ (_ ++ _) => apply Forall_app_2
  | |- Forall _ [] => apply Forall_nil_2
  | |- Forall _ (_ :: _) => apply Forall_cons_2
  | |- Spec.preserved _ _ => unchanged
  end.

Ltac all_unchanged := unfold_cells; repeat unchanged_step.

(** ** What the cells do *)

Section CellFacts.
Import Pandas Sklearn Notebook Spec.

Lemma zip_with_fmap_same {A B C} (f : A → B → C) (g : A → B) (l : list A) :
  zip_with f l (g <$> l) = (λ x, f x (g x)) <$> l.
Proof. induction l as [|a l IH]; csimpl; [done|]. by rewrite IH. Qed.

Lemma filter_zip_mask {A} (g : A → bool) (l : list A) :
  (fst <$> List.filter snd (zip l (g <$> l))) = List.filter g l.
Proof.
  induction l as [|a l IH]; csimpl; [done|].
  destruct (g a); csimpl; by rewrite IH.
Qed.

Lemma elem_of_set_cell c v cs : (c, v) ∈ set_cell c v cs.
Proof.
  induction cs as [|[k w] cs IH]; simpl; [by left|].
  case_bool_decide; [subst; by left|by right].
Qed.

Lemma upto_14 B : upto 14 (notebook B) = loading ++ [(14, cell_14)].
Proof. reflexivity. Qed.

Lemma upto_26 B :
  upto 26 (notebook B) = loading ++ encoding ++ [(26, cell_26)].
Proof. reflexivity. Qed.

Lemma upto_76 B :
  upto 76 (notebook B)
  = (loading ++ encoding ++ training_set ++ splitting B ++ logistic B
       ++ decision_tree B ++ random_forest B ++ [(74, cell_74)]) ++ [(76, cell_76)].
Proof. reflexivity. Qed.

(** Cell 14 re-labels every row in place. *)
Lemma cell_14_spec k d :
  globals k !! "adshex" = Some (DF d) → "label" ∈ columns d →
  exec 14 cell_14 k
  = bind_name "adshex"
      (DF (mkDF (columns d) (filter (λ c, c ≠ "label") (categorical d))
                (relabelled <$> rows d))) k.
Proof.
  intros Hd Hl. unfold cell_14. erewrite exec_cons_ok; [reflexivity|].
  unfold assign_column. cbv beta. rewrite !(frame_Some _ _ _ Hd). simpl.
  unfold getattr. rewrite bool_decide_eq_true_2 by done. simpl. do 3 f_equal.
  unfold setitem, set_column. simpl.
  rewrite !bool_decide_eq_true_2 by done. f_equal.
  unfold column_values. rewrite <- list_fmap_compose.
  by rewrite zip_with_fmap_same.
Qed.

(** Cell 19 names a frame [df] that no earlier cell binds. *)
Lemma cell_19_raises k :
  globals k !! "df" = None → exec 19 cell_19 k = log_raise 19 (NameError "df") k.
Proof.
  intros H. unfold cell_19. apply exec_cons_raise.
  unfold assign_column, frame, name. cbv beta. by rewrite H.
Qed.

(** Cell 21 asks for the [.cat] accessor of a column that is not
    categorical. *)
Lemma cell_21_raises k :
  (∀ d, globals k !! "adshex" = Some (DF d) → "type" ∉ categorical d) →
  ∃ e, exec 21 cell_21 k = log_raise 21 e k.
Proof.
  intros Hc. unfold cell_21. unfold exec.
  destruct (assign_column _ _ _ k) as [k'|e] eqn:E; [|eauto].
  apply assign_column_inv in E as (s & d' & E & _ & _). exfalso.
  destruct (frame k "adshex") as [d|] eqn:Ed; simpl in E; [|done].
  apply frame_inv in Ed. specialize (Hc d Ed).
  unfold getattr in E. case_bool_decide; simpl in E; [|done].
  unfold cat_codes in E. simpl in E. by rewrite bool_decide_eq_false_2 in E.
Qed.

Lemma cell_26_spec k d :
  globals k !! "adshex" = Some (DF d) →
  exec 26 cell_26 k = bind_name "train_df" (DF (dropna d)) k.
Proof.
  intros Hd. unfold cell_26. erewrite exec_cons_ok; [reflexivity|].
  unfold assign. cbv beta. by rewrite (frame_Some _ _ _ Hd).
Qed.

(** Cell 76 keeps the rows whose label is missing. *)
Lemma cell_76_spec k d :
  globals k !! "adshex" = Some (DF d) → "label" ∈ columns d →
  exec 76 cell_76 k
  = bind_name "new_df"
      (DF (mkDF (columns d) (categorical d) (List.filter unlabelled (rows d)))) k.
Proof.
  intros Hd Hl. unfold cell_76. erewrite exec_cons_ok; [reflexivity|].
  unfold assign. cbv beta. rewrite (frame_Some _ _ _ Hd). simpl.
  unfold getattr. rewrite bool_decide_eq_true_2 by done. simpl.
  unfold getitem_mask. simpl. rewrite bool_decide_eq_true_2 by done. simpl.
  do 4 f_equal. unfold column_values. rewrite <- list_fmap_compose.
  apply (filter_zip_mask unlabelled).
Qed.

Lemma merge_left_categorical l r on d :
  merge_left l r on = Ok d → categorical l = [] → categorical r = [] → categorical d = [].
Proof.
  unfold merge_left. destruct (_ && _); [|done].
  intros [= <-] Hl Hr. simpl. by rewrite Hl, Hr.
Qed.

(** After the loading cells of a fresh kernel nothing is bound to [df], and
    no frame in the namespace has a categorical column. *)
Lemma loading_state fs :
  globals (run loading (fresh fs)) !! "df" = None
  ∧ ∀ x d, globals (run loading (fresh fs)) !! x = Some (DF d) → categorical d = [].
Proof.
  apply (run_preserved
           (λ k, globals k !! "df" = None
                 ∧ ∀ x d, globals k !! x = Some (DF d) → categorical d = [])).
  - by intros n e k.
  - unfold loading, cell_4, cell_5, cell_8. repeat apply Forall_cons_2; try apply Forall_nil_2;
      simpl; repeat apply Forall_cons_2; try apply Forall_nil_2;
      intros k k' [Hdf Hcat] (o & Ho & ->)%assign_inv; simpl;
      (split; [by rewrite lookup_insert_ne|]); intros x d;
      rewrite lookup_insert; case_decide; try apply Hcat; intros [= ->].
    + unfold pd_read_csv in Ho. destruct (files k !! _); [|done]. by injection Ho as <-.
    + unfold pd_read_csv in Ho. destruct (files k !! _); [|done]. by injection Ho as <-.
    + inv_result Ho. subst. eapply merge_left_categorical; [done|..].
      * eapply Hcat. by apply frame_inv.
      * eapply Hcat. by apply frame_inv.
  - split; [done|]. intros x d. simpl. by rewrite lookup_empty.
Qed.

(** The same holds when cell 14 has run. *)
Lemma before_cell_19 B fs :
  globals (run (upto 14 (notebook B)) (fresh fs)) !! "df" = None
  ∧ ∀ x d, globals (run (upto 14 (notebook B)) (fresh fs)) !! x = Some (DF d) →
           categorical d = [].
Proof.
  rewrite upto_14, run_app, run_singleton.
  apply (exec_preserved
           (λ k, globals k !! "df" = None
                 ∧ ∀ x d, globals k !! x = Some (DF d) → categorical d = []));
    [by intros n e k| |apply loading_state].
  unfold cell_14. apply Forall_cons_2; [|apply Forall_nil_2].
  intros k k' [Hdf Hcat] (s & d & Hs & Hd & ->)%assign_column_inv. simpl.
  split; [by rewrite lookup_insert_ne|]. intros x d'.
  rewrite lookup_insert. case_decide; [|apply Hcat]. intros [= <-].
  apply frame_inv in Hd. inv_result Hs. subst s. simpl.
  by rewrite (Hcat _ _ Hd).
Qed.

Lemma upto_21 B :
  upto 21 (notebook B) = upto 14 (notebook B) ++ [(19, cell_19); (21, cell_21)].
Proof. reflexivity. Qed.

Lemma notebook_after_21 B :
  notebook B
  = upto 21 (notebook B)
      ++ training_set ++ splitting B ++ logistic B ++ decision_tree B
      ++ random_forest B ++ scoring B.
Proof. reflexivity. Qed.

(** In every run from a fresh kernel cells 19 and 21 raise and change
    nothing. *)
Lemma cells_19_21_raise B fs :
  ∃ e, run (upto 21 (notebook B)) (fresh fs)
       = log_raise 21 e (log_raise 19 (NameError "df")
                           (run (upto 14 (notebook B)) (fresh fs))).
Proof.
  destruct (before_cell_19 B fs) as [Hdf Hcat].
  destruct (cell_21_raises
              (log_raise 19 (NameError "df") (run (upto 14 (notebook B)) (fresh fs))))
    as [e He].
  { intros d Hd. unfold log_raise in Hd. cbn [globals] in Hd.
    rewrite (Hcat _ _ Hd). apply not_elem_of_nil. }
  exists e. by rewrite upto_21, run_app, !run_cons, cell_19_raises, He.
Qed.

Lemma raised_grows n e cs k :
  Forall (λ nc : nat * cell, Forall (preserved (λ k, (n, e) ∈ raised k)) nc.2) cs →
  (n, e) ∈ raised k → (n, e) ∈ raised (run cs k).
Proof.
  intros Hcs. apply (run_preserved (λ k, (n, e) ∈ raised k)); [|done].
  intros m e' k' H. simpl. apply elem_of_app. by left.
Qed.

End CellFacts.
(** ** Which estimator the notebook reads *)

Section Reads.
Import Pandas Sklearn Notebook Spec.
Variable B : Backend.












End Reads.




Section ReadsOfTheRun.
Import Pandas Sklearn Notebook Spec.
Variable B : Backend.










End ReadsOfTheRun.
(** ** The scoring cells *)

Section ScoringCells.
Import Pandas Sklearn Notebook Spec.

Lemma drop_ok d cs :
  Forall (λ c, c ∈ columns d) cs →
  drop d cs
  = Ok (mkDF (filter (λ c, c ∉ cs) (columns d)) (filter (λ c, c ∉ cs) (categorical d))
             ((λ r, mkRow (idx r) (filter (λ kv, kv.1 ∉ cs) (cells r))) <$> rows d)).
Proof.
  intros H. unfold drop.
  assert (filter (λ c, c ∉ columns d) cs = []) as ->; [|done].
  induction H as [|c cs Hc _ IH]; [done|].
  rewrite filter_cons_False by (intros Hn; by apply Hn). apply IH.
Qed.


Lemma keys_set_cell_new c v cs : c ∉ cs.*1 → (set_cell c v cs).*1 = cs.*1 ++ [c].
Proof.
  induction cs as [|[k w] cs IH]; csimpl; [done|].
  intros [Hne Hin]%not_elem_of_cons.
  rewrite bool_decide_eq_false_2 by done. csimpl. by rewrite IH.
Qed.

Lemma filter_set_cell c v cs :
  c ∉ cs.*1 → filter (λ kv : string * value, kv.1 ∉ [c]) (set_cell c v cs) = cs.
Proof.
  induction cs as [|[k w] cs IH]; csimpl.
  - intros _. rewrite filter_cons_False; [done|]. simpl. intros H. apply H. by left.
  - intros [Hne Hin]%not_elem_of_cons.
    rewrite bool_decide_eq_false_2 by done.
    rewrite filter_cons_True.
    + by rewrite IH.
    + simpl. by intros ->%list_elem_of_singleton.
Qed.

Lemma filter_not_last (c : string) (cols : list string) :
  c ∉ cols → filter (λ x, x ∉ [c]) (cols ++ [c]) = cols.
Proof.
  intros Hc. rewrite filter_app, filter_cons_False, filter_nil, app_nil_r.
  - induction cols as [|x cols IH]; [done|].
    apply not_elem_of_cons in Hc as [Hne Hc].
    rewrite filter_cons_True; [by rewrite IH|].
    intros ->%list_elem_of_singleton. done.
  - intros H. apply H. by left.
Qed.


(** *** Cell by cell *)



Lemma cell_83_spec B k c X pv :
  globals k !! "clf" = Some (Est c) → globals k !! "X" = Some (DF X) →
  predict B c X = Ok pv →
  exec 83 (cell_83 B) k
  = bind_name "X" (DF (set_column X "predicted" false (Num <$> pv))) k.
Proof.
  intros Hc HX Hp. unfold cell_83. erewrite exec_cons_ok; [reflexivity|].
  unfold assign_array. cbv beta.
  rewrite (estimator_Some _ _ _ Hc), !(frame_Some _ _ _ HX). simpl.
  rewrite Hp. simpl. unfold setitem_array.
  by rewrite bool_decide_eq_true_2 by (by apply predict_length in Hp).
Qed.

Lemma cell_89_spec k X :
  globals k !! "X" = Some (DF X) → "predicted" ∈ columns X →
  exec 89 cell_89 k
  = bind_name "X"
      (DF (mkDF (filter (λ c, c ∉ ["predicted"]) (columns X))
                (filter (λ c, c ∉ ["predicted"]) (categorical X))
                ((λ r, mkRow (idx r) (filter (λ kv, kv.1 ∉ ["predicted"]) (cells r)))
                   <$> rows X)))
      k.
Proof.
  intros HX Hcol. unfold cell_89. erewrite exec_cons_ok; [reflexivity|].
  unfold assign. cbv beta. rewrite (frame_Some _ _ _ HX). simpl.
  rewrite drop_ok; [done|]. by apply Forall_singleton.
Qed.



Lemma cell_93_spec B k X qs :
  globals k !! "X" = Some (DF X) → "predicted_prob" ∈ columns X →
  column_values X "predicted_prob" = Num <$> qs →
  exec 93 (cell_93 B) k
  = bind_name "df"
      (DF (head 200
             (mkDF (columns X) (categorical X)
                   (omap (λ i, rows X !! i)
                         (nargsort (argsort B) (Some <$> qs) false))))) k.
Proof.
  intros HX Hcol Hq. unfold cell_93. erewrite exec_cons_ok; [reflexivity|].
  unfold assign. cbv beta. rewrite (frame_Some _ _ _ HX). simpl.
  by rewrite (sort_values_numeric _ _ _ _ Hcol Hq).
Qed.



End ScoringCells.
(** ** What is in the file *)

Section Outputs.
Import Pandas Sklearn Notebook Spec.




Lemma mapM_result_lookup {A C} (f : A → result C) (l : list A) (l' : list C) i a :
  mapM f l = Ok l' → l !! i = Some a → ∃ b, l' !! i = Some b ∧ f a = Ok b.
Proof.
  revert l' i. induction l as [|a0 l IH]; intros l' i H Hi; [done|].
  simpl in H. destruct (f a0) as [b0|] eqn:E; simpl in H; [|done].
  destruct (mapM f l) as [bs|] eqn:E'; simpl in H; [|done].
  injection H as <-. destruct i as [|i]; simpl in *.
  - injection Hi as <-. eauto.
  - by apply IH.
Qed.





End Outputs.
(** ** The scoring cells, run in sequence *)


Section Scoring.
Import Pandas Sklearn Notebook Spec.

Variables (B : Backend) (k : kernel) (d X : DataFrame) (y : Series).
Variables (c : classifier) (t : training) (m : list (list Q)).

Hypothesis Hadshex : globals k !! "adshex" = Some (DF d).
Hypothesis HX : globals k !! "X" = Some (DF X).
Hypothesis Hy : globals k !! "y" = Some (Ser y).
Hypothesis Hwf : wf d.
Hypothesis Hdropped : Forall (λ c, c ∈ columns d) dropped.
Hypothesis Hpredicted : "predicted" ∉ columns d.
Hypothesis Hprob : "predicted_prob" ∉ columns d.
Hypothesis Hfit : fit (mkClassifier (RandomForestClassifier 100 5) None) X y = Ok c.
Hypothesis Hfitted : fitted c = Some t.
Hypothesis Hfeatures : columns X = feature_columns d.
Hypothesis Hnumeric : to_matrix (scoring_frame d) = Ok m.






Lemma undo_zip_with {A V} (f : A → V → A) (g : A → A) (l : list A) (vs : list V) :
  length l = length vs → Forall (λ r, ∀ v, g (f r v) = r) l →
  g <$> zip_with f l vs = l.
Proof.
  intros Hlen H. revert vs Hlen. induction H as [|r l Hr _ IH]; intros [|v vs] Hlen;
    simpl in Hlen; try done.
  csimpl. rewrite Hr, IH; [done|lia].
Qed.







End Scoring.
(** ** The ranking written to the file *)

Section Ranking.
Import Pandas Sklearn Notebook Spec.

Variable f : list Q → list nat.
Variable rs : list Row.
Variable qs : list Q.
Variable cols : list string.
Hypothesis Hf : argsort_spec f.
Hypothesis Hlen : length rs = length qs.
Hypothesis Hcol : (λ r, assoc "predicted_prob" (cells r)) <$> rs = Num <$> qs.
Hypothesis Hin : "predicted_prob" ∈ cols.







End Ranking.
(** ** The claims *)

Section Claims.
Import Pandas Sklearn Notebook Spec Examples.

(** C10. [train_df = adshex.dropna()] keeps a row of the merged table
    exactly when none of its cells, feature or label, is missing; the
    kept rows stay in order.  A labelled row with one missing feature is
    therefore not in the training subset. *)
Theorem training_subset_drops_any_null (k : kernel) (d : DataFrame) :
  globals k !! "adshex" = Some (DF d) →
  ∃ t, globals (exec 26 cell_26 k) !! "train_df" = Some (DF t)
       ∧ columns t = columns d
       ∧ rows t `sublist_of` rows d
       ∧ ∀ r, r ∈ rows t ↔ r ∈ rows d ∧ ∀ c v, (c, v) ∈ cells r → v ≠ NaN.
Proof.
  intros Hd. exists (dropna d). split; [|split; [|split]].
  - unfold cell_26. erewrite exec_cons_ok.
    2:{ unfold assign. rewrite (frame_Some _ _ _ Hd). reflexivity. }
    simpl. apply lookup_insert_eq.
  - reflexivity.
  - apply sublist_List_filter.
  - apply elem_of_dropna.
Qed.




(** C6.  From a fresh kernel, let [d] be the merged table of cell 8.  Cell
    14 turns the label [surveil] into 1 and [other] into 0 and leaves a
    missing label missing, row by row; the training subset of cell 26
    holds no row with a missing label; the merged table is the same at the
    end of the notebook; and [new_df] of cell 76, the table that is
    scored, holds exactly the rows whose label is missing. *)
Theorem labels_encoded_nulls_kept_for_scoring (B : Backend) (fs : gmap string csv)
    (d : DataFrame) :
  globals (run loading (fresh fs)) !! "adshex" = Some (DF d) →
  "label" ∈ columns d →
  ∃ d1 t n,
    globals (run (upto 14 (notebook B)) (fresh fs)) !! "adshex" = Some (DF d1)
    ∧ length (rows d1) = length (rows d)
    ∧ (∀ i r, rows d !! i = Some r →
         ∃ r1, rows d1 !! i = Some r1 ∧ idx r1 = idx r
           ∧ (assoc "label" (cells r) = Str "surveil" → assoc "label" (cells r1) = Num 1)
           ∧ (assoc "label" (cells r) = Str "other" → assoc "label" (cells r1) = Num 0)
           ∧ (assoc "label" (cells r) = NaN → assoc "label" (cells r1) = NaN))
    ∧ globals (run (upto 26 (notebook B)) (fresh fs)) !! "train_df" = Some (DF t)
    ∧ (∀ r1, r1 ∈ rows t → r1 ∈ rows d1 ∧ assoc "label" (cells r1) ≠ NaN)
    ∧ globals (run (notebook B) (fresh fs)) !! "adshex" = Some (DF d1)
    ∧ globals (run (upto 76 (notebook B)) (fresh fs)) !! "new_df" = Some (DF n)
    ∧ (∀ r1, r1 ∈ rows n ↔ r1 ∈ rows d1 ∧ assoc "label" (cells r1) = NaN).
Proof.
  intros Hd Hl. destruct (loading_state fs) as [Hdf Hcat].
  specialize (Hcat _ _ Hd).
  set (k0 := run loading (fresh fs)) in *.
  set (d1 := mkDF (columns d) (filter (λ c, c ≠ "label") (categorical d))
                  (relabelled <$> rows d)).
  set (k14 := bind_name "adshex" (DF d1) k0).
  assert (H14 : run encoding k0 = run [(19, cell_19); (21, cell_21)] k14).
  { unfold encoding. by rewrite run_cons, (cell_14_spec _ _ Hd Hl). }
  assert (Hd14 : globals k14 !! "adshex" = Some (DF d1)) by apply lookup_insert_eq.
  destruct (cell_21_raises (log_raise 19 (NameError "df") k14)) as [e He].
  { intros d' Hd'. simpl in Hd'. rewrite lookup_insert_eq in Hd'. injection Hd' as <-.
    simpl. rewrite Hcat. apply not_elem_of_nil. }
  assert (H21 : run encoding k0 = log_raise 21 e (log_raise 19 (NameError "df") k14)).
  { rewrite H14, !run_cons, cell_19_raises, He; [done|].
    simpl. by rewrite lookup_insert_ne. }
  set (k21 := log_raise 21 e (log_raise 19 (NameError "df") k14)) in *.
  assert (Hd21 : globals k21 !! "adshex" = Some (DF d1)) by done.
  assert (Hl1 : "label" ∈ columns d1) by done.
  exists d1, (dropna d1),
    (mkDF (columns d1) (categorical d1) (List.filter unlabelled (rows d1))).
  split; [|split; [|split; [|split; [|split; [|split; [|split]]]]]].
  - rewrite upto_14, run_app. fold k0. by rewrite run_cons, (cell_14_spec _ _ Hd Hl).
  - simpl. by rewrite length_fmap.
  - intros i r Hi. exists (relabelled r). split.
    { simpl. by rewrite list_lookup_fmap, Hi. }
    split; [done|]. simpl. rewrite assoc_set_cell.
    repeat split; by intros ->.
  - rewrite upto_26, !run_app. fold k0. rewrite H21, run_cons, (cell_26_spec _ _ Hd21).
    simpl. apply lookup_insert_eq.
  - intros r1 [Hin Hc]%elem_of_dropna. split; [done|].
    simpl in Hin. apply list_elem_of_fmap in Hin as (r & -> & _).
    simpl. rewrite assoc_set_cell. eapply Hc. apply elem_of_set_cell.
  - unfold notebook. rewrite !run_app. fold k0. rewrite H21, <- !run_app.
    apply (run_preserved (bound_to "adshex" (Some (DF d1)))); [apply bound_to_blind| |done].
    keeps.
  - rewrite upto_76, run_app, run_singleton.
    rewrite (cell_76_spec _ d1); [apply lookup_insert_eq| |done].
    rewrite (run_app loading), (run_app encoding). fold k0. rewrite H21.
    apply (run_preserved (bound_to "adshex" (Some (DF d1)))); [apply bound_to_blind| |done].
    keeps.
  - intros r1. simpl. rewrite list_elem_of_In, filter_In, <- list_elem_of_In.
    unfold unlabelled. destruct (assoc "label" (cells r1)); simpl; split;
      intros [? ?]; done.
Qed.



(** C4.  In every run of the notebook from a fresh kernel, whatever the
    input files, cell 19 raises [NameError] (it converts the type column
    of a frame called [df], and no earlier cell binds that name) and cell
    21, [adshex['type_code'] = adshex.type.cat.codes], raises as well; the
    namespace after cell 21 is the one after cell 14.  No type code is
    ever computed. *)
Theorem type_code_is_never_computed (B : Backend) (fs : gmap string csv) :
  (∃ e, run (upto 21 (notebook B)) (fresh fs)
        = log_raise 21 e (log_raise 19 (NameError "df")
                            (run (upto 14 (notebook B)) (fresh fs))))
  ∧ globals (run (upto 21 (notebook B)) (fresh fs))
    = globals (run (upto 14 (notebook B)) (fresh fs))
  ∧ (19, NameError "df") ∈ raised (run (notebook B) (fresh fs))
  ∧ ∃ e, (21, e) ∈ raised (run (notebook B) (fresh fs)).
Proof.
  destruct (cells_19_21_raise B fs) as [e He].
  split; [by exists e|]. split; [by rewrite He|].
  rewrite notebook_after_21, run_app, He.
  split; [|exists e]; (apply raised_grows; [all_unchanged|]);
    unfold log_raise; cbn [raised];
    rewrite !elem_of_app, !list_elem_of_singleton; auto.
Qed.


(** The reads of the example run: the coefficients twice (cells 45 and 47)
    and the importances twice (cells 56 and 66), each time through
    [clf]. *)
Example reads_of_the_example_run :
  (λ ev, (ev_name ev, ev_attr ev, is_forest (params (ev_target ev))))
    <$> reads (run (notebook backend) (fresh disk))
  = [("clf", "coef_", false); ("clf", "coef_", false);
     ("clf", "feature_importances_", false); ("clf", "feature_importances_", false)].
Proof. vm_compute. reflexivity. Qed.

(** C2 (what the code does).  Cell 44 fits the logistic regression on the
    frames bound to [X] and [y], all the rows of the training subset: when
    [X_train] holds fewer rows than [X], as after the split, the fitted
    matrix has the rows of [X] and not those of [X_train]. *)
Theorem logistic_regression_is_fitted_on_all_rows (k : kernel)
    (X X_train : DataFrame) (y : Series) (c : classifier) (t : training) :
  globals k !! "X" = Some (DF X) →
  globals k !! "y" = Some (Ser y) →
  globals k !! "X_train" = Some (DF X_train) →
  length (rows X_train) < length (rows X) →
  globals (exec 44 cell_44 k) !! "clf" = Some (Est c) →
  fitted c = Some t →
  fit (mkClassifier (LogisticRegression 1000000000 4000) None) X y = Ok c
  ∧ to_matrix X = Ok (X_fit t)
  ∧ length (X_fit t) = length (rows X)
  ∧ to_matrix X_train ≠ Ok (X_fit t).
Proof.
  intros HX Hy HXt Hlt Hclf Hf. unfold cell_44 in Hclf.
  erewrite exec_cons_ok in Hclf; [|reflexivity].
  unfold exec in Hclf. destruct (fit_named _ _ _ _) as [k'|e] eqn:E.
  - apply fit_named_inv in E as (c0 & d & s & c' & Hc0 & Hd & Hs & Hfit & ->).
    simpl in Hclf. rewrite lookup_insert_eq in Hclf. injection Hclf as <-.
    apply estimator_inv in Hc0. simpl in Hc0. rewrite lookup_insert_eq in Hc0.
    injection Hc0 as <-.
    apply frame_inv in Hd. simpl in Hd. rewrite lookup_insert_ne in Hd by done.
    rewrite HX in Hd. injection Hd as <-.
    assert (s = y) as ->.
    { unfold series, name in Hs. simpl in Hs. rewrite lookup_insert_ne in Hs by done.
      rewrite Hy in Hs. simpl in Hs. congruence. }
    split; [done|].
    assert (Hm : to_matrix X = Ok (X_fit t)).
    { unfold fit in Hfit. destruct (to_matrix X) as [m|]; simpl in Hfit; [|done].
      destruct (to_vector y); simpl in Hfit; [|done].
      case_bool_decide; [|done]. destruct m; [done|].
      injection Hfit as <-. simpl in Hf. by injection Hf as <-. }
    split; [done|]. pose proof (to_matrix_length _ _ Hm) as Hlen.
    split; [done|]. intros Hm'. apply to_matrix_length in Hm'. lia.
  - simpl in Hclf. rewrite lookup_insert_eq in Hclf. injection Hclf as <-. done.
Qed.



(** *** The theorems at the example run *)


Lemma wf_merged : wf merged.
Proof. split; [vm_decide | repeat constructor]. Qed.

Lemma training_subset_drops_any_null_witness :
  ∃ t, globals (exec 26 cell_26 (after 21)) !! "train_df" = Some (DF t)
       ∧ columns t = columns merged
       ∧ rows t `sublist_of` rows merged
       ∧ ∀ r, r ∈ rows t ↔ r ∈ rows merged ∧ ∀ c v, (c, v) ∈ cells r → v ≠ NaN.
Proof. apply (training_subset_drops_any_null (after 21) merged). reflexivity. Defined.

Lemma labels_encoded_nulls_kept_for_scoring_witness :
  ∃ d1 t n,
    globals (run (upto 14 (notebook backend)) (fresh disk)) !! "adshex" = Some (DF d1)
    ∧ length (rows d1) = length (rows merged_raw)
    ∧ (∀ i r, rows merged_raw !! i = Some r →
         ∃ r1, rows d1 !! i = Some r1 ∧ idx r1 = idx r
           ∧ (assoc "label" (cells r) = Str "surveil" → assoc "label" (cells r1) = Num 1)
           ∧ (assoc "label" (cells r) = Str "other" → assoc "label" (cells r1) = Num 0)
           ∧ (assoc "label" (cells r) = NaN → assoc "label" (cells r1) = NaN))
    ∧ globals (run (upto 26 (notebook backend)) (fresh disk)) !! "train_df" = Some (DF t)
    ∧ (∀ r1, r1 ∈ rows t → r1 ∈ rows d1 ∧ assoc "label" (cells r1) ≠ NaN)
    ∧ globals (run (notebook backend) (fresh disk)) !! "adshex" = Some (DF d1)
    ∧ globals (run (upto 76 (notebook backend)) (fresh disk)) !! "new_df" = Some (DF n)
    ∧ (∀ r1, r1 ∈ rows n ↔ r1 ∈ rows d1 ∧ assoc "label" (cells r1) = NaN).
Proof.
  apply (labels_encoded_nulls_kept_for_scoring backend disk merged_raw);
    [reflexivity | vm_decide].
Defined.



Lemma logistic_regression_is_fitted_on_all_rows_witness :
  fit (mkClassifier (LogisticRegression 1000000000 4000) None) X_all y_all
  = Ok logistic_on_all
  ∧ to_matrix X_all = Ok (X_fit (training_of logistic_on_all))
  ∧ length (X_fit (training_of logistic_on_all)) = length (rows X_all)
  ∧ to_matrix X_train_part ≠ Ok (X_fit (training_of logistic_on_all)).
Proof.
  apply (logistic_regression_is_fitted_on_all_rows (after 38) X_all X_train_part y_all
           logistic_on_all (training_of logistic_on_all)).
  - reflexivity.
  - reflexivity.
  - reflexivity.
  - simpl. lia.
  - reflexivity.
  - reflexivity.
Defined.





End Claims.

(** ** More of the notebook: errors, round trips and what a run never does *)

Section MoreOfTheCode.
Import Pandas Sklearn Notebook Spec Examples Inputs.

Lemma drop_inv d cs d' :
  drop d cs = Ok d' →
  Forall (λ c, c ∈ columns d) cs
  ∧ d' = mkDF (filter (λ c, c ∉ cs) (columns d)) (filter (λ c, c ∉ cs) (categorical d))
              ((λ r, mkRow (idx r) (filter (λ kv, kv.1 ∉ cs) (cells r))) <$> rows d).
Proof.
  unfold drop. destruct (filter _ cs) as [|c l] eqn:E; [|done].
  intros [= <-]. split; [|done]. apply Forall_forall. intros c Hc.
  destruct (decide (c ∈ columns d)) as [|Hn]; [done|].
  assert (Hin : c ∈ filter (λ c, c ∉ columns d) cs) by by apply list_elem_of_filter.
  rewrite E in Hin. by apply elem_of_nil in Hin.
Qed.

Lemma drop_again d c cs d' :
  drop d (c :: cs) = Ok d' → drop d' (c :: cs) = Raise (KeyError c).
Proof.
  intros [_ ->]%drop_inv. unfold drop. cbn [columns].
  rewrite filter_cons_True; [done|].
  intros [Hc _]%list_elem_of_filter. apply Hc. by left.
Qed.



Lemma upto_26_28_32 B :
  upto 28 (notebook B) = upto 26 (notebook B) ++ [(28, cell_28)]
  ∧ upto 32 (notebook B) = upto 28 (notebook B) ++ [(32, cell_32)]
  ∧ notebook B
    = upto 32 (notebook B)
        ++ [(34, cell_34)] ++ splitting B ++ logistic B ++ decision_tree B
        ++ random_forest B ++ scoring B.
Proof. done. Qed.

Lemma cell_32_after_28 k :
  ∃ e, exec 32 cell_32 (exec 28 cell_28 k) = log_raise 32 e (exec 28 cell_28 k).
Proof.
  unfold cell_32, cell_28. set (s := assign "train_df" _).
  change (exec 28 [s] k)
    with (match s k with Ok k' => k' | Raise e => log_raise 28 e k end).
  destruct (s k) as [k'|e] eqn:E.
  - exists (KeyError "adshex"). apply exec_cons_raise.
    apply assign_inv in E as (o & Ho & ->). inv_result Ho. subst o.
    unfold s, assign. cbv beta.
    rewrite (frame_Some _ "train_df" a0) by apply lookup_insert_eq. simpl.
    by rewrite (drop_again _ _ _ _ E0).
  - exists e. apply exec_cons_raise. unfold s, assign in *. cbv beta in *.
    change (frame (log_raise 28 e k) "train_df") with (frame k "train_df").
    destruct (frame k "train_df") as [d|]; simpl in *; [|done].
    by destruct (drop d _).
Qed.

(** Cell 32 repeats the statement of cell 28,
    [train_df = train_df.drop(['adshex', 'type'], axis=1)].  In every run
    from a fresh kernel, whatever the input files, it raises and leaves
    the namespace as cell 28 left it. *)
Theorem cell_32_raises_in_every_run (B : Backend) (fs : gmap string csv) :
  ∃ e, run (upto 32 (notebook B)) (fresh fs)
       = log_raise 32 e (run (upto 28 (notebook B)) (fresh fs))
       ∧ (32, e) ∈ raised (run (notebook B) (fresh fs)).
Proof.
  destruct (upto_26_28_32 B) as (H28 & H32 & Hnb).
  destruct (cell_32_after_28 (run (upto 26 (notebook B)) (fresh fs))) as [e He].
  exists e.
  assert (Hrun : run (upto 32 (notebook B)) (fresh fs)
                 = log_raise 32 e (run (upto 28 (notebook B)) (fresh fs))).
  { by rewrite H32, run_app, run_singleton, H28, run_app, run_singleton. }
  split; [done|]. rewrite Hnb, run_app, Hrun.
  apply raised_grows; [all_unchanged|].
  unfold log_raise; cbn [raised]. apply elem_of_app. right. by left.
Qed.

(** [train_test_split] needs two rows: with fewer the train side would be
    empty, cell 38 raises [ValueError] and binds none of the four
    names. *)
Theorem split_of_fewer_than_two_rows_raises (B : Backend) (k : kernel)
    (X : DataFrame) (y : Series) :
  globals k !! "X" = Some (DF X) → globals k !! "y" = Some (Ser y) →
  length (rows X) < 2 →
  ∃ msg, exec 38 (cell_38 B) k = log_raise 38 (ValueError msg) k.
Proof.
  intros HX Hy Hn. unfold cell_38, exec, split_named.
  rewrite (frame_Some _ _ _ HX), (series_Some _ _ _ Hy). simpl.
  unfold train_test_split. case_bool_decide; simpl; [|eauto].
  destruct (rows X) as [|r [|r' l]]; simpl in *; eauto. lia.
Qed.

Lemma split_of_fewer_than_two_rows_raises_witness :
  ∃ msg, exec 38 (cell_38 backend) (after_on disk_one 34)
         = log_raise 38 (ValueError msg) (after_on disk_one 34).
Proof.
  apply (split_of_fewer_than_two_rows_raises backend (after_on disk_one 34)
           (frame_of (after_on disk_one 34) "X") (series_of (after_on disk_one 34) "y")).
  - reflexivity.
  - reflexivity.
  - vm_compute. lia.
Defined.

End MoreOfTheCode.

(** ** Round trips *)

Section RoundTrips.
Import Pandas Sklearn Notebook Spec Examples Inputs.

Lemma bind_name_same x o k : globals k !! x = Some o → bind_name x o k = k.
Proof.
  intros H. destruct k as [g f s r e]. unfold bind_name. simpl in *.
  by rewrite insert_id.
Qed.

Lemma bind_name_twice x o o' k : bind_name x o (bind_name x o' k) = bind_name x o k.
Proof. unfold bind_name. simpl. by rewrite insert_insert_eq. Qed.

Lemma row_eta r : mkRow (idx r) (cells r) = r.
Proof. by destruct r. Qed.

Lemma filter_keep_all {A} (P : A → Prop) `{∀ x, Decision (P x)} (l : list A) :
  Forall P l → filter P l = l.
Proof.
  induction 1 as [|x l Hx _ IH]; [done|]. by rewrite filter_cons_True, IH.
Qed.

(** The column [predicted] that cell 83 adds is taken away again by cell
    89: after the two cells the kernel is what it was before them. *)
Theorem predicted_column_round_trip (B : Backend) (k : kernel) (c : classifier)
    (X : DataFrame) (pv : list Q) :
  globals k !! "clf" = Some (Est c) → globals k !! "X" = Some (DF X) →
  wf X → "predicted" ∉ columns X → "predicted" ∉ categorical X →
  predict B c X = Ok pv →
  exec 89 cell_89 (exec 83 (cell_83 B) k) = k.
Proof.
  intros Hc HX [Hnd Hrows] Hp Hcat Hpred.
  rewrite (cell_83_spec B k c X pv Hc HX Hpred).
  erewrite cell_89_spec; [|apply lookup_insert_eq|].
  2:{ unfold set_column. cbn [columns]. rewrite bool_decide_eq_false_2 by done.
      apply elem_of_app. right. by left. }
  rewrite bind_name_twice. apply bind_name_same. rewrite HX. do 2 f_equal.
  symmetry. unfold set_column. cbn [columns categorical rows].
  rewrite bool_decide_eq_false_2 by done.
  destruct X as [cols cats rs]. simpl in *. f_equal.
  - by apply filter_not_last.
  - rewrite list_filter_filter. apply filter_keep_all.
    apply Forall_forall. intros x Hx. split; [|by intros ->].
    intros [->|[]%elem_of_nil]%elem_of_cons. done.
  - apply (undo_zip_with
             (λ r v, mkRow (idx r) (set_cell "predicted" v (cells r)))
             (λ r, mkRow (idx r) (filter (λ kv, kv.1 ∉ ["predicted"]) (cells r)))).
    + rewrite length_fmap. symmetry. by apply predict_length in Hpred.
    + eapply Forall_impl; [exact Hrows|]. intros r Hr v. simpl.
      rewrite filter_set_cell; [apply row_eta|]. by rewrite Hr.
Qed.

Lemma predicted_column_round_trip_witness :
  exec 89 cell_89 (exec 83 (cell_83 backend) (after 81)) = after 81.
Proof.
  apply (predicted_column_round_trip backend (after 81) forest_on_all
           X_scored [0%Q; 1%Q]).
  - vm_compute; reflexivity.
  - vm_compute; reflexivity.
  - split; [vm_decide | repeat constructor].
  - vm_decide.
  - vm_decide.
  - vm_compute; reflexivity.
Defined.

(** Without cell 89 the scoring stops: the forest was fitted on the
    feature columns, the frame that cell 83 leaves has [predicted] as
    well, and [predict_proba] of cell 90 raises [ValueError] on it. *)
Theorem predict_proba_rejects_the_predicted_column (B : Backend) (k : kernel)
    (c : classifier) (X : DataFrame) (pv : list Q) :
  globals k !! "clf" = Some (Est c) → globals k !! "X" = Some (DF X) →
  "predicted" ∉ columns X →
  predict B c X = Ok pv →
  exec 90 (cell_90 B) (exec 83 (cell_83 B) k)
  = log_raise 90
      (ValueError "The feature names should match those that were passed during fit")
      (exec 83 (cell_83 B) k).
Proof.
  intros Hc HX Hp Hpred.
  rewrite (cell_83_spec B k c X pv Hc HX Hpred).
  unfold cell_90. apply exec_cons_raise. unfold assign_array. cbv beta.
  rewrite (estimator_Some _ "clf" c) by (by rewrite globals_bind_name, lookup_insert_ne).
  rewrite (frame_Some _ "X" (set_column X "predicted" false (Num <$> pv)))
    by apply lookup_insert_eq.
  simpl. unfold predict in Hpred. unfold predict_proba_1, validate in *.
  destruct (fitted c) as [t|]; [|done].
  case_bool_decide as Hcols; [|done].
  unfold set_column. cbn [columns]. rewrite bool_decide_eq_false_2 by done.
  rewrite bool_decide_eq_false_2; [done|].
  rewrite <- Hcols. intros Heq.
  apply (f_equal length) in Heq. rewrite length_app in Heq. simpl in Heq. lia.
Qed.

Lemma predict_proba_rejects_the_predicted_column_witness :
  exec 90 (cell_90 backend) (exec 83 (cell_83 backend) (after 81))
  = log_raise 90
      (ValueError "The feature names should match those that were passed during fit")
      (exec 83 (cell_83 backend) (after 81)).
Proof.
  apply (predict_proba_rejects_the_predicted_column backend (after 81) forest_on_all
           X_scored [0%Q; 1%Q]).
  - vm_compute; reflexivity.
  - vm_compute; reflexivity.
  - vm_decide.
  - vm_compute; reflexivity.
Defined.


Lemma imap_fmap_idx {A} (f : A → list (string * value)) (l : list A) n :
  idx <$> imap (λ i a, mkRow (n + i) (f a)) l = seq n (length l).
Proof.
  revert n. induction l as [|a l IH]; intros n; [done|]. csimpl.
  rewrite Nat.add_0_r. f_equal.
  rewrite <- (IH (S n)). f_equal. apply imap_ext. intros i x _. simpl. f_equal. lia.
Qed.




End RoundTrips.

(** ** Cells run out of order, and cells run twice *)

Section OutOfOrder.
Import Pandas Sklearn Notebook Spec Examples Inputs.

(** Cell 45 (and 47, the same statements) reads [clf.coef_].  When [clf]
    is not a fitted logistic regression, as once the tree of cell 53 is
    bound to the name, the cell binds [feature_names], then raises
    [AttributeError]: [coefficients] keeps its value and no read is
    logged. *)
Theorem coefficients_need_the_logistic_regression (B : Backend) (k : kernel)
    (c : classifier) (X : DataFrame) :
  globals k !! "clf" = Some (Est c) → globals k !! "X" = Some (DF X) →
  is_logistic (params c) = false ∨ fitted c = None →
  exec 45 (cell_45 B) k
  = log_raise 45 (AttributeError "coef_")
      (bind_name "feature_names" (Names (columns X)) k).
Proof.
  intros Hc HX Hk. unfold cell_45.
  erewrite exec_cons_ok.
  2:{ unfold assign, columns_of. by rewrite (frame_Some _ _ _ HX). }
  apply exec_cons_raise. unfold read_fitted.
  rewrite (estimator_Some _ "clf" c) by (by rewrite globals_bind_name, lookup_insert_ne).
  simpl. unfold coef_. destruct Hk as [Hk|Hk].
  - by destruct (params c), (fitted c).
  - rewrite Hk. by destruct (params c).
Qed.

Lemma coefficients_need_the_logistic_regression_witness :
  exec 45 (cell_45 backend) (after 53)
  = log_raise 45 (AttributeError "coef_")
      (bind_name "feature_names" (Names (columns X_all)) (after 53)).
Proof.
  apply (coefficients_need_the_logistic_regression backend (after 53) tree_on_part X_all).
  - vm_compute; reflexivity.
  - vm_compute; reflexivity.
  - left. reflexivity.
Defined.

(** Cell 56 (and 66) reads [clf.feature_importances_].  While [clf] is
    the logistic regression of cell 44 the cell binds [feature_names],
    then raises [AttributeError]; nothing is bound to [importances]. *)
Theorem importances_need_a_tree (B : Backend) (k : kernel)
    (c : classifier) (X : DataFrame) :
  globals k !! "clf" = Some (Est c) → globals k !! "X" = Some (DF X) →
  is_logistic (params c) = true →
  exec 56 (cell_56 B) k
  = log_raise 56 (AttributeError "feature_importances_")
      (bind_name "feature_names" (Names (columns X)) k).
Proof.
  intros Hc HX Hk. unfold cell_56.
  erewrite exec_cons_ok.
  2:{ unfold assign, columns_of. by rewrite (frame_Some _ _ _ HX). }
  apply exec_cons_raise. unfold read_fitted.
  rewrite (estimator_Some _ "clf" c) by (by rewrite globals_bind_name, lookup_insert_ne).
  simpl. unfold feature_importances_. by destruct (params c).
Qed.

Lemma importances_need_a_tree_witness :
  exec 56 (cell_56 backend) (after 49)
  = log_raise 56 (AttributeError "feature_importances_")
      (bind_name "feature_names" (Names (columns X_all)) (after 49)).
Proof.
  apply (importances_need_a_tree backend (after 49) logistic_on_all X_all).
  - vm_compute; reflexivity.
  - vm_compute; reflexivity.
  - reflexivity.
Defined.

Lemma set_cell_twice c v w cs : set_cell c v (set_cell c w cs) = set_cell c v cs.
Proof.
  induction cs as [|[k u] cs IH]; simpl.
  - by rewrite bool_decide_eq_true_2.
  - case_bool_decide; simpl.
    + by rewrite bool_decide_eq_true_2.
    + rewrite bool_decide_eq_false_2 by done. by rewrite IH.
Qed.

Lemma replace_labels_twice v :
  replace_value [("surveil", Num 1); ("other", Num 0)]
    (replace_value [("surveil", Num 1); ("other", Num 0)] v)
  = replace_value [("surveil", Num 1); ("other", Num 0)] v.
Proof.
  destruct v as [|s|q]; try done. simpl.
  repeat (case_bool_decide; simpl; try done).
Qed.

Lemma relabelled_twice r : relabelled (relabelled r) = relabelled r.
Proof.
  unfold relabelled. simpl. by rewrite assoc_set_cell, replace_labels_twice, set_cell_twice.
Qed.

(** Running cell 14 a second time changes nothing: the numbers 1 and 0
    that replaced the two label strings are not replaced again. *)
Theorem relabelling_twice_is_relabelling_once (k : kernel) (d : DataFrame) :
  globals k !! "adshex" = Some (DF d) → "label" ∈ columns d →
  exec 14 cell_14 (exec 14 cell_14 k) = exec 14 cell_14 k.
Proof.
  intros Hd Hl. rewrite (cell_14_spec k d Hd Hl).
  erewrite cell_14_spec; [|apply lookup_insert_eq|done].
  rewrite bind_name_twice. cbn [columns categorical rows]. do 3 f_equal.
  - rewrite list_filter_filter. apply list_filter_iff. intros x. tauto.
  - rewrite <- list_fmap_compose. apply list_fmap_ext. intros i r _. simpl.
    apply relabelled_twice.
Qed.

Lemma relabelling_twice_is_relabelling_once_witness :
  exec 14 cell_14 (exec 14 cell_14 (after 8)) = exec 14 cell_14 (after 8).
Proof.
  apply (relabelling_twice_is_relabelling_once (after 8) merged_raw).
  - vm_compute; reflexivity.
  - vm_decide.
Defined.



End OutOfOrder.

(** ** What no run of the notebook does *)

(** Take a successful statement apart, keeping what it computed. *)
Ltac stmt_inv Hs :=
  lazymatch type of Hs with
  | Notebook.assign _ _ _ = _ => apply assign_inv in Hs as (? & ? & ->)
  | Notebook.assign_column _ _ _ _ = _ =>
      apply assign_column_inv in Hs as (? & ? & ? & ? & ->)
  | Notebook.assign_array _ _ _ _ = _ =>
      apply assign_array_inv in Hs as (? & ? & ? & ? & ? & ? & ->)
  | Notebook.fit_named _ _ _ _ = _ =>
      apply fit_named_inv in Hs as (? & ? & ? & ? & ? & ? & ? & ? & ->)
  | Notebook.read_fitted _ _ _ _ _ _ = _ =>
      apply read_fitted_inv in Hs as (? & ? & ? & ? & ->)
  | Notebook.split_named _ _ _ _ _ = _ =>
      apply split_named_inv in Hs as (? & ? & ? & ? & ? & ? & ? & ? & ? & ->)
  | Notebook.print_accuracy _ _ _ = _ =>
      apply print_accuracy_inv in Hs as (? & ? & ? & ? & ? & ? & ? & ? & ->)
  | Notebook.to_csv_named _ _ _ = _ =>
      apply to_csv_named_inv in Hs as (? & ? & ->)
  end.

(** Go through the statements of given cells, settling each with [tac]. *)
Ltac each_statement tac :=
  unfold_cells;
  repeat (cbv beta; cbn [snd];
          lazymatch goal with
          | |- Forall _ (_ ++ _) => apply Forall_app_2
          | |- Forall _ [] => apply Forall_nil_2
          | |- Forall _ (_ :: _) => apply Forall_cons_2
          | |- Spec.preserved _ _ => tac
          end).

Section Runs.
Import Pandas Sklearn Notebook Spec Examples Inputs Facts.

Lemma to_csv_keeps_other_files x path p v :
  path ≠ p → preserved (λ k, files k !! p = v) (to_csv_named x path).
Proof.
  intros Hne k k' HI (d & _ & ->)%to_csv_named_inv. simpl. by rewrite lookup_insert_ne.
Qed.

(** The notebook writes one file, [spy_planes]: after a run from a fresh
    kernel every other path holds what it held before, the two input
    files included, and a path that did not exist does not exist. *)
Theorem only_the_output_file_is_written (B : Backend) (fs : gmap string csv)
    (p : string) :
  p ≠ "spy_planes" → files (run (notebook B) (fresh fs)) !! p = fs !! p.
Proof.
  intros Hp. apply (run_preserved (λ k, files k !! p = fs !! p)); [by intros n e k| |done].
  each_statement ltac:(first [ by apply to_csv_keeps_other_files | unchanged ]).
Qed.

Lemma only_the_output_file_is_written_witness :
  files (run (notebook backend) (fresh disk)) !! "data/train.csv"
  = disk !! "data/train.csv".
Proof. apply (only_the_output_file_is_written backend disk "data/train.csv"). done. Defined.

(** *** Never more than 200 records *)

Lemma at_most_200_bind x o k :
  (∀ d, x = "df" → o = DF d → length (rows d) ≤ 200) →
  at_most_200 k → at_most_200 (bind_name x o k).
Proof.
  intros Ho [Hdf Hf]. split; [|done]. intros d. simpl.
  destruct (decide (x = "df")) as [->|Hne].
  - rewrite lookup_insert_eq. intros [= ->]. by apply Ho.
  - rewrite lookup_insert_ne by done. apply Hdf.
Qed.

Lemma length_read_csv f : length (rows (read_csv f)) = length (records f).
Proof. unfold read_csv. simpl. apply length_imap. Qed.

Lemma length_to_csv d : length (records (to_csv d)) = length (rows d).
Proof. unfold to_csv. simpl. apply length_fmap. Qed.

Lemma length_setitem d c s : length (rows (setitem d c s)) ≤ length (rows d).
Proof. unfold setitem, set_column. simpl. rewrite length_zip_with. lia. Qed.

(** Whatever the input files hold and whichever cells raise, a run from a
    fresh kernel leaves at most 200 rows in [df] and at most 200 records
    in [spy_planes], provided a file of that name left by an earlier run
    was not longer. *)
Theorem never_more_than_200_records (B : Backend) (fs : gmap string csv) :
  (∀ f, fs !! "spy_planes" = Some f → length (records f) ≤ 200) →
  (∀ d, globals (run (notebook B) (fresh fs)) !! "df" = Some (DF d) →
        length (rows d) ≤ 200)
  ∧ (∀ f, files (run (notebook B) (fresh fs)) !! "spy_planes" = Some f →
          length (records f) ≤ 200).
Proof.
  intros Hold.
  apply (run_preserved at_most_200); [by intros n e k| |by split].
  each_statement ltac:(
    let HI := fresh "HI" in let Hs := fresh "Hs" in
    intros ? ? HI Hs; stmt_inv Hs;
    first
      [ by (repeat (apply at_most_200_bind; [by intros ? [=]|]))
      | idtac ]).
  - (* cell 19 *)
    apply at_most_200_bind; [|done]. intros d _ [= <-].
    etrans; [apply length_setitem|]. apply HI. by apply frame_inv.
  - (* cell 93 *)
    apply at_most_200_bind; [|done]. intros d _ ->. inv_result H. subst d.
    simpl. rewrite length_take. lia.
  - (* cell 94 *)
    destruct HI as [Hdf Hf]. split; [done|]. intros f. simpl.
    rewrite lookup_insert_eq. intros [= <-]. rewrite length_to_csv.
    apply Hdf. by apply frame_inv.
  - (* cell 95 *)
    apply at_most_200_bind; [|done]. intros d _ ->.
    unfold pd_read_csv in H. destruct (files _ !! _) as [f|] eqn:Ef; [|done].
    injection H as <-. rewrite length_read_csv. by apply HI.
Qed.

Lemma never_more_than_200_records_witness :
  (∀ d, globals (run (notebook backend) (fresh disk_ties)) !! "df" = Some (DF d) →
        length (rows d) ≤ 200)
  ∧ (∀ f, files (run (notebook backend) (fresh disk_ties)) !! "spy_planes" = Some f →
          length (records f) ≤ 200).
Proof.
  apply (never_more_than_200_records backend disk_ties).
  intros f Hf. vm_compute in Hf. discriminate Hf.
Defined.

(** *** What is printed *)

Lemma accuracy_in_range tv pv a :
  accuracy_score tv pv = Ok a → accuracy a.
Proof.
  unfold accuracy_score. case_bool_decide as Hlen; [|done].
  destruct (length tv) as [|n] eqn:En; intros [= <-]; [by left|]. right.
  eexists. split; [done|].
  assert (Hc : correct tv pv ≤ S n).
  { unfold correct. etrans; [apply filter_length_le|]. rewrite length_zip. lia. }
  unfold Qle. simpl. lia.
Qed.

(** The notebook prints once at most, in cell 70, and what it prints is
    an accuracy: a number between 0 and 1 (or not a number, for an empty
    test partition). *)
Theorem one_accuracy_is_printed (B : Backend) (fs : gmap string csv) :
  length (stdout (run (notebook B) (fresh fs))) ≤ 1
  ∧ ∀ v, v ∈ stdout (run (notebook B) (fresh fs)) → accuracy v.
Proof.
  assert (Hnb : notebook B
                = upto 66 (notebook B) ++ [(70, cell_70 B)] ++ scoring B) by done.
  assert (H66 : stdout (run (upto 66 (notebook B)) (fresh fs)) = []).
  { apply (run_preserved (λ k, stdout k = [])); [by intros n e k| |done].
    change (upto 66 (notebook B))
      with (loading ++ encoding ++ training_set ++ splitting B ++ logistic B
              ++ decision_tree B ++ [(64, cell_64); (66, cell_66 B)]).
    each_statement unchanged. }
  set (P := λ l : list value, length l ≤ 1 ∧ ∀ v, v ∈ l → accuracy v).
  change (P (stdout (run (notebook B) (fresh fs)))).
  rewrite Hnb, !run_app, run_singleton.
  apply (run_preserved (λ k, P (stdout k))); [by intros n e k|each_statement unchanged|].
  unfold cell_70. set (k := run (upto 66 (notebook B)) (fresh fs)) in *.
  clearbody k. unfold P, exec.
  destruct (assign "y_pred" _ k) as [k1|e] eqn:E1.
  2:{ unfold log_raise. cbn [stdout]. rewrite H66. split; [simpl; lia|].
      by intros v ?%elem_of_nil. }
  stmt_inv E1. destruct (print_accuracy _ _ _) as [k2|e] eqn:E2.
  2:{ unfold log_raise, bind_name. cbn [stdout]. rewrite H66. split; [simpl; lia|].
      by intros v ?%elem_of_nil. }
  stmt_inv E2. unfold print, bind_name. cbn [stdout]. rewrite H66.
  split; [simpl; lia|].
  intros v ->%list_elem_of_singleton. by eapply accuracy_in_range.
Qed.

End Runs.

(** ** The data path of a run *)

Section Pipeline.
Import Pandas Sklearn Notebook Spec Examples Inputs Facts.

Lemma labels_of_read_csv f : labels_of (read_csv f) = seq 0 (length (records f)).
Proof.
  unfold labels_of, read_csv. cbn [rows].
  apply (imap_fmap_idx (λ rec, zip (header f) (rec ++ _)) (records f) 0).
Qed.

Lemma labels_of_merge_left l r on d :
  merge_left l r on = Ok d → labels_of d = seq 0 (length (rows d)).
Proof.
  unfold merge_left. destruct (_ && _); [|done]. intros [= <-].
  unfold labels_of. cbn [rows]. rewrite length_imap.
  apply (imap_fmap_idx (λ cs, cs) _ 0).
Qed.

Lemma labels_of_setitem d c s : labels_of (setitem d c s) `sublist_of` labels_of d.
Proof.
  unfold setitem, set_column, labels_of. cbn [rows].
  generalize (if bool_decide (index s = idx <$> rows d) then values s
              else (λ r, loc (idx r) (index s) (values s)) <$> rows d).
  intros vs. revert vs. induction (rows d) as [|r rs IH]; intros [|v vs]; csimpl;
    try constructor; [apply sublist_nil_l|apply IH].
Qed.

Lemma labels_of_dropna d : labels_of (dropna d) `sublist_of` labels_of d.
Proof.
  unfold labels_of, dropna. cbn [rows]. apply fmap_sublist, sublist_List_filter.
Qed.

Lemma labels_of_drop d cs d' : drop d cs = Ok d' → labels_of d' = labels_of d.
Proof.
  intros [_ ->]%drop_inv. unfold labels_of. cbn [rows].
  rewrite <- list_fmap_compose. by apply list_fmap_ext.
Qed.

Lemma before_X_bind x o k :
  x ≠ "X" → x ≠ "y" →
  (∀ d, x = "adshex" ∨ x = "train_df" → o = DF d → NoDup (labels_of d)) →
  before_X k → before_X (bind_name x o k).
Proof.
  intros HX Hy Ho (HnX & Hny & Ha & Ht). unfold before_X, distinct_labels. simpl.
  rewrite !lookup_insert_ne by done. split; [done|]. split; [done|].
  split; intros d;
    lazymatch goal with
    | |- <[_:=_]> _ !! ?n = _ → _ =>
        destruct (decide (x = n)) as [->|Hne];
        [rewrite lookup_insert_eq; intros [= ->]; apply Ho; auto
        |rewrite lookup_insert_ne by done; auto]
    end.
Qed.

Lemma before_cell_34 B fs : before_X (run (upto 32 (notebook B)) (fresh fs)).
Proof.
  change (upto 32 (notebook B))
    with (loading ++ encoding ++ [(26, cell_26); (28, cell_28); (32, cell_32)]).
  apply (run_preserved before_X); [by intros n e k| |by repeat split].
  each_statement ltac:(
    let HI := fresh "HI" in let Hs := fresh "Hs" in
    intros ? ? HI Hs; stmt_inv Hs; apply before_X_bind; [done|done| |exact HI]).
  - by intros d [[=]|[=]].
  - by intros d [[=]|[=]].
  - intros d _ ->. inv_result H. subst d.
    rewrite (labels_of_merge_left _ _ _ _ E1). apply NoDup_seq.
  - intros d _ [= <-]. destruct HI as (_ & _ & Ha & _).
    eapply sublist_NoDup; [|apply labels_of_setitem]. apply Ha. by apply frame_inv.
  - by intros d [[=]|[=]].
  - intros d _ [= <-]. destruct HI as (_ & _ & Ha & _).
    eapply sublist_NoDup; [|apply labels_of_setitem]. apply Ha. by apply frame_inv.
  - intros d _ ->. inv_result H. subst d. destruct HI as (_ & _ & Ha & _).
    eapply sublist_NoDup; [|apply labels_of_dropna]. apply Ha. by apply frame_inv.
  - intros d _ ->. inv_result H. subst d. destruct HI as (_ & _ & _ & Ht).
    rewrite (labels_of_drop _ _ _ E0). apply Ht. by apply frame_inv.
  - intros d _ ->. inv_result H. subst d. destruct HI as (_ & _ & _ & Ht).
    rewrite (labels_of_drop _ _ _ E0). apply Ht. by apply frame_inv.
Qed.

(** In every run from a fresh kernel, the feature frame [X] and the
    target [y] that cell 34 binds are cut from the same table: [y] is its
    [label] column and carries the index labels of [X], one entry per
    row; the labels are distinct, with the gaps the dropped rows left;
    and [label] is not a column of [X]. *)
Theorem training_frame_and_target_are_aligned (B : Backend) (fs : gmap string csv)
    (X : DataFrame) (y : Series) :
  globals (run (upto 34 (notebook B)) (fresh fs)) !! "X" = Some (DF X) →
  globals (run (upto 34 (notebook B)) (fresh fs)) !! "y" = Some (Ser y) →
  index y = labels_of X
  ∧ length (values y) = length (rows X)
  ∧ NoDup (labels_of X)
  ∧ ("label" ∉ columns X)
  ∧ sname y = "label".
Proof.
  change (upto 34 (notebook B)) with (upto 32 (notebook B) ++ [(34, cell_34)]).
  rewrite run_app, run_singleton.
  pose proof (before_cell_34 B fs) as (HnX & Hny & _ & Ht).
  set (k := run (upto 32 (notebook B)) (fresh fs)) in *. clearbody k.
  unfold cell_34, exec.
  destruct (assign "X" _ k) as [k1|e] eqn:E1.
  2:{ unfold log_raise. cbn [globals]. by rewrite HnX. }
  stmt_inv E1. inv_result H. subst x.
  destruct (assign "y" _ _) as [k2|e] eqn:E2.
  2:{ unfold log_raise, bind_name. cbn [globals].
      rewrite (lookup_insert_ne _ "X" "y") by done. by rewrite Hny. }
  stmt_inv E2. inv_result H. subst x. unfold bind_name. cbn [globals].
  rewrite lookup_insert_ne by done. rewrite !lookup_insert_eq.
  intros [= <-] [= <-].
  apply frame_inv in E, E1. rewrite globals_bind_name, lookup_insert_ne in E1 by done.
  rewrite E in E1. injection E1 as <-.
  unfold getattr in E2. case_bool_decide; [|done]. injection E2 as <-. simpl.
  pose proof (labels_of_drop _ _ _ E0) as Hl.
  apply drop_inv in E0 as [_ Hd]. split; [done|].
  split. { unfold column_values. rewrite length_fmap. rewrite <- !(length_fmap idx).
           fold (labels_of a) (labels_of a0). by rewrite Hl. }
  split. { rewrite Hl. by apply Ht. }
  split; [|done].
  rewrite Hd. cbn [columns]. intros [Hin _]%list_elem_of_filter. apply Hin. by left.
Qed.

Lemma training_frame_and_target_are_aligned_witness :
  index y_all = labels_of X_all
  ∧ length (values y_all) = length (rows X_all)
  ∧ NoDup (labels_of X_all)
  ∧ ("label" ∉ columns X_all)
  ∧ sname y_all = "label".
Proof.
  apply (training_frame_and_target_are_aligned backend disk X_all y_all).
  - vm_compute; reflexivity.
  - vm_compute; reflexivity.
Defined.

End Pipeline.

(** ** A run without its input *)

Section Starved.
Import Pandas Sklearn Notebook Spec Examples Inputs Facts.

Lemma frame_unbound k x : globals k !! x = None → frame k x = Raise (NameError x).
Proof. intros H. unfold frame, name. by rewrite H. Qed.

Lemma starved_frame fs k x :
  starved fs k → x ∈ derived → frame k x = Raise (NameError x).
Proof.
  intros (_ & Hu & _) Hx. apply frame_unbound.
  unfold unbound in Hu. rewrite Forall_forall in Hu. by apply Hu.
Qed.

Lemma starved_bind fs x o k :
  x ∉ derived → x ≠ "features" → x ≠ "labels" →
  starved fs k → starved fs (bind_name x o k).
Proof.
  intros Hx Hf Hl (Hfs & Hu & Hfe & Hla). unfold starved, unbound. simpl.
  rewrite !lookup_insert_ne by done. split; [done|]. split; [|done].
  unfold unbound in Hu. rewrite Forall_forall in Hu |- *. intros y Hy.
  rewrite lookup_insert_ne; [by apply Hu|]. by intros ->.
Qed.

Lemma starved_read_csv fs x path k f :
  x ∉ derived → files k !! path = Some f →
  (x = "features" ∧ path = "data/planes_features.csv"
   ∨ x = "labels" ∧ path = "data/train.csv") →
  starved fs k → starved fs (bind_name x (DF (read_csv f)) k).
Proof.
  intros Hx Hf Hxp (Hfs & Hu & Hfe & Hla). unfold starved, unbound. simpl.
  split; [done|]. split.
  { unfold unbound in Hu. rewrite Forall_forall in Hu |- *. intros y Hy.
    rewrite lookup_insert_ne; [by apply Hu|]. by intros ->. }
  rewrite Hfs in Hf.
  destruct Hxp as [[-> ->]|[-> ->]]; rewrite ?lookup_insert_eq, ?lookup_insert_ne by done;
    (split; [|]); try done; intros Hnone; by rewrite Hnone in Hf.
Qed.

(** Settle a statement from a starved kernel: it asks for a frame that is
    not bound, or it binds a name off the data path. *)
Ltac starved_step :=
  let HI := fresh "HI" in
  let Hs := fresh "Hs" in
  intros ? ? HI Hs; stmt_inv Hs; cbv beta in *;
  first
    [ exfalso;
      match goal with
      | H : context [frame ?k ?x] |- _ =>
          rewrite (starved_frame _ k x HI) in H by (by apply (bool_decide_unpack _));
          discriminate H
      end
    | by (repeat (apply starved_bind; [by apply (bool_decide_unpack _)|done|done|]))
    | exact HI
    | idtac ].

(** When one of the two input files is missing, the run goes on to the
    last cell and gets nowhere: [read_csv] raises, the merge of cell 8
    raises on the unbound name, and no frame of the data path is ever
    bound.  No file is written or changed. *)
Theorem a_missing_input_file_starves_the_run (B : Backend) (fs : gmap string csv) :
  fs !! "data/planes_features.csv" = None ∨ fs !! "data/train.csv" = None →
  files (run (notebook B) (fresh fs)) = fs
  ∧ unbound ["adshex"; "train_df"; "X"; "new_df"] (run (notebook B) (fresh fs)).
Proof.
  intros Hmiss.
  change (notebook B) with (upto 94 (notebook B) ++ [(95, cell_95)]).
  rewrite run_app, run_singleton.
  assert (H94 : starved fs (run (upto 94 (notebook B)) (fresh fs))).
  { apply (run_preserved (starved fs)); [by intros n e k| |].
    2:{ split; [done|]. split; [by repeat constructor|]. by split. }
    change (upto 94 (notebook B))
      with (loading ++ encoding ++ training_set ++ splitting B ++ logistic B
              ++ decision_tree B ++ random_forest B
              ++ [(74, cell_74); (76, cell_76); (81, cell_81); (83, cell_83 B);
                  (89, cell_89); (90, cell_90 B); (93, cell_93 B); (94, cell_94)]).
    each_statement starved_step.
    - unfold pd_read_csv in H. destruct (files _ !! _) as [f|] eqn:Ef; [|done].
      injection H as <-. eapply starved_read_csv; eauto.
      by apply (bool_decide_unpack _).
    - unfold pd_read_csv in H. destruct (files _ !! _) as [f|] eqn:Ef; [|done].
      injection H as <-. eapply starved_read_csv; eauto.
      by apply (bool_decide_unpack _).
    - exfalso. destruct HI as (_ & _ & Hfe & Hla). inv_result H.
      apply frame_inv in E, E0. destruct Hmiss as [Hm|Hm].
      + rewrite (Hfe Hm) in E. done.
      + rewrite (Hla Hm) in E0. done. }
  set (k := run (upto 94 (notebook B)) (fresh fs)) in *. clearbody k.
  destruct H94 as (Hfs & Hu & _).
  unfold cell_95. rewrite exec_assign.
  assert (Hu' : unbound ["adshex"; "train_df"; "X"; "new_df"] k).
  { unfold unbound, derived in *. rewrite Forall_forall in Hu |- *.
    intros x Hx. apply Hu. apply list_elem_of_In in Hx. apply list_elem_of_In.
    simpl in *. tauto. }
  destruct (pd_read_csv _ k) as [o|e]; [|done].
  split; [done|]. unfold unbound in *. rewrite Forall_forall in Hu' |- *.
  intros x Hx. simpl. rewrite lookup_insert_ne; [by apply Hu'|].
  intros <-. revert Hx. by apply (bool_decide_unpack _).
Qed.

Lemma a_missing_input_file_starves_the_run_witness :
  files (run (notebook backend) (fresh disk_unlabelled)) = disk_unlabelled
  ∧ unbound ["adshex"; "train_df"; "X"; "new_df"]
      (run (notebook backend) (fresh disk_unlabelled)).
Proof.
  apply (a_missing_input_file_starves_the_run backend disk_unlabelled).
  right. vm_compute; reflexivity.
Defined.

End Starved.

(** ** Evaluation *)

Section Evaluation.
Import Pandas Sklearn Notebook Spec Examples Inputs Facts.

Lemma count_pairs_cons a b p ps :
  count_pairs a b (p :: ps)
  = (if Qeq_bool p.1 a && Qeq_bool p.2 b then 1 else 0) + count_pairs a b ps.
Proof. unfold count_pairs. simpl. by destruct (_ && _). Qed.

Lemma diagonal_table ls ps :
  diagonal (table ls ls ps) = (λ a, count_pairs a a ps) <$> ls.
Proof.
  unfold diagonal, table. apply list_eq. intros i.
  rewrite list_lookup_imap, !list_lookup_fmap.
  destruct (ls !! i) as [a|] eqn:Ea; [|done]. simpl.
  by rewrite list_lookup_fmap, Ea.
Qed.

Lemma sum_diagonal_cons ls p ps :
  sum_list ((λ a, count_pairs a a (p :: ps)) <$> ls)
  = (if Qeq_bool p.1 p.2 then hits p.1 ls else 0)
    + sum_list ((λ a, count_pairs a a ps) <$> ls).
Proof.
  induction ls as [|a ls IH]; csimpl; [by destruct (Qeq_bool _ _)|].
  rewrite IH, count_pairs_cons, hits_cons.
  destruct (Qeq_bool p.1 p.2) eqn:E12, (Qeq_bool p.1 a) eqn:E1, (Qeq_bool p.2 a) eqn:E2;
    simpl; try lia; exfalso;
    repeat match goal with
    | H : Qeq_bool _ _ = true |- _ => apply Qeq_bool_iff in H
    | H : Qeq_bool _ _ = false |- _ => apply Qeq_bool_neq in H
    end;
    first [ apply E2; by rewrite <- E12 | apply E1; by rewrite E12
          | apply E12; by rewrite E1, E2 ].
Qed.

Lemma sum_diagonal ls ps :
  (∀ p, In p ps → hits p.1 ls = 1) →
  sum_list ((λ a, count_pairs a a ps) <$> ls)
  = length (List.filter (λ p, Qeq_bool p.1 p.2) ps).
Proof.
  induction ps as [|p ps IH]; intros H.
  - simpl. clear H. induction ls as [|a ls IH]; [done|]. csimpl. by rewrite IH.
  - rewrite sum_diagonal_cons, IH by (intros q Hq; apply H; by right).
    simpl. rewrite (H p) by by left. by destruct (Qeq_bool p.1 p.2).
Qed.

(** The diagonal of the confusion matrix counts the correct predictions:
    its sum is the numerator of [accuracy_score] on the same vectors, so
    the accuracy is the trace of the matrix over the sum of its cells. *)
Theorem diagonal_counts_the_correct_predictions (y_true y_pred : list Q)
    (m : list (list nat)) :
  confusion_matrix y_true y_pred = Ok m →
  sum_list (diagonal m) = correct y_true y_pred
  ∧ (y_true ≠ [] →
     accuracy_score y_true y_pred
     = Ok (Num (Z.of_nat (sum_list (diagonal m)) # Pos.of_nat (sum_cells m)))).
Proof.
  intros Hm. pose proof (confusion_matrix_sum _ _ _ Hm) as (Hsum & _ & _).
  unfold confusion_matrix in Hm. case_bool_decide as Hlen; [|done].
  injection Hm as <-.
  fold (table (unique_labels (y_true ++ y_pred)) (unique_labels (y_true ++ y_pred))
              (zip y_true y_pred)) in *.
  assert (Hd : sum_list (diagonal (table (unique_labels (y_true ++ y_pred))
                                         (unique_labels (y_true ++ y_pred))
                                         (zip y_true y_pred)))
               = correct y_true y_pred).
  { rewrite diagonal_table, sum_diagonal; [done|].
    intros [t p] Hin. apply list_elem_of_In in Hin.
    apply hits_unique_labels, in_or_app. left.
    apply list_elem_of_In. by eapply elem_of_zip_l. }
  split; [done|]. intros Hne. rewrite Hd, Hsum.
  unfold accuracy_score. rewrite bool_decide_eq_true_2 by done.
  by destruct y_true.
Qed.

Lemma diagonal_counts_the_correct_predictions_witness :
  sum_list (diagonal [[1; 1]; [0; 2]]) = correct [0; 0; 1; 1]%Q [0; 1; 1; 1]%Q
  ∧ ([0; 0; 1; 1]%Q ≠ [] →
     accuracy_score [0; 0; 1; 1]%Q [0; 1; 1; 1]%Q
     = Ok (Num (Z.of_nat (sum_list (diagonal [[1; 1]; [0; 2]]))
                # Pos.of_nat (sum_cells [[1; 1]; [0; 2]])))).
Proof.
  apply (diagonal_counts_the_correct_predictions [0; 0; 1; 1]%Q [0; 1; 1; 1]%Q).
  vm_compute; reflexivity.
Defined.

End Evaluation.

(** ** Fitting *)

Section Fitting.
Import Pandas Sklearn Notebook Spec Examples Inputs Facts.

Lemma fit_cell_ok n e c0 Xn yn k X y c :
  e ≠ Xn → e ≠ yn →
  globals k !! Xn = Some (DF X) → globals k !! yn = Some (Ser y) →
  fit c0 X y = Ok c →
  exec n [assign e (λ _, Ok (Est c0)); fit_named e Xn yn] k
  = bind_name e (Est c) (bind_name e (Est c0) k).
Proof.
  intros HeX Hey HX Hy Hfit.
  erewrite exec_cons_ok; [|reflexivity].
  erewrite exec_cons_ok; [reflexivity|].
  unfold fit_named.
  rewrite estimator_Some with (c := c0) by apply lookup_insert_eq.
  rewrite frame_Some with (d := X) by (simpl; by rewrite lookup_insert_ne).
  rewrite series_Some with (s := y) by (simpl; by rewrite lookup_insert_ne).
  simpl. by rewrite Hfit.
Qed.




Lemma bind_Ok {A C} (a : A) (g : A → result C) : Ok a ≫= g = g a.
Proof. reflexivity. Qed.

Lemma mapM_omap_lookup {A C} (f : A → result C) (l : list A) (l' : list C) ps :
  mapM f l = Ok l' →
  mapM f (omap (λ i, l !! i) ps) = Ok (omap (λ i, l' !! i) ps).
Proof.
  intros Hl. induction ps as [|i ps IH]; [done|]. csimpl.
  destruct (l !! i) as [a|] eqn:Ea.
  - destruct (mapM_result_lookup f l l' i a Hl Ea) as (b & Hb & Hfa).
    rewrite Hb. csimpl.
    change (mapM f (a :: omap (λ i, l !! i) ps))
      with (f a ≫= λ y, mapM f (omap (λ i, l !! i) ps) ≫= λ k, mret (y :: k)).
    rewrite Hfa, bind_Ok. cbv beta.
    change (mapM f (omap (λ i, l !! i) ps) ≫= (λ k : list C, mret (b :: k))
            = Ok (b :: omap (λ i, l' !! i) ps)).
    by rewrite IH.
  - assert (Hnone : l' !! i = None).
    { apply lookup_ge_None. apply lookup_ge_None in Ea.
      by rewrite (mapM_result_length _ _ _ Hl). }
    by rewrite Hnone.
Qed.

Lemma to_matrix_iloc d m ps :
  to_matrix d = Ok m → to_matrix (iloc d ps) = Ok (omap (λ i, m !! i) ps).
Proof. apply mapM_omap_lookup. Qed.

(** The logistic regression is scored on rows it was fitted on: cell 44
    fits it on all of [X], and every row of the test partition of cell
    38, on which cell 49 evaluates it, is a row of the matrix it has
    seen.  The test partition is not empty. *)
Theorem logistic_regression_has_seen_the_test_rows (B : Backend) (k : kernel)
    (X : DataFrame) (y : Series) (c : classifier) (t : training) :
  globals k !! "X" = Some (DF X) → globals k !! "y" = Some (Ser y) →
  2 ≤ length (rows X) → permutation_spec (permutation B) →
  fit (mkClassifier (LogisticRegression 1000000000 4000) None) X y = Ok c →
  fitted c = Some t →
  ∃ X_test m,
    globals (exec 44 cell_44 (exec 38 (cell_38 B) k)) !! "X_test" = Some (DF X_test)
    ∧ globals (exec 44 cell_44 (exec 38 (cell_38 B) k)) !! "clf" = Some (Est c)
    ∧ to_matrix X_test = Ok m
    ∧ m ≠ []
    ∧ ∀ x, x ∈ m → x ∈ X_fit t.
Proof.
  intros HX Hy Hn Hperm Hfit Hfitted.
  assert (Hm : to_matrix X = Ok (X_fit t) ∧ length (values y) = length (rows X)).
  { unfold fit in Hfit. destruct (to_matrix X) as [m|] eqn:Em; simpl in Hfit; [|done].
    destruct (to_vector y) as [v|] eqn:Ev; simpl in Hfit; [|done].
    case_bool_decide as Hl; [|done]. destruct m as [|x0 m0]; [done|].
    injection Hfit as <-. simpl in Hfitted. injection Hfitted as <-. simpl.
    split; [done|]. apply to_matrix_length in Em. apply to_vector_length in Ev.
    simpl in *. lia. }
  destruct Hm as [Hm Hlen].
  pose proof (train_test_split_quarter B X y Hlen Hn) as Hsplit.
  pose proof (ceil_quarter_bounds (length (rows X))) as Hb.
  simpl in Hsplit, Hb.
  set (n := length (rows X)) in *.
  set (n_test := Z.to_nat (Qceiling ((1 # 4) * inject_Z (Z.of_nat n)))) in *.
  set (p := permutation B n) in *.
  assert (Hex : ∃ Xtr ytr yte,
            exec 38 (cell_38 B) k
            = bind_name "y_test" (Ser yte)
                (bind_name "y_train" (Ser ytr)
                  (bind_name "X_test" (DF (iloc X (take n_test p)))
                    (bind_name "X_train" (DF Xtr) k)))).
  { eexists _, _, _. unfold cell_38. erewrite exec_cons_ok; [reflexivity|].
    unfold split_named. rewrite (frame_Some _ _ _ HX), (series_Some _ _ _ Hy). simpl.
    by rewrite Hsplit. }
  destruct Hex as (Xtr & ytr & yte & Hex). rewrite Hex.
  set (k38 := bind_name "y_test" _ _).
  assert (HX38 : globals k38 !! "X" = Some (DF X)).
  { unfold k38, bind_name. cbn [globals]. by rewrite !lookup_insert_ne. }
  assert (Hy38 : globals k38 !! "y" = Some (Ser y)).
  { unfold k38, bind_name. cbn [globals]. by rewrite !lookup_insert_ne. }
  unfold cell_44.
  rewrite (fit_cell_ok 44 "clf" _ "X" "y" k38 X y c) by done.
  exists (iloc X (take n_test p)), (omap (λ i, X_fit t !! i) (take n_test p)).
  unfold k38, bind_name. cbn [globals].
  split; [by rewrite !lookup_insert_ne by done; apply lookup_insert_eq|].
  split; [apply lookup_insert_eq|].
  split; [by apply to_matrix_iloc|].
  split.
  - intros Hnil. apply (f_equal length) in Hnil. rewrite length_omap_lookup in Hnil.
    + rewrite length_take in Hnil. unfold p in Hnil.
      pose proof (Permutation_length (Hperm n)) as Hlp. rewrite length_seq in Hlp.
      simpl in Hnil. lia.
    + apply Forall_take. rewrite (to_matrix_length _ _ Hm).
      apply permutation_in_range, Hperm.
  - intros x (i & _ & Hi)%list_elem_of_omap. by eapply list_elem_of_lookup_2.
Qed.

Lemma logistic_regression_has_seen_the_test_rows_witness :
  ∃ X_test m,
    globals (exec 44 cell_44 (exec 38 (cell_38 backend) (after 34))) !! "X_test"
    = Some (DF X_test)
    ∧ globals (exec 44 cell_44 (exec 38 (cell_38 backend) (after 34))) !! "clf"
      = Some (Est logistic_on_all)
    ∧ to_matrix X_test = Ok m
    ∧ m ≠ []
    ∧ ∀ x, x ∈ m → x ∈ X_fit (training_of logistic_on_all).
Proof.
  apply (logistic_regression_has_seen_the_test_rows backend (after 34) X_all y_all
           logistic_on_all (training_of logistic_on_all)).
  - vm_compute; reflexivity.
  - vm_compute; reflexivity.
  - vm_compute; lia.
  - intros n. simpl. apply reverse_Permutation.
  - vm_compute; reflexivity.
  - reflexivity.
Defined.

Lemma fit_remembers c0 X y c t :
  fit c0 X y = Ok c → fitted c = Some t →
  params c = params c0 ∧ to_matrix X = Ok (X_fit t) ∧ to_vector y = Ok (y_fit t)
  ∧ feature_names_in t = columns X ∧ length (X_fit t) = length (rows X).
Proof.
  intros Hfit Hfitted. unfold fit in Hfit.
  destruct (to_matrix X) as [m|] eqn:Em; simpl in Hfit; [|done].
  destruct (to_vector y) as [v|] eqn:Ev; simpl in Hfit; [|done].
  case_bool_decide as Hl; [|done]. destruct m as [|x0 m0] eqn:Emx; [done|].
  injection Hfit as <-. simpl in Hfitted. injection Hfitted as <-. simpl.
  rewrite <- Emx in *. split; [done|]. split; [done|]. split; [done|]. split; [done|].
  rewrite <- (to_matrix_length _ _ Em). by rewrite Emx.
Qed.

(** The decision tree of cell 53 and the random forest of cell 64 are
    fitted on the train partition: each remembers the matrix of [X_train]
    and the vector of [y_train], as many rows as [X_train] has, under the
    hyper-parameters the cell wrote; and fitting the forest, bound to
    [model], leaves [clf] alone. *)
Theorem tree_and_forest_are_fitted_on_the_train_partition (k : kernel)
    (X_train : DataFrame) (y_train : Series) (c m : classifier) (tc tm : training) :
  globals k !! "X_train" = Some (DF X_train) →
  globals k !! "y_train" = Some (Ser y_train) →
  fit (mkClassifier (DecisionTreeClassifier 5) None) X_train y_train = Ok c →
  fit (mkClassifier (RandomForestClassifier 100 5) None) X_train y_train = Ok m →
  fitted c = Some tc → fitted m = Some tm →
  globals (exec 53 cell_53 k) !! "clf" = Some (Est c)
  ∧ globals (exec 64 cell_64 k) !! "model" = Some (Est m)
  ∧ globals (exec 64 cell_64 k) !! "clf" = globals k !! "clf"
  ∧ params c = DecisionTreeClassifier 5 ∧ params m = RandomForestClassifier 100 5
  ∧ to_matrix X_train = Ok (X_fit tc) ∧ X_fit tm = X_fit tc
  ∧ to_vector y_train = Ok (y_fit tc) ∧ y_fit tm = y_fit tc
  ∧ length (X_fit tc) = length (rows X_train).
Proof.
  intros HX Hy Hc Hm Htc Htm.
  destruct (fit_remembers _ _ _ _ _ Hc Htc) as (Hpc & HXc & Hyc & _ & Hlen).
  destruct (fit_remembers _ _ _ _ _ Hm Htm) as (Hpm & HXm & Hym & _ & _).
  unfold cell_53, cell_64.
  rewrite (fit_cell_ok 53 "clf" _ "X_train" "y_train" k X_train y_train c) by done.
  rewrite (fit_cell_ok 64 "model" _ "X_train" "y_train" k X_train y_train m) by done.
  unfold bind_name. cbn [globals].
  split; [apply lookup_insert_eq|]. split; [apply lookup_insert_eq|].
  split; [by rewrite !lookup_insert_ne|].
  split; [done|]. split; [done|]. split; [done|].
  split; [congruence|]. split; [done|]. split; [congruence|done].
Qed.

Lemma tree_and_forest_are_fitted_on_the_train_partition_witness :
  globals (exec 53 cell_53 (after 49)) !! "clf" = Some (Est tree_on_part)
  ∧ globals (exec 64 cell_64 (after 49)) !! "model" = Some (Est forest_on_part)
  ∧ globals (exec 64 cell_64 (after 49)) !! "clf" = globals (after 49) !! "clf"
  ∧ params tree_on_part = DecisionTreeClassifier 5
  ∧ params forest_on_part = RandomForestClassifier 100 5
  ∧ to_matrix X_train_part = Ok (X_fit (training_of tree_on_part))
  ∧ X_fit (training_of forest_on_part) = X_fit (training_of tree_on_part)
  ∧ to_vector (series_of (after 49) "y_train") = Ok (y_fit (training_of tree_on_part))
  ∧ y_fit (training_of forest_on_part) = y_fit (training_of tree_on_part)
  ∧ length (X_fit (training_of tree_on_part)) = length (rows X_train_part).
Proof.
  apply (tree_and_forest_are_fitted_on_the_train_partition (after 49) X_train_part
           (series_of (after 49) "y_train") tree_on_part forest_on_part
           (training_of tree_on_part) (training_of forest_on_part)).
  - vm_compute; reflexivity.
  - vm_compute; reflexivity.
  - vm_compute; reflexivity.
  - vm_compute; reflexivity.
  - reflexivity.
  - reflexivity.
Defined.

End Fitting.

(** ** The values the notebook shows *)

Section Shown.
Import Pandas Sklearn Notebook Spec Displays Examples Inputs Facts.

Lemma List_filter_fmap {A C} (f : A → C) (p : C → bool) (q : A → bool) (l : list A) :
  (∀ x, In x l → p (f x) = q x) → List.filter p (f <$> l) = f <$> List.filter q l.
Proof.
  induction l as [|a l IH]; intros H; [done|]. csimpl.
  rewrite (H a) by by left. rewrite IH by (intros x Hx; apply H; by right).
  by destruct (q a).
Qed.

Lemma value_eqb_refl v : value_eqb v v = true.
Proof.
  destruct v as [|s|q]; simpl; [done|by apply bool_decide_eq_true|].
  by apply Qeq_bool_iff.
Qed.

Lemma In_unique x vs : In x (unique vs) → In x vs.
Proof.
  revert x. induction vs as [|v vs IH]; intros x; simpl; [done|].
  intros [->|Hx]; [by left|]. right. apply IH. by apply filter_In in Hx as [Hx _].
Qed.

Lemma unique_fmap (f : value → value) vs :
  (∀ a b, In a vs → In b vs → value_eqb (f a) (f b) = value_eqb a b) →
  unique (f <$> vs) = f <$> unique vs.
Proof.
  induction vs as [|v vs IH]; intros H; [done|]. csimpl. f_equal.
  rewrite IH by (intros a b Ha Hb; apply H; by right).
  apply List_filter_fmap. intros x Hx. f_equal. apply H; [by left|].
  right. by apply In_unique.
Qed.

Lemma count_of_fmap (f : value → value) v vs :
  (∀ b, In b vs → value_eqb (f v) (f b) = value_eqb v b) →
  count_of (f v) (f <$> vs) = count_of v vs.
Proof.
  intros H. unfold count_of. rewrite (List_filter_fmap f _ (value_eqb v)) by done.
  apply length_fmap.
Qed.

Lemma encoded_isna v : isna (encoded v) = isna v.
Proof.
  destruct v as [|s|q]; try done. unfold encoded. simpl.
  repeat (case_bool_decide; simpl; try done).
Qed.

Lemma encoded_eqb a b :
  textual a → textual b → value_eqb (encoded a) (encoded b) = value_eqb a b.
Proof.
  destruct a as [|s|p], b as [|t|q]; try done; intros _ _; unfold encoded; simpl.
  - repeat (case_bool_decide; simpl; try done).
  - repeat (case_bool_decide; simpl; try done).
  - repeat (case_bool_decide; subst; simpl; try done).
Qed.

Lemma value_counts_encoded argsort (s s' : Series) asc :
  values s' = encoded <$> values s → Forall textual (values s) →
  value_counts argsort s' asc = prod_map encoded id <$> value_counts argsort s asc.
Proof.
  intros Hv Ht. unfold value_counts. rewrite Hv. clear Hv.
  generalize dependent (values s). intros vs Ht. rewrite Forall_forall in Ht.
  assert (Hin : ∀ x, In x (List.filter (λ v, negb (isna v)) vs) → textual x).
  { intros x [Hx _]%filter_In. by apply Ht, list_elem_of_In. }
  rewrite (List_filter_fmap encoded _ (λ v, negb (isna v)))
    by (intros x _; by rewrite encoded_isna).
  set (present := List.filter _ vs) in *.
  rewrite unique_fmap by (intros a b Ha Hb; apply encoded_eqb; by apply Hin).
  assert (Hc : (λ v, count_of v (encoded <$> present)) <$> (encoded <$> unique present)
               = (λ v, count_of v present) <$> unique present).
  { rewrite <- list_fmap_compose. apply list_fmap_ext. intros i v Hv. simpl.
    apply count_of_fmap. intros b Hb. apply encoded_eqb; apply Hin; [|done].
    apply In_unique, list_elem_of_In. by eapply list_elem_of_lookup_2. }
  rewrite Hc. rewrite list_fmap_omap. apply list_omap_ext, Forall_Forall2_diag, Forall_forall.
  intros i _. rewrite <- (list_fmap_id ((λ v, count_of v present) <$> unique present)) at 1.
  by rewrite <- prod_map_zip, list_lookup_fmap.
Qed.

Lemma column_values_relabelled d :
  column_values (mkDF (columns d) (filter (λ c, c ≠ "label") (categorical d))
                      (relabelled <$> rows d)) "label"
  = encoded <$> column_values d "label".
Proof.
  unfold column_values. cbn [rows]. rewrite <- !list_fmap_compose.
  apply list_fmap_ext. intros i r _. simpl. by rewrite assoc_set_cell.
Qed.

(** The counts of the labels shown before the encoding (cell 12) and
    after it (cell 15) are the same, entry by entry: when the labels are
    text, the second table is the first with each label encoded, the
    counts and their order untouched. *)
Theorem label_counts_survive_the_encoding (B : Backend) (k : kernel)
    (d : DataFrame) (cs : list (value * nat)) :
  globals k !! "adshex" = Some (DF d) → "label" ∈ columns d →
  Forall textual (column_values d "label") →
  cell_12 B k = Ok (Counts cs) →
  cell_15 B (exec 14 cell_14 k) = Ok (Counts (prod_map encoded id <$> cs)).
Proof.
  intros Hd Hl Ht H12. rewrite (cell_14_spec k d Hd Hl).
  unfold cell_15, cell_12, counts_of in *.
  rewrite (frame_Some _ _ _ Hd) in H12.
  rewrite (frame_Some _ "adshex" _ (lookup_insert_eq _ _ _)).
  simpl in *. unfold getattr in *. cbn [columns categorical] in *.
  rewrite bool_decide_eq_true_2 in H12 |- * by done. simpl in *.
  injection H12 as <-. rewrite column_values_relabelled.
  do 2 f_equal. by apply value_counts_encoded.
Qed.

Lemma label_counts_survive_the_encoding_witness :
  cell_15 backend (exec 14 cell_14 (after 8))
  = Ok (Counts (prod_map encoded id <$> [(Str "surveil", 3); (Str "other", 2)])).
Proof.
  apply (label_counts_survive_the_encoding backend (after 8) merged_raw).
  - vm_compute; reflexivity.
  - vm_decide.
  - repeat constructor.
  - vm_compute; reflexivity.
Defined.

(** *** What the counts add up to *)

Lemma occurrences_cons x v us :
  occurrences x (v :: us) = (if value_eqb v x then 1 else 0) + occurrences x us.
Proof. unfold occurrences. simpl. by destruct (value_eqb v x). Qed.

Lemma count_of_cons u x vs :
  count_of u (x :: vs) = (if value_eqb u x then 1 else 0) + count_of u vs.
Proof. unfold count_of. simpl. by destruct (value_eqb u x). Qed.

Lemma filter_unrelated v x us :
  value_eqb v x = false →
  List.filter (λ u, value_eqb u x) (List.filter (λ w, negb (value_eqb v w)) us)
  = List.filter (λ u, value_eqb u x) us.
Proof.
  intros Evx. induction us as [|w ws IHw]; [done|]. simpl.
  destruct (value_eqb v w) eqn:Evw; simpl.
  - destruct (value_eqb w x) eqn:Ewx; [|done].
    by rewrite (value_eqb_trans v w x Evw Ewx) in Evx.
  - destruct (value_eqb w x); by rewrite IHw.
Qed.

Lemma occurrences_unique x vs : In x vs → occurrences x (unique vs) = 1.
Proof.
  induction vs as [|v vs IH]; [done|]. intros Hx. cbn [unique].
  rewrite occurrences_cons. destruct (value_eqb v x) eqn:Evx.
  - unfold occurrences. rewrite List_filter_nil; [done|].
    intros w [Hw Hvw]%list_elem_of_In%filter_In. destruct (value_eqb w x) eqn:Ewx; [|done].
    rewrite (value_eqb_trans v x w Evx) in Hvw; [done|]. by rewrite value_eqb_sym.
  - destruct Hx as [->|Hx]; [by rewrite value_eqb_refl in Evx|].
    rewrite <- (IH Hx). unfold occurrences. simpl. f_equal. by apply filter_unrelated.
Qed.

Lemma sum_counts us vs :
  sum_list ((λ u, count_of u vs) <$> us) = sum_list ((λ x, occurrences x us) <$> vs).
Proof.
  induction vs as [|x vs IH]; csimpl.
  - induction us as [|u us IHu]; [done|]. csimpl. by rewrite IHu.
  - rewrite <- IH. clear IH. induction us as [|u us IHu]; [done|]. csimpl.
    rewrite count_of_cons, occurrences_cons, IHu. lia.
Qed.

Lemma sum_counts_unique vs :
  sum_list ((λ u, count_of u vs) <$> unique vs) = length vs.
Proof.
  rewrite sum_counts. rewrite (sum_list_fmap_same 1); [lia|].
  apply Forall_forall. intros x Hx. by apply occurrences_unique, list_elem_of_In.
Qed.

Lemma omap_lookup_Permutation {A} (l : list A) (ix : list nat) :
  ix ≡ₚ seq 0 (length l) → omap (λ i, l !! i) ix ≡ₚ l.
Proof. intros ->. by rewrite omap_lookup_seq. Qed.

Lemma StronglySorted_omap_lookup {A} (R : relation nat) (R' : relation A)
    (l : list A) (ix : list nat) :
  (∀ i j a b, l !! i = Some a → l !! j = Some b → R i j → R' a b) →
  StronglySorted R ix → StronglySorted R' (omap (λ i, l !! i) ix).
Proof.
  intros HR. induction 1 as [|i ix Hs IH Hi]; csimpl; [constructor|].
  destruct (l !! i) as [a|] eqn:Ea; [|done]. constructor; [done|].
  apply Forall_forall. intros b (j & Hj & Hb)%list_elem_of_omap.
  rewrite Forall_forall in Hi. eapply HR; eauto.
Qed.

Lemma value_counts_spec argsort (s : Series) :
  argsort_spec argsort →
  let present := List.filter (λ v, negb (isna v)) (values s) in
  value_counts argsort s false
    ≡ₚ zip (unique present) ((λ v, count_of v present) <$> unique present)
  ∧ StronglySorted (λ a b, b ≤ a) (value_counts argsort s false).*2.
Proof.
  intros Hsort present. unfold value_counts. fold present.
  set (keys := unique present). set (counts := (λ v, count_of v present) <$> keys).
  set (qs := (λ n, inject_Z (Z.of_nat n)) <$> counts).
  assert (Hq : (λ n, Some (inject_Z (Z.of_nat n))) <$> counts = Some <$> qs).
  { unfold qs. by rewrite <- list_fmap_compose. }
  rewrite Hq.
  assert (Hlen : length (zip keys counts) = length qs).
  { unfold qs, counts. rewrite length_zip, !length_fmap. lia. }
  split.
  - apply omap_lookup_Permutation. rewrite Hlen. by apply nargsort_Permutation.
  - rewrite list_fmap_omap.
    assert (Hsnd : ∀ i, snd <$> zip keys counts !! i = counts !! i).
    { intros i. rewrite <- list_lookup_fmap, snd_zip; [done|].
      unfold counts. by rewrite length_fmap. }
    erewrite (list_omap_ext _ (λ i, counts !! i));
      [|apply Forall_Forall2_diag, Forall_forall; intros i _; apply Hsnd].
    eapply StronglySorted_omap_lookup; [|apply (nargsort_descending argsort qs Hsort)].
    intros i j a b Ha Hb Hij. simpl in Hij. unfold key_at, qs in Hij.
    rewrite !list_lookup_fmap, Ha, Hb in Hij. simpl in Hij.
    rewrite <- Zle_Qle in Hij. lia.
Qed.

(** The counts shown for the labels: one entry per distinct label that is
    present, the largest count first, and together they count every row
    of the merged table that has a label, once. *)
Theorem shown_label_counts_add_up (B : Backend) (k : kernel) (d : DataFrame)
    (cs : list (value * nat)) :
  argsort_spec (argsort B) →
  globals k !! "adshex" = Some (DF d) →
  cell_12 B k = Ok (Counts cs) →
  sum_list cs.*2 = length (List.filter (λ r, negb (unlabelled r)) (rows d))
  ∧ cs.*1 ≡ₚ unique (List.filter (λ v, negb (isna v)) (column_values d "label"))
  ∧ StronglySorted (λ a b, b ≤ a) cs.*2.
Proof.
  intros Hsort Hd H12. unfold cell_12, counts_of in H12.
  rewrite (frame_Some _ _ _ Hd) in H12. simpl in H12.
  unfold getattr in H12. case_bool_decide; [|done]. simpl in H12.
  injection H12 as <-.
  destruct (value_counts_spec (argsort B)
              (mkSeries "label" (bool_decide ("label" ∈ categorical d)) (labels_of d)
                        (column_values d "label")) Hsort) as [Hp Hs].
  cbn [values] in Hp. split; [|split; [|done]].
  - rewrite Hp, snd_zip by (by rewrite length_fmap).
    rewrite sum_counts_unique. unfold column_values.
    rewrite (List_filter_fmap _ _ (λ r, negb (unlabelled r))) by done.
    apply length_fmap.
  - rewrite Hp, fst_zip by (by rewrite length_fmap). done.
Qed.

Lemma shown_label_counts_add_up_witness :
  sum_list [(Num 1, 3); (Num 0, 2)].*2
  = length (List.filter (λ r, negb (unlabelled r)) (rows merged))
  ∧ [(Num 1, 3); (Num 0, 2)].*1
    ≡ₚ unique (List.filter (λ v, negb (isna v)) (column_values merged "label"))
  ∧ StronglySorted (λ a b, b ≤ a) [(Num 1, 3); (Num 0, 2)].*2.
Proof.
  apply (shown_label_counts_add_up backend (after 14) merged).
  - exact argsort_stable_spec.
  - vm_compute; reflexivity.
  - vm_compute; reflexivity.
Defined.

(** The check of the type codes never shows anything: cell 22 asks for
    the column [type_code], which cell 21 failed to create.  In every run
    from a fresh kernel whose merged table has no column of that name,
    the cell raises [AttributeError]. *)
Theorem type_code_counts_raise (B : Backend) (fs : gmap string csv) (d : DataFrame) :
  globals (run loading (fresh fs)) !! "adshex" = Some (DF d) →
  "type_code" ∉ columns d →
  cell_22 B (run (upto 21 (notebook B)) (fresh fs)) = Raise (AttributeError "type_code").
Proof.
  intros Hd Hc. destruct (cells_19_21_raise B fs) as [e ->].
  rewrite upto_14, run_app, run_singleton.
  set (k := run loading (fresh fs)) in *. clearbody k.
  assert (H14 : ∃ d', globals (exec 14 cell_14 k) !! "adshex" = Some (DF d')
                      ∧ columns d' = columns d).
  { unfold cell_14, exec. destruct (assign_column _ _ _ k) as [k'|err] eqn:E.
    - stmt_inv E. apply frame_inv in H0. rewrite Hd in H0. injection H0 as <-.
      eexists. split; [apply lookup_insert_eq|].
      unfold setitem, set_column. cbn [columns]. inv_result H.
      unfold getattr in E0. case_bool_decide; [|done].
      apply frame_inv in E. rewrite Hd in E. injection E as <-.
      by rewrite bool_decide_eq_true_2.
    - by exists d. }
  destruct H14 as (d' & Hd' & Hcols).
  unfold cell_22, counts_of, frame, name, log_raise. cbn [globals].
  rewrite Hd'. simpl. unfold getattr. rewrite Hcols.
  by rewrite bool_decide_eq_false_2.
Qed.

Lemma type_code_counts_raise_witness :
  cell_22 backend (run (upto 21 (notebook backend)) (fresh disk))
  = Raise (AttributeError "type_code").
Proof.
  apply (type_code_counts_raise backend disk merged_raw).
  - vm_compute; reflexivity.
  - vm_decide.
Defined.

End Shown.

(** ** Where the rows of the merged table go *)

Section DataFlow.
Import Pandas Sklearn Notebook Spec Examples Inputs Facts.

Lemma List_filter_split {A} (p q : A → bool) (l : list A) :
  (∀ x, In x l → p x = true → q x = false) →
  List.filter p l ++ List.filter q l
    ++ List.filter (λ x, negb (p x) && negb (q x)) l ≡ₚ l.
Proof.
  induction l as [|a l IH]; intros Hpq; [done|]. simpl.
  specialize (IH (λ x Hx, Hpq x (or_intror Hx))).
  destruct (p a) eqn:Ep, (q a) eqn:Eq; simpl.
  - by rewrite (Hpq a (or_introl eq_refl) Ep) in Eq.
  - by constructor.
  - rewrite <- Permutation_middle. by constructor.
  - rewrite <- !Permutation_middle. by constructor.
Qed.

Lemma assoc_In c (cs : list (string * value)) : c ∈ cs.*1 → (c, assoc c cs) ∈ cs.
Proof.
  induction cs as [|[k v] cs IH]; csimpl; [by intros ?%elem_of_nil|].
  case_bool_decide; [subst; by left|].
  intros [->|Hc]%elem_of_cons; [done|]. right. by apply IH.
Qed.

Lemma complete_labelled d r :
  wf d → "label" ∈ columns d → r ∈ rows d → complete r = true → unlabelled r = false.
Proof.
  intros [_ Hrows] Hl Hr Hc. rewrite Forall_forall in Hrows.
  unfold complete in Hc. rewrite forallb_forall in Hc.
  specialize (Hc ("label", assoc "label" (cells r))). unfold unlabelled.
  apply negb_true_iff, Hc, list_elem_of_In, assoc_In. by rewrite (Hrows r Hr).
Qed.

(** Every row of the merged table goes one of three ways: into the
    training subset of cell 26 (no missing cell), into the frame that is
    scored, [new_df] of cell 76 (no label), or nowhere: a plane that has
    a label but lacks a feature value is neither trained on nor scored.
    No row goes two ways. *)
Theorem rows_are_trained_on_scored_or_lost (k : kernel) (d : DataFrame) :
  globals k !! "adshex" = Some (DF d) → wf d → "label" ∈ columns d →
  ∃ t n,
    globals (exec 76 cell_76 (exec 26 cell_26 k)) !! "train_df" = Some (DF t)
    ∧ globals (exec 76 cell_76 (exec 26 cell_26 k)) !! "new_df" = Some (DF n)
    ∧ rows t ++ rows n
        ++ List.filter (λ r, negb (complete r) && negb (unlabelled r)) (rows d)
       ≡ₚ rows d
    ∧ (∀ r, r ∈ rows t → r ∈ rows n → False).
Proof.
  intros Hd Hwf Hl. rewrite (cell_26_spec k d Hd).
  rewrite (cell_76_spec _ d) by (by rewrite ?globals_bind_name, ?lookup_insert_ne).
  eexists _, _. unfold bind_name. cbn [globals].
  split; [by rewrite lookup_insert_ne by done; apply lookup_insert_eq|].
  split; [apply lookup_insert_eq|]. cbn [rows dropna]. split.
  - apply (List_filter_split complete unlabelled). intros r Hr%list_elem_of_In Hc.
    by eapply complete_labelled.
  - intros r [Hr Hc]%list_elem_of_In%filter_In [_ Hu]%list_elem_of_In%filter_In.
    apply list_elem_of_In in Hr.
    by rewrite (complete_labelled d r Hwf Hl Hr Hc) in Hu.
Qed.

Lemma rows_are_trained_on_scored_or_lost_witness :
  ∃ t n,
    globals (exec 76 cell_76 (exec 26 cell_26 (after 21))) !! "train_df" = Some (DF t)
    ∧ globals (exec 76 cell_76 (exec 26 cell_26 (after 21))) !! "new_df" = Some (DF n)
    ∧ rows t ++ rows n
        ++ List.filter (λ r, negb (complete r) && negb (unlabelled r)) (rows merged)
       ≡ₚ rows merged
    ∧ (∀ r, r ∈ rows t → r ∈ rows n → False).
Proof.
  apply (rows_are_trained_on_scored_or_lost (after 21) merged).
  - vm_compute; reflexivity.
  - exact wf_merged.
  - vm_decide.
Defined.

(** On the example, the plane that is lost is A4: labelled, its type
    missing. *)
Example the_lost_plane :
  (λ r, assoc "adshex" (cells r))
    <$> List.filter (λ r, negb (complete r) && negb (unlabelled r)) (rows merged)
  = [Str "A4"].
Proof. reflexivity. Qed.

Lemma filter_filter_drop (cols : list string) :
  filter (λ c, c ∉ ["label"]) (filter (λ c, c ∉ ["adshex"; "type"]) cols)
  = filter (λ c, c ∉ dropped) cols.
Proof.
  rewrite list_filter_filter. apply list_filter_iff. intros c. unfold dropped.
  rewrite !not_elem_of_cons. tauto.
Qed.

Lemma filter_filter_cells (cs : list (string * value)) :
  filter (λ kv, kv.1 ∉ ["label"]) (filter (λ kv, kv.1 ∉ ["adshex"; "type"]) cs)
  = filter (λ kv, kv.1 ∉ dropped) cs.
Proof.
  rewrite list_filter_filter. apply list_filter_iff. intros c. unfold dropped.
  rewrite !not_elem_of_cons. tauto.
Qed.

(** Training and scoring cut the same columns.  From the merged table,
    cells 26, 28 and 34 bind to [X] the complete rows without the
    columns [adshex], [type] and [label], and to [y] their labels: the
    columns of [X] are exactly the columns that cell 81 leaves in the
    frame to be scored, which is why the forest accepts it. *)
Theorem training_frame_has_the_scoring_columns (k : kernel) (d : DataFrame) :
  globals k !! "adshex" = Some (DF d) →
  Forall (λ c, c ∈ columns d) dropped →
  ∃ X y,
    globals (exec 34 cell_34 (exec 28 cell_28 (exec 26 cell_26 k))) !! "X" = Some (DF X)
    ∧ globals (exec 34 cell_34 (exec 28 cell_28 (exec 26 cell_26 k))) !! "y" = Some (Ser y)
    ∧ columns X = feature_columns d
    ∧ columns X = columns (scoring_frame d)
    ∧ rows X = (λ r, mkRow (idx r) (feature_cells r)) <$> List.filter complete (rows d)
    ∧ index y = labels_of X.
Proof.
  intros Hd Hcols. apply Forall_cons in Hcols as [Hlabel Hcols].
  destruct (drop (dropna d) ["adshex"; "type"]) as [t|] eqn:Et;
    [|by rewrite drop_ok in Et].
  destruct (drop t ["label"]) as [X|] eqn:EX.
  2:{ rewrite drop_ok in Et by done. injection Et as <-.
      rewrite drop_ok in EX; [done|]. apply Forall_singleton. cbn [columns].
      apply list_elem_of_filter. split; [by apply (bool_decide_unpack _)|done]. }
  assert (Hl : "label" ∈ columns t).
  { pose proof (drop_inv _ _ _ EX) as [HF _]. by inversion HF. }
  assert (Hrun : exec 34 cell_34 (exec 28 cell_28 (exec 26 cell_26 k))
                 = bind_name "y"
                     (Ser (mkSeries "label" (bool_decide ("label" ∈ categorical t))
                                    (labels_of t) (column_values t "label")))
                     (bind_name "X" (DF X) (bind_name "train_df" (DF t) k))).
  { rewrite (cell_26_spec k d Hd). unfold cell_28. rewrite exec_assign.
    rewrite (frame_Some _ "train_df" (dropna d)) by apply lookup_insert_eq.
    rewrite bind_Ok, Et, bind_Ok, bind_name_twice.
    assert (Ht : globals (bind_name "train_df" (DF t) k) !! "train_df" = Some (DF t))
      by apply lookup_insert_eq.
    unfold cell_34.
    erewrite exec_cons_ok.
    2:{ unfold assign. by rewrite (frame_Some _ _ _ Ht), bind_Ok, EX. }
    erewrite exec_cons_ok; [reflexivity|].
    unfold assign. rewrite (frame_Some _ "train_df" t)
      by (by rewrite globals_bind_name, lookup_insert_ne).
    rewrite bind_Ok. unfold getattr. by rewrite bool_decide_eq_true_2. }
  rewrite Hrun. eexists _, _. unfold bind_name. cbn [globals].
  split; [by rewrite lookup_insert_ne by done; apply lookup_insert_eq|].
  split; [apply lookup_insert_eq|].
  pose proof (labels_of_drop _ _ _ EX) as Hlab.
  rewrite drop_ok in Et by done. injection Et as <-.
  apply drop_inv in EX as [_ ->]. cbn [columns rows index].
  rewrite filter_filter_drop.
  split; [done|]. split; [done|]. split; [|done].
  rewrite <- !list_fmap_compose. apply list_fmap_ext. intros i r _. simpl.
  unfold feature_cells. by rewrite filter_filter_cells.
Qed.

Lemma training_frame_has_the_scoring_columns_witness :
  ∃ X y,
    globals (exec 34 cell_34 (exec 28 cell_28 (exec 26 cell_26 (after 21)))) !! "X"
    = Some (DF X)
    ∧ globals (exec 34 cell_34 (exec 28 cell_28 (exec 26 cell_26 (after 21)))) !! "y"
      = Some (Ser y)
    ∧ columns X = feature_columns merged
    ∧ columns X = columns (scoring_frame merged)
    ∧ rows X
      = (λ r, mkRow (idx r) (feature_cells r)) <$> List.filter complete (rows merged)
    ∧ index y = labels_of X.
Proof.
  apply (training_frame_has_the_scoring_columns (after 21) merged).
  - vm_compute; reflexivity.
  - vm_decide.
Defined.

End DataFlow.

(** ** Category codes *)

Section Codes.
Import Pandas Sklearn Notebook Spec Examples Inputs Facts.







(** The codes of the example: the four type strings in lexicographic
    order, and -1 for the plane without a type. *)
Example codes_of_the_example :
  code_of (categories (column_values merged_categorical "type"))
    <$> column_values merged_categorical "type"
  = [Num 0; Num 3; Num 0; Num (-1); Num 1; Num 0; Num 2].
Proof. reflexivity. Qed.

End Codes.

(** ** What a stable sort would do *)

Section Stable.
Import Pandas Sklearn Notebook Spec Examples Inputs Facts.

Lemma StronglySorted_weaken {A} (R R' : relation A) (l : list A) :
  (∀ x y, R x y → R' x y) → StronglySorted R l → StronglySorted R' l.
Proof.
  intros HR. induction 1 as [|a l Hs IH Ha]; constructor; [done|].
  eapply Forall_impl; [exact Ha|]. intros x. apply HR.
Qed.

Lemma StronglySorted_lookup {A} (R : relation A) (l : list A) i j x y :
  StronglySorted R l → i < j → l !! i = Some x → l !! j = Some y → R x y.
Proof.
  intros Hs. revert i j. induction Hs as [|a l Hs IH Ha]; intros i j Hij Hi Hj; [done|].
  destruct j as [|j]; [lia|]. simpl in Hj. destruct i as [|i]; simpl in Hi.
  - injection Hi as ->. rewrite Forall_forall in Ha. apply Ha.
    by eapply list_elem_of_lookup_2.
  - apply (IH i j); [lia|done|done].
Qed.

Lemma omap_lookup_in_range {A} (l : list A) (ix : list nat) i r :
  Forall (λ a, a < length l) ix →
  omap (λ a, l !! a) ix !! i = Some r → ∃ a, ix !! i = Some a ∧ l !! a = Some r.
Proof.
  intros Hix. revert i. induction Hix as [|a ix Ha _ IH]; intros i; csimpl; [done|].
  destruct (lookup_lt_is_Some_2 l a Ha) as [x Hx]. rewrite Hx. simpl.
  destruct i as [|i]; simpl; [intros [= <-]; eauto|apply IH].
Qed.

Lemma stable_is_argsort f : stable_spec f → argsort_spec f.
Proof.
  intros Hf keys. destruct (Hf keys) as [Hp Hs]. split; [done|].
  eapply StronglySorted_weaken; [|exact Hs].
  intros i j [Hlt|[Heq _]]; [by apply Qlt_le_weak|rewrite Heq; apply Qle_refl].
Qed.

(** The descending indexer of a stable argsort: the reversal before and
    after the sort puts equal keys back in the order of their
    positions. *)
Lemma nargsort_stable f qs :
  stable_spec f → StronglySorted (after_stably qs) (nargsort f (Some <$> qs) false).
Proof.
  intros Hf. destruct (Hf (reverse qs)) as [Hp Hs]. rewrite length_reverse in Hp.
  assert (Hrange : Forall (λ j, j < length qs) (f (reverse qs))).
  { apply Forall_forall. intros j Hj. rewrite Hp in Hj.
    apply elem_of_seq in Hj. lia. }
  rewrite nargsort_numeric, (mirror_indexer _ _ Hrange).
  apply (StronglySorted_reverse (λ i j, after_stably qs j i)).
  eapply StronglySorted_fmap_Forall; [exact Hrange| |exact Hs].
  intros x y Hx Hy Hxy. simpl. unfold after_stably, before_stably in *.
  rewrite !key_at_mirror by done. destruct Hxy as [Hlt|[Heq Hlt]]; [by left|].
  right. split; [by symmetry|lia].
Qed.

(** *** The insertion argsort of the examples is stable *)

Lemma insert_stable keys i s :
  StronglySorted (before_stably keys) s → Forall (λ j, j < i) s →
  StronglySorted (before_stably keys)
    (insert_by (λ j i, Qle_bool (key_at keys j) (key_at keys i)) i s).
Proof.
  induction 1 as [|j s Hs IH Hj]; intros Hlt; simpl; [repeat constructor|].
  apply Forall_cons in Hlt as [Hji Hlt].
  destruct (Qle_bool (key_at keys j) (key_at keys i)) eqn:E.
  - constructor; [by apply IH|]. rewrite insert_by_Permutation.
    constructor; [|done]. apply Qle_bool_iff, Qle_lteq in E as [E|E]; [by left|by right].
  - assert (Hij : (key_at keys i < key_at keys j)%Q).
    { apply Qnot_le_lt. intros Hle. apply Qle_bool_iff in Hle. congruence. }
    constructor; [by constructor|]. constructor; [by left|].
    eapply Forall_impl; [exact Hj|]. intros x [Hx|[Hx _]]; left.
    + by eapply Qlt_trans.
    + by rewrite <- Hx.
Qed.

Lemma insertion_fold_stable keys m start acc :
  StronglySorted (before_stably keys) acc → Forall (λ j, j < start) acc →
  let res := foldl (λ acc i, insert_by (λ j i, Qle_bool (key_at keys j) (key_at keys i))
                                       i acc) acc (seq start m) in
  res ≡ₚ seq start m ++ acc ∧ StronglySorted (before_stably keys) res.
Proof.
  revert start acc. induction m as [|m IH]; intros start acc Hs Hlt; simpl; [done|].
  destruct (IH (S start)
              (insert_by (λ j i, Qle_bool (key_at keys j) (key_at keys i)) start acc))
    as [Hp Hs'].
  - by apply insert_stable.
  - rewrite insert_by_Permutation. constructor; [lia|].
    eapply Forall_impl; [exact Hlt|]. intros x. simpl. lia.
  - split; [|done]. simpl in Hp. rewrite Hp, insert_by_Permutation.
    by rewrite Permutation_middle.
Qed.

Lemma argsort_stable_is_stable : stable_spec argsort_stable.
Proof.
  intros keys. unfold argsort_stable, argsort_by.
  destruct (insertion_fold_stable keys (length keys) 0 []) as [Hp Hs];
    [constructor|constructor|].
  split; [|done]. by rewrite Hp, app_nil_r.
Qed.

(** With a stable sort ([kind='stable'] passed to [sort_values], which
    the notebook does not do) cell 93 would order the scored rows as the
    specification describes: scores from the largest down, and rows with
    equal scores in the order of their index labels, that is, in the
    order of the merged table. *)
Theorem a_stable_sort_would_keep_ties_in_order (B : Backend) (k : kernel)
    (X : DataFrame) (qs : list Q) :
  stable_spec (argsort B) →
  globals k !! "X" = Some (DF X) → "predicted_prob" ∈ columns X →
  column_values X "predicted_prob" = Num <$> qs →
  StronglySorted lt (labels_of X) →
  ∃ df, globals (exec 93 (cell_93 B) k) !! "df" = Some (DF df)
        ∧ ties_in_original_order "predicted_prob" (rows df).
Proof.
  intros Hf HX Hcol Hq Hlab. rewrite (cell_93_spec B k X qs HX Hcol Hq).
  eexists. split; [apply lookup_insert_eq|]. cbn [rows head].
  set (ix := nargsort (argsort B) (Some <$> qs) false).
  assert (Hlen : length qs = length (rows X)).
  { apply (f_equal length) in Hq. unfold column_values in Hq.
    by rewrite !length_fmap in Hq. }
  assert (Hrange : Forall (λ a, a < length (rows X)) ix).
  { apply Forall_forall. intros a Ha. unfold ix in Ha.
    rewrite (nargsort_Permutation _ _ (stable_is_argsort _ Hf)) in Ha.
    apply elem_of_seq in Ha. lia. }
  pose proof (nargsort_stable (argsort B) qs Hf) as Hs. fold ix in Hs.
  intros i j ri rj Hij Hi Hj Heq.
  apply lookup_take_Some in Hi as [Hi _]. apply lookup_take_Some in Hj as [Hj _].
  destruct (omap_lookup_in_range _ _ _ _ Hrange Hi) as (a & Ha & Hra).
  destruct (omap_lookup_in_range _ _ _ _ Hrange Hj) as (b & Hb & Hrb).
  pose proof (StronglySorted_lookup _ _ _ _ _ _ Hs Hij Ha Hb) as Hab.
  assert (Hkey : ∀ c r, rows X !! c = Some r →
                        assoc "predicted_prob" (cells r) = Num (key_at qs c)).
  { intros c r Hr. apply (f_equal (λ l, l !! c)) in Hq. unfold column_values in Hq.
    rewrite !list_lookup_fmap, Hr in Hq. simpl in Hq. unfold key_at.
    destruct (qs !! c); simpl in *; congruence. }
  rewrite (Hkey a ri Hra), (Hkey b rj Hrb) in Heq. simpl in Heq.
  apply Qeq_bool_iff in Heq.
  assert (Hlt : a < b).
  { destruct Hab as [Hab|[_ Hab]]; [|done]. rewrite Heq in Hab.
    by apply Qlt_irrefl in Hab. }
  apply (StronglySorted_lookup lt (labels_of X) a b); [done|done|..];
    unfold labels_of; by rewrite list_lookup_fmap, ?Hra, ?Hrb.
Qed.

Lemma a_stable_sort_would_keep_ties_in_order_witness :
  ∃ df, globals (exec 93 (cell_93 backend) (after_on disk_ties 90)) !! "df" = Some (DF df)
        ∧ ties_in_original_order "predicted_prob" (rows df).
Proof.
  apply (a_stable_sort_would_keep_ties_in_order backend (after_on disk_ties 90)
           (frame_of (after_on disk_ties 90) "X") (replicate 20 (1 # 2))).
  - exact argsort_stable_is_stable.
  - vm_compute; reflexivity.
  - vm_decide.
  - vm_compute; reflexivity.
  - vm_compute. repeat (constructor; [|repeat constructor; lia]). constructor.
Defined.

End Stable.

(** ** Columns that both tables carry *)

Section Suffixes.
Import Pandas Sklearn Notebook Spec Examples Inputs Facts.





End Suffixes.
